(** * pycon/joycon.py: a shallow embedding of the Joy-Con HID driver

    The driver talks to a game controller over a raw HID channel.  This
    development embeds the class [JoyCon] of [src/pycon/joycon.py]:

    - Python integers are [Z]; [bytes] objects are [list Z] whose elements
      are byte values; Python lists are [list Z] read with stdpp's lookup
      and written with stdpp's insert;
    - Python floats are the rationals ([Q]) that a binary64 float holds:
      a division and the conversion of an integer round to the nearest
      float, ties to even ([Float64.round]), and raise [OverflowError]
      beyond the range, as Python does; the sign of a zero is not kept.
      The product of a raw sample and a coefficient in the accelerometer
      accessors is written as the exact rational that the float product
      rounds;
    - a raised exception is an explicit [Raise e] outcome, and a loop that
      may spin forever takes a fuel argument and answers [Diverge] when it
      is used up;
    - methods that touch [self] or the HID handle are state transformers
      over the record [JoyCon]. *)

From Stdlib Require Import ZArith QArith Qround Qabs Qpower Lqa Lia Bool.
From stdpp Require Import base list.

Local Open Scope Z_scope.

(** ** Outcomes of Python code *)

Inductive os_error : Set :=
  | HidReadFailed      (* the HID handle's read raised *)
  | SpiNack            (* "After SPI read @ ...: got NACK" *)
  | SpiUnexpectedAck.  (* "Something else than the expected ACK was recieved!" *)

Inductive exn : Set :=
  | AssertionError
  | IndexError
  | TypeError
  | ValueError
  | OverflowError
  | ZeroDivisionError
  | OSError (why : os_error).

Inductive outcome (A : Type) : Type :=
  | Ok (a : A)
  | Raise (e : exn)
  | Diverge.

Arguments Ok {A} a.
Arguments Raise {A} e.
Arguments Diverge {A}.

Definition obind {A B} (x : outcome A) (k : A -> outcome B) : outcome B :=
  match x with
  | Ok a => k a
  | Raise e => Raise e
  | Diverge => Diverge
  end.

#[global] Instance outcome_ret : MRet outcome := @Ok.
#[global] Instance outcome_bind : MBind outcome := fun A B k x => obind x k.

(** ** Binary64 floats

    A finite float is a rational [m * 2 ^ p] with [|m| < 2 ^ 53] and
    [p >= -1074]; a float operation computes the exact result and rounds
    it to the nearest such number, ties to the even [m]. *)

Module Float64.

(** [floor (log2 |x|)] for [x] other than 0. *)
Definition ilog2 (x : Q) : Z :=
  let e0 := Z.log2 (Z.abs (Qnum x)) - Z.log2 (Zpos (Qden x)) in
  if Qle_bool (2 ^ e0) (Qabs x) then e0 else e0 - 1.

(** The exponent of the unit in the last place of the floats next to [x]:
    53 significant bits, and no exponent below -1074 (subnormals). *)
Definition ulp_exp (x : Q) : Z :=
  if Qeq_bool x 0 then -1074 else Z.max (ilog2 x - 52) (-1074).

(** The integer nearest to [y], the even one when two are as near. *)
Definition round_half_even (y : Q) : Z :=
  let f := Qfloor y in
  match (y - inject_Z f ?= 1 # 2)%Q with
  | Lt => f
  | Gt => f + 1
  | Eq => if Z.even f then f else f + 1
  end.

(** Rounding to nearest, ties to even, with no bound on the exponent
    above; the result is in lowest terms. *)
Definition round (x : Q) : Q :=
  let p := ulp_exp x in
  Qred (inject_Z (round_half_even (x / 2 ^ p)) * 2 ^ p).

(** A rounded value is a finite float when it is below [2 ^ 1024] in
    magnitude; otherwise the operation has overflowed. *)
Definition finite (x : Q) : bool := negb (Qle_bool (2 ^ 1024) (Qabs x)).

End Float64.

(** ** Python primitives used by the driver *)

Module Py.

(** [seq[i]] for an integer index: negative indices count from the end. *)
Definition getitem {A} (l : list A) (i : Z) : outcome A :=
  let n := Z.of_nat (length l) in
  let j := if i <? 0 then n + i else i in
  if (0 <=? j) && (j <? n) then
    match l !! Z.to_nat j with
    | Some a => Ok a
    | None => Raise IndexError
    end
  else Raise IndexError.

(** A slice bound clipped the way [seq[lo:hi]] clips it. *)
Definition clip {A} (l : list A) (i : Z) : nat :=
  let n := Z.of_nat (length l) in
  Z.to_nat (if i <? 0 then Z.max 0 (n + i) else Z.min i n).

(** [seq[lo:hi]] *)
Definition slice {A} (l : list A) (lo hi : Z) : list A :=
  take (clip l hi - clip l lo)%nat (drop (clip l lo) l).

(** [seq[lo:]] *)
Definition slice_from {A} (l : list A) (lo : Z) : list A :=
  drop (clip l lo) l.

(** [a >> b] and [a << b]: a negative shift count is a [ValueError]. *)
Definition rshift (a b : Z) : outcome Z :=
  if b <? 0 then Raise ValueError else Ok (Z.shiftr a b).

Definition lshift (a b : Z) : outcome Z :=
  if b <? 0 then Raise ValueError else Ok (Z.shiftl a b).

(** The little-endian digits of [n] in base 256, [len] of them. *)
Fixpoint le_digits (len : nat) (n : Z) : list Z :=
  match len with
  | O => []
  | S len' => (n mod 256) :: le_digits len' (n / 256)
  end.

(** [n.to_bytes(len, "little")]: unsigned, so a negative [n] or one that
    does not fit is an [OverflowError]. *)
Definition to_bytes (n : Z) (len : nat) : outcome (list Z) :=
  if (0 <=? n) && (n <? 256 ^ Z.of_nat len)
  then Ok (le_digits len n)
  else Raise OverflowError.

(** [l[i] = v] on a list: the index must exist. *)
Definition setitem {A} (l : list A) (i : Z) (v : A) : outcome (list A) :=
  let n := Z.of_nat (length l) in
  let j := if i <? 0 then n + i else i in
  if (0 <=? j) && (j <? n) then Ok (<[Z.to_nat j := v]> l)
  else Raise IndexError.

(** [bytes(n)]: [n] zero bytes. *)
Definition zero_bytes (n : nat) : list Z := replicate n 0.

(** Equality of two [bytes] objects, as a boolean. *)
Definition bytes_eqb (a b : list Z) : bool :=
  bool_decide (a = b).

(** [float(n)] for an integer, as the arithmetic of a float with an
    integer converts it: "int too large to convert to float" is an
    [OverflowError]. *)
Definition of_int (n : Z) : outcome Q :=
  let x := Float64.round (inject_Z n) in
  if Float64.finite x then Ok x else Raise OverflowError.

(** [int / int], true division: the float nearest to the exact quotient,
    or "integer division result too large for a float". *)
Definition truediv (a b : Z) : outcome Q :=
  if b =? 0 then Raise ZeroDivisionError
  else
    let q := Float64.round (inject_Z a / inject_Z b) in
    if Float64.finite q then Ok q else Raise OverflowError.

(** [float / int]: the integer is converted first, then the floats are
    divided.  A nonzero integer converts to a float of magnitude 1 or more,
    so the quotient of a finite float cannot overflow. *)
Definition fdiv (x : Q) (b : Z) : outcome Q :=
  y ← of_int b;
  if Qeq_bool y 0 then Raise ZeroDivisionError
  else Ok (Float64.round (x / y)).

End Py.

(** A Python number returned by the stick accessors: the integer literal
    [0] or the float of a true division. *)
Inductive number : Type :=
  | Int (z : Z)
  | Float (q : Q).

(** ** The imported constants

    [from .constants import JOYCON_L_PRODUCT_ID, JOYCON_PRODUCT_IDS,
    JOYCON_R_PRODUCT_ID, JOYCON_VENDOR_ID].  The module [constants] is not
    part of the sources at hand, so the driver is embedded over any value
    of these four names; the left and right product ids are taken to be
    two different numbers. *)

Class constants : Type := {
  JOYCON_VENDOR_ID : Z;
  JOYCON_L_PRODUCT_ID : Z;
  JOYCON_R_PRODUCT_ID : Z;
  JOYCON_PRODUCT_IDS : list Z;
  left_right_differ : JOYCON_L_PRODUCT_ID <> JOYCON_R_PRODUCT_ID
}.

(** ** Static helpers of the class *)

(** [JoyCon._to_int16le_from_2bytes(hbytebe, lbytebe)].  Despite their
    names the first parameter is the low byte and the second the high
    byte of the little-endian pair. *)
Definition _to_int16le_from_2bytes (hbytebe lbytebe : Z) : Z :=
  let uint16le := Z.lor (Z.shiftl lbytebe 8) hbytebe in
  let int16le := if uint16le <? 32768 then uint16le else uint16le - 65536 in
  int16le.

(** The two's-complement little-endian encoding of a signed 16-bit
    integer, i.e. [v.to_bytes(2, "little", signed=True)], as the pair
    (low byte, high byte).  This is the encoder the decoder above is
    compared with; the driver itself only decodes. *)
Definition int16le_encode (v : Z) : Z * Z :=
  let u := v mod 65536 in
  (u mod 256, u / 256).

(** ** The HID handle and the object state *)

(** What the driver sees of the HID handle: the [k]-th call of
    [read] either delivers a report or raises ([None]); [cursor] counts
    the reports delivered so far and [written] keeps the frames passed to
    [write], oldest first. *)
Record hid_device : Type := {
  incoming : nat -> option (list Z);
  cursor : nat;
  written : list (list Z)
}.

(** A registered callback is opaque to the driver; it is known by a
    number. *)
Definition hook : Set := nat.

(** What the polling thread does that others can observe. *)
Inductive event : Type :=
  | Published (report : list Z)            (* self._input_report = report *)
  | Called (callback : hook) (report : list Z)  (* callback(self) *)
  | PrintedConnectionClosed.               (* print('connection closed') *)

(** The attributes of a [JoyCon] object.  [observed] is not an attribute:
    it records, oldest first, the events of the polling thread. *)
Record JoyCon : Type := {
  product_id : Z;
  color_body : list Z;
  color_btn : list Z;
  _input_hooks : list hook;
  _input_report : list Z;
  _packet_number : Z;
  _joycon_device : option hid_device;
  stick_cal : list Z;
  deadzone : Z;
  _ACCEL_OFFSET_X : Z;
  _ACCEL_OFFSET_Y : Z;
  _ACCEL_OFFSET_Z : Z;
  _ACCEL_COEFF_X : Q;
  _ACCEL_COEFF_Y : Q;
  _ACCEL_COEFF_Z : Q;
  observed : list event
}.

(** Attribute assignment, [self.attr = v], one function per attribute that
    the methods assign. *)

Definition set_color_body (v : list Z) (s : JoyCon) : JoyCon :=
  Build_JoyCon (product_id s) v (color_btn s) (_input_hooks s)
    (_input_report s) (_packet_number s) (_joycon_device s) (stick_cal s)
    (deadzone s) (_ACCEL_OFFSET_X s) (_ACCEL_OFFSET_Y s) (_ACCEL_OFFSET_Z s)
    (_ACCEL_COEFF_X s) (_ACCEL_COEFF_Y s) (_ACCEL_COEFF_Z s) (observed s).

Definition set_color_btn (v : list Z) (s : JoyCon) : JoyCon :=
  Build_JoyCon (product_id s) (color_body s) v (_input_hooks s)
    (_input_report s) (_packet_number s) (_joycon_device s) (stick_cal s)
    (deadzone s) (_ACCEL_OFFSET_X s) (_ACCEL_OFFSET_Y s) (_ACCEL_OFFSET_Z s)
    (_ACCEL_COEFF_X s) (_ACCEL_COEFF_Y s) (_ACCEL_COEFF_Z s) (observed s).

Definition set_input_hooks (v : list hook) (s : JoyCon) : JoyCon :=
  Build_JoyCon (product_id s) (color_body s) (color_btn s) v (_input_report s)
    (_packet_number s) (_joycon_device s) (stick_cal s) (deadzone s)
    (_ACCEL_OFFSET_X s) (_ACCEL_OFFSET_Y s) (_ACCEL_OFFSET_Z s)
    (_ACCEL_COEFF_X s) (_ACCEL_COEFF_Y s) (_ACCEL_COEFF_Z s) (observed s).

Definition set_input_report (v : list Z) (s : JoyCon) : JoyCon :=
  Build_JoyCon (product_id s) (color_body s) (color_btn s) (_input_hooks s) v
    (_packet_number s) (_joycon_device s) (stick_cal s) (deadzone s)
    (_ACCEL_OFFSET_X s) (_ACCEL_OFFSET_Y s) (_ACCEL_OFFSET_Z s)
    (_ACCEL_COEFF_X s) (_ACCEL_COEFF_Y s) (_ACCEL_COEFF_Z s) (observed s).

Definition set_packet_number (v : Z) (s : JoyCon) : JoyCon :=
  Build_JoyCon (product_id s) (color_body s) (color_btn s) (_input_hooks s)
    (_input_report s) v (_joycon_device s) (stick_cal s) (deadzone s)
    (_ACCEL_OFFSET_X s) (_ACCEL_OFFSET_Y s) (_ACCEL_OFFSET_Z s)
    (_ACCEL_COEFF_X s) (_ACCEL_COEFF_Y s) (_ACCEL_COEFF_Z s) (observed s).

Definition set_joycon_device (v : option hid_device) (s : JoyCon) : JoyCon :=
  Build_JoyCon (product_id s) (color_body s) (color_btn s) (_input_hooks s)
    (_input_report s) (_packet_number s) v (stick_cal s) (deadzone s)
    (_ACCEL_OFFSET_X s) (_ACCEL_OFFSET_Y s) (_ACCEL_OFFSET_Z s)
    (_ACCEL_COEFF_X s) (_ACCEL_COEFF_Y s) (_ACCEL_COEFF_Z s) (observed s).

Definition set_stick_cal (v : list Z) (s : JoyCon) : JoyCon :=
  Build_JoyCon (product_id s) (color_body s) (color_btn s) (_input_hooks s)
    (_input_report s) (_packet_number s) (_joycon_device s) v (deadzone s)
    (_ACCEL_OFFSET_X s) (_ACCEL_OFFSET_Y s) (_ACCEL_OFFSET_Z s)
    (_ACCEL_COEFF_X s) (_ACCEL_COEFF_Y s) (_ACCEL_COEFF_Z s) (observed s).

Definition set_deadzone (v : Z) (s : JoyCon) : JoyCon :=
  Build_JoyCon (product_id s) (color_body s) (color_btn s) (_input_hooks s)
    (_input_report s) (_packet_number s) (_joycon_device s) (stick_cal s) v
    (_ACCEL_OFFSET_X s) (_ACCEL_OFFSET_Y s) (_ACCEL_OFFSET_Z s)
    (_ACCEL_COEFF_X s) (_ACCEL_COEFF_Y s) (_ACCEL_COEFF_Z s) (observed s).

Definition set_ACCEL_COEFF_X (v : Q) (s : JoyCon) : JoyCon :=
  Build_JoyCon (product_id s) (color_body s) (color_btn s) (_input_hooks s)
    (_input_report s) (_packet_number s) (_joycon_device s) (stick_cal s)
    (deadzone s) (_ACCEL_OFFSET_X s) (_ACCEL_OFFSET_Y s) (_ACCEL_OFFSET_Z s) v
    (_ACCEL_COEFF_Y s) (_ACCEL_COEFF_Z s) (observed s).

Definition set_ACCEL_COEFF_Y (v : Q) (s : JoyCon) : JoyCon :=
  Build_JoyCon (product_id s) (color_body s) (color_btn s) (_input_hooks s)
    (_input_report s) (_packet_number s) (_joycon_device s) (stick_cal s)
    (deadzone s) (_ACCEL_OFFSET_X s) (_ACCEL_OFFSET_Y s) (_ACCEL_OFFSET_Z s)
    (_ACCEL_COEFF_X s) v (_ACCEL_COEFF_Z s) (observed s).

Definition set_ACCEL_COEFF_Z (v : Q) (s : JoyCon) : JoyCon :=
  Build_JoyCon (product_id s) (color_body s) (color_btn s) (_input_hooks s)
    (_input_report s) (_packet_number s) (_joycon_device s) (stick_cal s)
    (deadzone s) (_ACCEL_OFFSET_X s) (_ACCEL_OFFSET_Y s) (_ACCEL_OFFSET_Z s)
    (_ACCEL_COEFF_X s) (_ACCEL_COEFF_Y s) v (observed s).

(** [self._ACCEL_OFFSET_X, self._ACCEL_OFFSET_Y, self._ACCEL_OFFSET_Z = x, y, z] *)
Definition set_ACCEL_OFFSET (x y z : Z) (s : JoyCon) : JoyCon :=
  Build_JoyCon (product_id s) (color_body s) (color_btn s) (_input_hooks s)
    (_input_report s) (_packet_number s) (_joycon_device s) (stick_cal s)
    (deadzone s) x y z (_ACCEL_COEFF_X s) (_ACCEL_COEFF_Y s)
    (_ACCEL_COEFF_Z s) (observed s).

(** The polling thread did [evs]. *)
Definition observe (evs : list event) (s : JoyCon) : JoyCon :=
  Build_JoyCon (product_id s) (color_body s) (color_btn s) (_input_hooks s)
    (_input_report s) (_packet_number s) (_joycon_device s) (stick_cal s)
    (deadzone s) (_ACCEL_OFFSET_X s) (_ACCEL_OFFSET_Y s) (_ACCEL_OFFSET_Z s)
    (_ACCEL_COEFF_X s) (_ACCEL_COEFF_Y s) (_ACCEL_COEFF_Z s)
    (observed s ++ evs).

(** ** Methods as state transformers *)

Definition M (A : Type) : Type := JoyCon -> outcome A * JoyCon.

Definition ret {A} (a : A) : M A := fun s => (Ok a, s).

Definition raise {A} (e : exn) : M A := fun s => (Raise e, s).

Definition bind {A B} (m : M A) (k : A -> M B) : M B :=
  fun s =>
    match m s with
    | (Ok a, s') => k a s'
    | (Raise e, s') => (Raise e, s')
    | (Diverge, s') => (Diverge, s')
    end.

(** A computation that only reads. *)
Definition lift {A} (x : outcome A) : M A := fun s => (x, s).

Definition get : M JoyCon := fun s => (Ok s, s).

Definition modify (f : JoyCon -> JoyCon) : M unit := fun s => (Ok tt, f s).

(** [assert b] *)
Definition assert (b : bool) : M unit :=
  if b then ret tt else raise AssertionError.

#[global] Instance M_ret : MRet M := @ret.
#[global] Instance M_bind : MBind M := fun A B k m => bind m k.

(** ** The class [JoyCon] *)

Section Driver.

Context `{K : constants}.

Definition _INPUT_REPORT_SIZE : nat := 49.

Definition _RUMBLE_DATA : list Z := [0x00; 0x01; 0x40; 0x40; 0x00; 0x01; 0x40; 0x40].

Definition is_left (self : JoyCon) : bool :=
  product_id self =? JOYCON_L_PRODUCT_ID.

Definition is_right (self : JoyCon) : bool :=
  product_id self =? JOYCON_R_PRODUCT_ID.

(** [_close]: the handle is closed and forgotten. *)
Definition _close : M unit :=
  modify (set_joycon_device None).

(** [_read_input_report]: with no handle the method falls off its end
    and returns [None]. *)
Definition _read_input_report : M (option (list Z)) :=
  fun self =>
    match _joycon_device self with
    | Some d =>
        match incoming d (cursor d) with
        | Some report =>
            (Ok (Some report),
             set_joycon_device
               (Some (Build_hid_device (incoming d) (S (cursor d)) (written d)))
               self)
        | None => (Raise (OSError HidReadFailed), self)
        end
    | None => (Ok None, self)
    end.

(** [device.write(frame)] *)
Definition hid_write (frame : list Z) (d : hid_device) : hid_device :=
  Build_hid_device (incoming d) (cursor d) (written d ++ [frame]).

Definition _write_output_report (command subcommand argument : list Z) : M unit :=
  self ← get;
  match _joycon_device self with
  | None => mret tt
  | Some d =>
      counter ← lift (Py.to_bytes (_packet_number self) 1);
      modify (set_joycon_device
                (Some (hid_write (command ++ counter ++ _RUMBLE_DATA
                                    ++ subcommand ++ argument) d)));;
      modify (set_packet_number (Z.land (_packet_number self + 1) 0xF))
  end.

(** [report[0]] where [report] is what [_read_input_report] returned. *)
Definition tag_of (report : option (list Z)) : outcome Z :=
  match report with
  | Some b => Py.getitem b 0
  | None => Raise TypeError
  end.

(** [while report[0] != tag: report = self._read_input_report()], the
    loop of [_send_subcmd_get_response] (tag 0x21) and of
    [_update_input_report] (tag 0x30).  The loop leaves with the report
    that carries the tag. *)
Fixpoint discard_until (tag : Z) (fuel : nat) (report : option (list Z))
  : M (list Z) :=
  fun self =>
    match tag_of report with
    | Ok t =>
        if negb (t =? tag) then
          match fuel with
          | O => (Diverge, self)
          | S fuel' =>
              match _read_input_report self with
              | (Ok report', self') => discard_until tag fuel' report' self'
              | (Raise e, self') => (Raise e, self')
              | (Diverge, self') => (Diverge, self')
              end
          end
        else (Ok (default [] report), self)
    | Raise e => (Raise e, self)
    | Diverge => (Diverge, self)
    end.

(** [report = self._read_input_report()] followed by that loop. *)
Definition read_until (tag : Z) (fuel : nat) : M (list Z) :=
  report ← _read_input_report;
  discard_until tag fuel report.

Definition _send_subcmd_get_response (fuel : nat) (subcommand argument : list Z)
  : M (Z * list Z) :=
  _write_output_report [0x01] subcommand argument;;
  report ← read_until 0x21 fuel;
  assert (negb (Py.bytes_eqb (Py.slice report 1 2) subcommand));;
  b ← lift (Py.getitem report 13);
  mret (Z.land b 0x80, Py.slice_from report 13).

Definition _spi_flash_read (fuel : nat) (address size : Z) : M (list Z) :=
  assert (size <=? 0x1d);;
  a ← lift (Py.to_bytes address 4);
  n ← lift (Py.to_bytes size 1);
  let argument := a ++ n in
  '(ack, report) ← _send_subcmd_get_response fuel [0x10] argument;
  if ack =? 0 then raise (OSError SpiNack)
  else if negb (Py.bytes_eqb (Py.slice report 0 2) [0x90; 0x10])
  then raise (OSError SpiUnexpectedAck)
  else
    assert (Py.bytes_eqb (Py.slice report 2 7) argument);;
    mret (Py.slice report 7 (size + 7)).

(** The polling thread.  [poll] is the [while self._joycon_device] loop;
    one unit of fuel pays for one turn of it. *)
Definition publish (report : list Z) : M unit :=
  modify (fun self => observe [Published report] (set_input_report report self)).

(** [for callback in self._input_hooks: callback(self)].  A callback is
    opaque: the model records that it ran and which report it could see. *)
Definition run_hooks : M unit :=
  modify (fun self =>
    observe (map (fun callback => Called callback (_input_report self))
                 (_input_hooks self)) self).

Fixpoint poll (fuel : nat) : M unit :=
  fun self =>
    match _joycon_device self with
    | None => (Ok tt, self)
    | Some _ =>
        match fuel with
        | O => (Diverge, self)
        | S fuel' =>
            (report ← read_until 0x30 fuel';
             publish report;;
             run_hooks;;
             poll fuel') self
        end
    end.

(** [try: ... except OSError: print('connection closed')] *)
Definition _update_input_report (fuel : nat) : M unit :=
  fun self =>
    match poll fuel self with
    | (Raise (OSError _), self') =>
        (Ok tt, observe [PrintedConnectionClosed] self')
    | r => r
    end.

(** *** Calibration *)

(** [(buf[i] << 8) & 0xF00 | buf[j]] *)
Definition nibble_lo (buf : list Z) (i j : Z) : outcome Z :=
  a ← Py.getitem buf i;
  b ← Py.getitem buf j;
  mret (Z.lor (Z.land (Z.shiftl a 8) 0xF00) b).

(** [(buf[i] << 4) | (buf[j] >> 4)] *)
Definition nibble_hi (buf : list Z) (i j : Z) : outcome Z :=
  a ← Py.getitem buf i;
  b ← Py.getitem buf j;
  mret (Z.lor (Z.shiftl a 4) (Z.shiftr b 4)).

(** The 9-byte calibration block holds three pairs of 12-bit values:
    pair [g] (0, 1 or 2) sits in bytes [3g .. 3g+2], its X value
    ([orientation] 0) packed as [nibble_lo] and its Y value as
    [nibble_hi].  The comments of [_read_stick_calibration_data] call pair
    0 "Max above center", pair 1 "Center" and pair 2 "Min below center". *)
Definition stick_cal_pair (buf : list Z) (g orientation : Z) : outcome Z :=
  if orientation =? 0 then nibble_lo buf (3 * g + 1) (3 * g)
  else nibble_hi buf (3 * g + 2) (3 * g + 1).

Definition max_above_center (buf : list Z) := stick_cal_pair buf 0.
Definition center (buf : list Z) := stick_cal_pair buf 1.
Definition min_below_center (buf : list Z) := stick_cal_pair buf 2.

(** [self.stick_cal[i] = v] *)
Definition stick_cal_setitem (i : Z) (v : outcome Z) : M unit :=
  v ← lift v;
  self ← get;
  l ← lift (Py.setitem (stick_cal self) i v);
  modify (set_stick_cal l).

(** The [for b in buf] loop that sets [use_user_data] and breaks at the
    first byte that is not 0xFF. *)
Fixpoint use_user_data (buf : list Z) : bool :=
  match buf with
  | [] => false
  | b :: rest => if negb (b =? 0xFF) then true else use_user_data rest
  end.

Definition user_stick_cal_addr (self : JoyCon) : Z :=
  if is_left self then 0x8012 else 0x801D.

Definition factory_stick_cal_addr (self : JoyCon) : Z :=
  if is_left self then 0x603D else 0x6046.

(** The six item assignments that end [_read_stick_calibration_data]. *)
Definition store_stick_cal (buf : list Z) : M unit :=
  self ← get;
  modify (set_stick_cal (replicate 6 0));;
  (* X Axis Max above center *)
  stick_cal_setitem (if is_left self then 0 else 2) (nibble_lo buf 1 0);;
  (* Y Axis Max above center *)
  stick_cal_setitem (if is_left self then 1 else 3) (nibble_hi buf 2 1);;
  (* X Axis Center *)
  stick_cal_setitem (if is_left self then 2 else 4) (nibble_lo buf 4 3);;
  (* Y Axis Center *)
  stick_cal_setitem (if is_left self then 3 else 5) (nibble_hi buf 5 4);;
  (* X Axis Min below center *)
  stick_cal_setitem (if is_left self then 4 else 0) (nibble_lo buf 7 6);;
  (* Y Axis Min below center *)
  stick_cal_setitem (if is_left self then 5 else 1) (nibble_hi buf 8 7).

Definition _read_stick_calibration_data (fuel : nat) : M unit :=
  self ← get;
  buf ← _spi_flash_read fuel (user_stick_cal_addr self) 9;
  buf ← (if negb (use_user_data buf)
         then _spi_flash_read fuel (factory_stick_cal_addr self) 9
         else mret buf);
  store_stick_cal buf.

(** [set_accel_calibration(offset_xyz=None, coeff_xyz=None)].  An
    argument is [None] or a tuple of integers. *)
Definition truthy (t : option (list Z)) : bool :=
  match t with
  | Some (_ :: _) => true
  | _ => false
  end.

(** [a, b, c = t] *)
Definition unpack3 (t : option (list Z)) : outcome (Z * Z * Z) :=
  match t with
  | Some [a; b; c] => Ok (a, b, c)
  | Some _ => Raise ValueError
  | None => Raise TypeError
  end.

(** [(1.0 / (c - offset)) * 4.0] *)
Definition accel_coeff (c offset : Z) : outcome Q :=
  r ← Py.fdiv 1 (c - offset);
  mret (Float64.round (r * 4)).

Definition set_accel_calibration (offset_xyz coeff_xyz : option (list Z)) : M unit :=
  if truthy offset_xyz && truthy coeff_xyz then
    '(ox, oy, oz) ← lift (unpack3 offset_xyz);
    modify (set_ACCEL_OFFSET ox oy oz);;
    '(cx, cy, cz) ← lift (unpack3 coeff_xyz);
    self ← get;
    x ← lift (accel_coeff cx (_ACCEL_OFFSET_X self));
    modify (set_ACCEL_COEFF_X x);;
    self ← get;
    y ← lift (accel_coeff cy (_ACCEL_OFFSET_Y self));
    modify (set_ACCEL_COEFF_Y y);;
    self ← get;
    z ← lift (accel_coeff cz (_ACCEL_OFFSET_Z self));
    modify (set_ACCEL_COEFF_Z z)
  else mret tt.

Definition _read_joycon_data (fuel : nat) : M unit :=
  color_data ← _spi_flash_read fuel 0x6050 6;
  _read_stick_calibration_data fuel;;
  self ← get;
  buf ← _spi_flash_read fuel (if is_left self then 0x6086 else 0x6098) 16;
  dz ← lift (nibble_lo buf 4 3);
  modify (set_deadzone dz);;
  marker ← _spi_flash_read fuel 0x8026 2;
  imu_cal ← (if Py.bytes_eqb marker [0xB2; 0xA1]
             then _spi_flash_read fuel 0x8028 24
             else _spi_flash_read fuel 0x6020 24);
  modify (set_color_body (Py.slice color_data 0 3));;
  modify (set_color_btn (Py.slice_from color_data 3));;
  let int16 i j :=
    (a ← Py.getitem imu_cal i; b ← Py.getitem imu_cal j;
     mret (_to_int16le_from_2bytes a b)) : outcome Z in
  o0 ← lift (int16 0 1);
  o1 ← lift (int16 2 3);
  o2 ← lift (int16 4 5);
  c0 ← lift (int16 6 7);
  c1 ← lift (int16 8 9);
  c2 ← lift (int16 10 11);
  set_accel_calibration (Some [o0; o1; o2]) (Some [c0; c1; c2]).

Definition _setup_sensors : M unit :=
  _write_output_report [0x01] [0x40] [0x01];;
  _write_output_report [0x01] [0x03] [0x30].

Definition disconnect_device : M unit :=
  _write_output_report [0x01] [0x06] [0x00].

(** *** Decoding the current report *)

(** The three reads of [self.stick_cal] in [get_actual_stick_value]: the
    slot subtracted as the center, the divisor above the center and the
    divisor below it. *)
Definition center_slot (self : JoyCon) (orientation : Z) : outcome Z :=
  Py.getitem (stick_cal self) (2 + orientation).

Definition above_slot (self : JoyCon) (orientation : Z) : outcome Z :=
  Py.getitem (stick_cal self) orientation.

Definition below_slot (self : JoyCon) (orientation : Z) : outcome Z :=
  Py.getitem (stick_cal self) (4 + orientation).

Definition get_actual_stick_value (self : JoyCon) (pre_cal orientation : Z)
  : outcome number :=
  c ← center_slot self orientation;
  let diff := pre_cal - c in
  if Z.abs diff <? deadzone self then mret (Int 0)
  else if diff >? 0 then (* Axis is above center *)
    d ← above_slot self orientation;
    q ← Py.truediv diff d; mret (Float q)
  else
    d ← below_slot self orientation;
    q ← Py.truediv diff d; mret (Float q).

Definition register_update_hook (callback : hook) : M hook :=
  modify (fun self => set_input_hooks (_input_hooks self ++ [callback]) self);;
  mret callback.

Definition _get_nbit_from_input_report (self : JoyCon)
    (offset_byte offset_bit nbit : Z) : outcome Z :=
  byte ← Py.getitem (_input_report self) offset_byte;
  hi ← Py.rshift byte offset_bit;
  one ← Py.lshift 1 nbit;
  mret (Z.land hi (one - 1)).

Definition get_battery_charging self := _get_nbit_from_input_report self 2 4 1.
Definition get_battery_level self := _get_nbit_from_input_report self 2 5 3.
Definition get_button_y self := _get_nbit_from_input_report self 3 0 1.
Definition get_button_x self := _get_nbit_from_input_report self 3 1 1.
Definition get_button_b self := _get_nbit_from_input_report self 3 2 1.
Definition get_button_a self := _get_nbit_from_input_report self 3 3 1.
Definition get_button_right_sr self := _get_nbit_from_input_report self 3 4 1.
Definition get_button_right_sl self := _get_nbit_from_input_report self 3 5 1.
Definition get_button_r self := _get_nbit_from_input_report self 3 6 1.
Definition get_button_zr self := _get_nbit_from_input_report self 3 7 1.
Definition get_button_minus self := _get_nbit_from_input_report self 4 0 1.
Definition get_button_plus self := _get_nbit_from_input_report self 4 1 1.
Definition get_button_r_stick self := _get_nbit_from_input_report self 4 2 1.
Definition get_button_l_stick self := _get_nbit_from_input_report self 4 3 1.
Definition get_button_home self := _get_nbit_from_input_report self 4 4 1.
Definition get_button_capture self := _get_nbit_from_input_report self 4 5 1.
Definition get_button_charging_grip self := _get_nbit_from_input_report self 4 7 1.
Definition get_button_down self := _get_nbit_from_input_report self 5 0 1.
Definition get_button_up self := _get_nbit_from_input_report self 5 1 1.
Definition get_button_right self := _get_nbit_from_input_report self 5 2 1.
Definition get_button_left self := _get_nbit_from_input_report self 5 3 1.
Definition get_button_left_sr self := _get_nbit_from_input_report self 5 4 1.
Definition get_button_left_sl self := _get_nbit_from_input_report self 5 5 1.
Definition get_button_l self := _get_nbit_from_input_report self 5 6 1.
Definition get_button_zl self := _get_nbit_from_input_report self 5 7 1.

(** The getters that read a single bit: the battery-charging flag and the
    23 buttons. *)
Definition single_bit_getters : list (JoyCon -> outcome Z) :=
  [ get_battery_charging;
    get_button_y; get_button_x; get_button_b; get_button_a;
    get_button_right_sr; get_button_right_sl; get_button_r; get_button_zr;
    get_button_minus; get_button_plus; get_button_r_stick;
    get_button_l_stick; get_button_home; get_button_capture;
    get_button_charging_grip;
    get_button_down; get_button_up; get_button_right; get_button_left;
    get_button_left_sr; get_button_left_sl; get_button_l; get_button_zl ].

(** [lo | (hi << k)], the 12-bit raw stick reading. *)
Definition stick_pre_cal (self : JoyCon)
    (lo_byte lo_bit lo_n hi_byte hi_bit hi_n shift : Z) : outcome Z :=
  lo ← _get_nbit_from_input_report self lo_byte lo_bit lo_n;
  hi ← _get_nbit_from_input_report self hi_byte hi_bit hi_n;
  hi ← Py.lshift hi shift;
  mret (Z.lor lo hi).

Definition get_stick_left_horizontal (self : JoyCon) : outcome number :=
  if negb (is_left self) then mret (Int 0)
  else
    pre_cal ← stick_pre_cal self 6 0 8 7 0 4 8;
    get_actual_stick_value self pre_cal 0.

Definition get_stick_left_vertical (self : JoyCon) : outcome number :=
  if negb (is_left self) then mret (Int 0)
  else
    pre_cal ← stick_pre_cal self 7 4 4 8 0 8 4;
    get_actual_stick_value self pre_cal 1.

Definition get_stick_right_horizontal (self : JoyCon) : outcome number :=
  if is_left self then mret (Int 0)
  else
    pre_cal ← stick_pre_cal self 9 0 8 10 0 4 8;
    get_actual_stick_value self pre_cal 0.

Definition get_stick_right_vertical (self : JoyCon) : outcome number :=
  if is_left self then mret (Int 0)
  else
    pre_cal ← stick_pre_cal self 10 4 4 11 0 8 4;
    get_actual_stick_value self pre_cal 1.

(** [if not input_report: input_report = self._input_report]: [None] and
    the empty [bytes] are both falsy. *)
Definition report_or_current (self : JoyCon) (input_report : option (list Z))
  : list Z :=
  match input_report with
  | Some (b :: rest) => b :: rest
  | _ => _input_report self
  end.

(** [sample_idx not in (0, 1, 2)] *)
Definition bad_sample_idx (sample_idx : Z) : bool :=
  negb ((sample_idx =? 0) || (sample_idx =? 1) || (sample_idx =? 2)).

(** The raw 16-bit reading whose low byte is at [first + sample_idx * 12]
    and whose high byte follows it. *)
Definition accel_raw (self : JoyCon) (input_report : option (list Z))
    (sample_idx first : Z) : outcome Z :=
  let input_report := report_or_current self input_report in
  if bad_sample_idx sample_idx then Raise IndexError
  else
    a ← Py.getitem input_report (first + sample_idx * 12);
    b ← Py.getitem input_report (first + 1 + sample_idx * 12);
    mret (_to_int16le_from_2bytes a b).

Definition get_accel_x (self : JoyCon) (input_report : option (list Z))
    (sample_idx : Z) : outcome Q :=
  data ← accel_raw self input_report sample_idx 13;
  mret (inject_Z data * _ACCEL_COEFF_X self)%Q.

Definition get_accel_y (self : JoyCon) (input_report : option (list Z))
    (sample_idx : Z) : outcome Q :=
  data ← accel_raw self input_report sample_idx 15;
  mret (inject_Z data * _ACCEL_COEFF_Y self
        * inject_Z (if is_left self then 1 else -1))%Q.

Definition get_accel_z (self : JoyCon) (input_report : option (list Z))
    (sample_idx : Z) : outcome Q :=
  data ← accel_raw self input_report sample_idx 17;
  mret (inject_Z data * _ACCEL_COEFF_Z self
        * inject_Z (if is_left self then 1 else -1))%Q.

Definition get_accels (self : JoyCon) : outcome (list (Q * Q * Q)) :=
  let input_report := Some (_input_report self) in
  mapM (fun idx =>
          x ← get_accel_x self input_report idx;
          y ← get_accel_y self input_report idx;
          z ← get_accel_z self input_report idx;
          mret (x, y, z))
       [0; 1; 2].

(** [get_status]: the nested dict it returns has a fixed shape, which the
    records below mirror ("r-stick", "l-stick", "charging-grip" and
    "analog-sticks" are spelt with an underscore). *)
Record battery_status : Type := {
  battery_charging : Z;
  battery_level : Z
}.

Record right_buttons : Type := {
  right_y : Z; right_x : Z; right_b : Z; right_a : Z;
  right_sr : Z; right_sl : Z; right_r : Z; right_zr : Z
}.

Record shared_buttons : Type := {
  shared_minus : Z; shared_plus : Z; shared_r_stick : Z; shared_l_stick : Z;
  shared_home : Z; shared_capture : Z; shared_charging_grip : Z
}.

Record left_buttons : Type := {
  left_down : Z; left_up : Z; left_right : Z; left_left : Z;
  left_sr : Z; left_sl : Z; left_l : Z; left_zl : Z
}.

Record buttons_status : Type := {
  buttons_right : right_buttons;
  buttons_shared : shared_buttons;
  buttons_left : left_buttons
}.

Record stick_status : Type := {
  horizontal : number;
  vertical : number
}.

Record sticks_status : Type := {
  sticks_left : stick_status;
  sticks_right : stick_status
}.

Record status : Type := {
  battery : battery_status;
  buttons : buttons_status;
  analog_sticks : sticks_status;
  accel : list (Q * Q * Q)
}.

Definition get_status (self : JoyCon) : outcome status :=
  bc ← get_battery_charging self;
  bl ← get_battery_level self;
  y ← get_button_y self;
  x ← get_button_x self;
  b ← get_button_b self;
  a ← get_button_a self;
  rsr ← get_button_right_sr self;
  rsl ← get_button_right_sl self;
  r ← get_button_r self;
  zr ← get_button_zr self;
  mi ← get_button_minus self;
  pl ← get_button_plus self;
  rs ← get_button_r_stick self;
  ls ← get_button_l_stick self;
  ho ← get_button_home self;
  ca ← get_button_capture self;
  cg ← get_button_charging_grip self;
  dn ← get_button_down self;
  up ← get_button_up self;
  ri ← get_button_right self;
  le ← get_button_left self;
  lsr ← get_button_left_sr self;
  lsl ← get_button_left_sl self;
  l ← get_button_l self;
  zl ← get_button_zl self;
  lh ← get_stick_left_horizontal self;
  lv ← get_stick_left_vertical self;
  rh ← get_stick_right_horizontal self;
  rv ← get_stick_right_vertical self;
  acc ← get_accels self;
  mret {| battery := {| battery_charging := bc; battery_level := bl |};
          buttons :=
            {| buttons_right :=
                 {| right_y := y; right_x := x; right_b := b; right_a := a;
                    right_sr := rsr; right_sl := rsl; right_r := r;
                    right_zr := zr |};
               buttons_shared :=
                 {| shared_minus := mi; shared_plus := pl; shared_r_stick := rs;
                    shared_l_stick := ls; shared_home := ho;
                    shared_capture := ca; shared_charging_grip := cg |};
               buttons_left :=
                 {| left_down := dn; left_up := up; left_right := ri;
                    left_left := le; left_sr := lsr; left_sl := lsl;
                    left_l := l; left_zl := zl |} |};
          analog_sticks :=
            {| sticks_left := {| horizontal := lh; vertical := lv |};
               sticks_right := {| horizontal := rh; vertical := rv |} |};
          accel := acc |}.

(** *** Construction *)

(** The object as [__init__] has it after its "setup internal state"
    assignments and before the call of [set_accel_calibration] on line 42.
    The attributes that are only assigned later are given placeholder
    values; no method reads one of them before it is assigned. *)
Definition fresh (product_id : Z) : JoyCon :=
  {| product_id := product_id;
     color_body := []; color_btn := [];
     _input_hooks := [];
     _input_report := Py.zero_bytes _INPUT_REPORT_SIZE;
     _packet_number := 0;
     _joycon_device := None;
     stick_cal := []; deadzone := 0;
     _ACCEL_OFFSET_X := 0; _ACCEL_OFFSET_Y := 0; _ACCEL_OFFSET_Z := 0;
     _ACCEL_COEFF_X := 0; _ACCEL_COEFF_Y := 0; _ACCEL_COEFF_Z := 0;
     observed := [] |}.

(** [JoyCon(vendor_id, product_id)] up to the start of the polling
    thread; [device] is the handle that [_open] obtains. *)
Definition __init__ (fuel : nat) (vendor_id product_id : Z)
    (device : hid_device) : outcome unit * JoyCon :=
  if negb (vendor_id =? JOYCON_VENDOR_ID) then
    (Raise ValueError, fresh product_id)
  else if negb (bool_decide (product_id ∈ JOYCON_PRODUCT_IDS)) then
    (Raise ValueError, fresh product_id)
  else
    (set_accel_calibration (Some [0; 0; 0]) (Some [1; 1; 1]);;
     modify (set_joycon_device (Some device));;
     _read_joycon_data fuel;;
     _setup_sensors) (fresh product_id).

End Driver.

(** ** Vocabulary for what the handle delivers *)

(** The handle after [n] more reports were read from it. *)
Definition advance (n : nat) (d : hid_device) : hid_device :=
  Build_hid_device (incoming d) (n + cursor d) (written d).

(** From its [c]-th read on, the handle delivers [reports], in order. *)
Fixpoint delivers (d : hid_device) (c : nat) (reports : list (list Z)) : Prop :=
  match reports with
  | [] => True
  | report :: rest => incoming d c = Some report /\ delivers d (S c) rest
  end.

(** The report starts with the tag byte [tag]. *)
Definition has_tag (tag : Z) (report : list Z) : bool :=
  match report with
  | t :: _ => t =? tag
  | [] => false
  end.

(** The report has a tag byte and it is not [tag]. *)
Definition tag_differs (tag : Z) (report : list Z) : bool :=
  match report with
  | t :: _ => negb (t =? tag)
  | [] => false
  end.

(** What the polling thread does on [reports] when every report with tag
    0x30 is published and handed to the callbacks and every other report
    is dropped. *)
Fixpoint poll_events (hooks : list hook) (reports : list (list Z)) : list event :=
  match reports with
  | [] => []
  | report :: rest =>
      (if has_tag 0x30 report
       then Published report :: map (fun callback => Called callback report) hooks
       else [])
      ++ poll_events hooks rest
  end.

(** The report an event of the polling thread is about. *)
Definition event_report (ev : event) : option (list Z) :=
  match ev with
  | Published report => Some report
  | Called _ report => Some report
  | PrintedConnectionClosed => None
  end.

(** A byte value. *)
Definition byte (b : Z) : Prop := 0 <= b < 256.

(** Every report the handle delivers is a sequence of byte values, as the
    [bytes(...)] around every [read] makes sure. *)
Definition delivers_bytes (d : hid_device) : Prop :=
  forall k report, incoming d k = Some report -> Forall byte report.

(** Three bytes that hold the 12-bit values [x] and [y] the way
    [nibble_lo] and [nibble_hi] read them back: the low byte of [x]; the
    high nibble of [x] below the low nibble of [y]; the high byte of [y].
    The driver only unpacks; this is the packing its unpacking is compared
    with. *)
Definition nibble_pack (x y : Z) : list Z :=
  [x mod 256; x / 256 + 16 * (y mod 16); y / 16].



(** From [self] to [self'] the handle read [k] more reports and was
    written the frames [frames], and the packet counter moved on by their
    number, modulo 16. *)
Definition sent (k : nat) (frames : list (list Z)) (self self' : JoyCon) : Prop :=
  exists d,
    _joycon_device self = Some d
    /\ _joycon_device self'
       = Some (Build_hid_device (incoming d) (k + cursor d) (written d ++ frames))
    /\ _packet_number self'
       = (_packet_number self + Z.of_nat (length frames)) mod 16.

(** Nothing but the handle and the packet counter differs between [self]
    and [self']. *)
Definition same_but_handle (self self' : JoyCon) : Prop :=
  self' = set_joycon_device (_joycon_device self')
            (set_packet_number (_packet_number self') self).

(** The frame [_spi_flash_read] writes for [address] and [size] when the
    packet counter is [counter]. *)
Definition flash_read_frame (counter address size : Z) : list Z :=
  [0x01; counter] ++ [0x00; 0x01; 0x40; 0x40; 0x00; 0x01; 0x40; 0x40]
  ++ [0x10] ++ Py.le_digits 4 address ++ [size].

(** The frames of successive flash reads, given as (address, size) pairs,
    the first of them numbered [counter]. *)
Fixpoint flash_read_frames (counter : Z) (reads : list (Z * Z)) : list (list Z) :=
  match reads with
  | [] => []
  | (address, size) :: rest =>
      flash_read_frame counter address size
      :: flash_read_frames ((counter + 1) mod 16) rest
  end.

(** The flash reads of [_read_joycon_data], in order: the colors, the user
    stick calibration, the factory one when [factory_stick], the deadzone
    block, the marker of the user IMU calibration, and the IMU calibration
    at the user address when [user_imu] and at the factory one otherwise. *)
Definition setup_reads `{K : constants} (self : JoyCon)
    (factory_stick user_imu : bool) : list (Z * Z) :=
  [(0x6050, 6); (user_stick_cal_addr self, 9)]
  ++ (if factory_stick then [(factory_stick_cal_addr self, 9)] else [])
  ++ [(if is_left self then 0x6086 else 0x6098, 16);
      (0x8026, 2);
      (if user_imu then 0x8028 else 0x6020, 24)].

(** The two frames [_setup_sensors] writes when the packet counter is
    [counter]. *)
Definition sensor_frames (counter : Z) : list (list Z) :=
  [ [0x01; counter] ++ [0x00; 0x01; 0x40; 0x40; 0x00; 0x01; 0x40; 0x40]
    ++ [0x40; 0x01];
    [0x01; (counter + 1) mod 16] ++ [0x00; 0x01; 0x40; 0x40; 0x00; 0x01; 0x40; 0x40]
    ++ [0x03; 0x30] ].

(** The attributes no part of the setup writes: the product id, the
    callbacks, the current report and what the polling thread did. *)
Definition keeps_identity (self self' : JoyCon) : Prop :=
  product_id self' = product_id self
  /\ _input_hooks self' = _input_hooks self
  /\ _input_report self' = _input_report self
  /\ observed self' = observed self.

(** What the setup leaves in the calibration attributes: six stick
    entries and a deadzone of 12 bits, accelerometer offsets of 16 bits,
    signed, and two colors of at most three bytes. *)
Definition calibrated (self : JoyCon) : Prop :=
  length (stick_cal self) = 6%nat
  /\ Forall (fun v => 0 <= v <= 4095) (stick_cal self)
  /\ 0 <= deadzone self <= 4095
  /\ -32768 <= _ACCEL_OFFSET_X self <= 32767
  /\ -32768 <= _ACCEL_OFFSET_Y self <= 32767
  /\ -32768 <= _ACCEL_OFFSET_Z self <= 32767
  /\ (length (color_body self) <= 3)%nat /\ Forall byte (color_body self)
  /\ (length (color_btn self) <= 3)%nat /\ Forall byte (color_btn self).

(** ** Concrete controllers and devices

    The closed examples below run the driver on these. *)

(** Modelled from the spec: the module [pycon/constants.py], which the
    sources at hand do not include.  The spec (section 3, "Device
    Identity") says that the product id is "one of a left/right/pro
    variant enumeration" and that it is "validated against an allow-list
    at construction time".  The numbers are the USB ids of the three
    devices; the examples only use that they differ. *)
Definition spec_constants : constants :=
  {| JOYCON_VENDOR_ID := 0x057E;
     JOYCON_L_PRODUCT_ID := 0x2006;
     JOYCON_R_PRODUCT_ID := 0x2007;
     JOYCON_PRODUCT_IDS := [0x2006; 0x2007; 0x2009];
     left_right_differ := ltac:(discriminate) |}.

(** A handle that delivers the given reports in order and then fails. *)
Definition device_of (reports : list (list Z)) : hid_device :=
  {| incoming := fun k => reports !! k; cursor := 0%nat; written := [] |}.

(** A 49-byte report with the given tag and timer bytes whose bytes from
    offset 13 on are [payload], padded with zeros. *)
Definition report_of (tag timer : Z) (payload : list Z) : list Z :=
  take 49 ([tag; timer] ++ replicate 11 0 ++ payload ++ replicate 36 0).

(** The reply of the controller to an SPI flash read of [data] at [address]. *)
Definition spi_reply (address : Z) (data : list Z) : list Z :=
  report_of 0x21 0
    ([0x90; 0x10] ++ Py.le_digits 4 address ++ [Z.of_nat (length data)] ++ data).

(** A 49-byte report that starts with [head] and goes on with zeros. *)
Definition full_report (head : list Z) : list Z :=
  take 49 (head ++ replicate 49 0).

(** The object after line 42 of [__init__]: fresh, with the default
    accelerometer calibration installed. *)
Definition with_defaults (product_id : Z) : JoyCon :=
  snd (set_accel_calibration (Some [0; 0; 0]) (Some [1; 1; 1]) (fresh product_id)).

(** A controller with the default accelerometer calibration, one callback
    (number 7) registered and a handle that delivers [reports]. *)
Definition plugged (product_id : Z) (reports : list (list Z)) : JoyCon :=
  set_input_hooks [7%nat]
    (set_joycon_device (Some (device_of reports)) (with_defaults product_id)).


(** A controller with a stick calibration and a deadzone loaded, whose
    current report is [report]. *)
Definition loaded (product_id : Z) (report : list Z) : JoyCon :=
  set_input_report report
    (set_deadzone 100
       (set_stick_cal [1000; 1100; 2000; 2100; 900; 950]
          (with_defaults product_id))).

(** A full-state report: battery byte 0x90, buttons Y and ZR, minus, and
    left; left stick at (0x7AB, 0xC35), right stick at (0x123, 0x456);
    first accelerometer sample (256, 1, -2). *)
Definition busy_report : list Z :=
  full_report [0x30; 0x05; 0x90; 0x81; 0x01; 0x08;
               0xAB; 0x57; 0xC3; 0x23; 0x61; 0x45; 0x00;
               0x00; 0x01; 0x01; 0x00; 0xFE; 0xFF].

(** A full-state report, the reply to a read of the six color bytes, a
    report of another kind and a second full-state report. *)
Definition sample_reports : list (list Z) :=
  [ report_of 0x30 0 [];
    spi_reply 0x6050 [1; 2; 3; 4; 5; 6];
    report_of 0x3F 0 [];
    report_of 0x30 1 [] ].

(** The user calibration block of a left controller left unset, then its
    factory block. *)
Definition unset_user_block : list (list Z) :=
  [ spi_reply 0x8012 (replicate 9 0xFF);
    spi_reply 0x603D [1; 0; 0; 2; 0; 0; 3; 0; 0] ].

(** What a left controller answers to the flash reads of the setup when
    its user stick calibration and its user IMU calibration are set. *)
Definition setup_replies : list (list Z) :=
  [ spi_reply 0x6050 [1; 2; 3; 4; 5; 6];
    report_of 0x30 0 [];
    spi_reply 0x8012 [0x10; 0x32; 0x54; 0x76; 0x98; 0xBA; 0xDC; 0xFE; 0x01];
    spi_reply 0x6086 [0; 0; 0; 0xAE; 0x50; 0; 0; 0; 0; 0; 0; 0; 0; 0; 0; 0];
    spi_reply 0x8026 [0xB2; 0xA1];
    spi_reply 0x8028 [0x01; 0x00; 0xFE; 0xFF; 0x00; 0x80;
                      0x01; 0x40; 0x00; 0x40; 0x00; 0x40;
                      0; 0; 0; 0; 0; 0; 0; 0; 0; 0; 0; 0] ].

(** The user calibration block of a right controller, set. *)
Definition set_user_block : list (list Z) :=
  [ spi_reply 0x801D [1; 0; 0; 2; 0; 0; 3; 0; 0xFF] ].


(** * Properties *)

(** ** Rounding to binary64

    Powers of two, the exponent of a rational, and what rounding to the
    nearest float keeps: a bound that is itself a float on the grid of
    the rounded number survives, so do signs, integers below [2 ^ 53] and
    powers of two, and a scaling by 4 commutes with rounding in the
    normal range. *)

Lemma pow2_pos (p : Z) : (0 < 2 ^ p)%Q.
Proof. apply Qpower_0_lt. reflexivity. Qed.

Lemma pow2_add (a b : Z) : (2 ^ (a + b) == 2 ^ a * 2 ^ b)%Q.
Proof. apply Qpower_plus. discriminate. Qed.

Lemma pow2_le (a b : Z) : a <= b -> (2 ^ a <= 2 ^ b)%Q.
Proof. intros H. apply Qpower_le_compat_l; [exact H | discriminate]. Qed.



Lemma pow2_lt_inv (a b : Z) : (2 ^ a < 2 ^ b)%Q -> a < b.
Proof.
  intros H. destruct (Z.lt_ge_cases a b) as [? | Hle]; [assumption |].
  apply pow2_le in Hle. lra.
Qed.

Lemma pow2_Z (n : Z) : 0 <= n -> (2 ^ n == inject_Z (2 ^ n))%Q.
Proof. intros H. rewrite Zpower_Qpower by exact H. reflexivity. Qed.

Lemma pow2_succ (a : Z) : (2 ^ (a + 1) == 2 * 2 ^ a)%Q.
Proof. rewrite pow2_add. change (2 ^ 1)%Q with 2%Q. ring. Qed.

Lemma pow2_pred (a : Z) : (2 ^ (a - 1) == 2 ^ a / 2)%Q.
Proof.
  replace a with ((a - 1) + 1) at 2 by lia. rewrite pow2_succ. field.
Qed.

Lemma Qdiv_lt_cross (a b c d : Q) :
  (0 < b -> 0 < d -> a * d < c * b -> a / b < c / d)%Q.
Proof.
  intros Hb Hd H.
  apply Qlt_shift_div_l; [exact Hd |].
  assert (E : (a / b * d == a * d / b)%Q) by (field; lra).
  rewrite E. apply Qlt_shift_div_r; [exact Hb | exact H].
Qed.

Lemma Qdiv_le_cross (a b c d : Q) :
  (0 < b -> 0 < d -> a * d <= c * b -> a / b <= c / d)%Q.
Proof.
  intros Hb Hd H.
  apply Qle_shift_div_l; [exact Hd |].
  assert (E : (a / b * d == a * d / b)%Q) by (field; lra).
  rewrite E. apply Qle_shift_div_r; [exact Hb | exact H].
Qed.

Lemma ilog2_spec (x : Q) :
  ~ (x == 0)%Q -> (2 ^ Float64.ilog2 x <= Qabs x < 2 ^ (Float64.ilog2 x + 1))%Q.
Proof.
  intros Hx. destruct x as [n d].
  assert (Hn : n <> 0).
  { intros ->. apply Hx. reflexivity. }
  unfold Float64.ilog2. cbn [Qnum Qden].
  set (a := Z.abs n). set (b := Z.pos d).
  assert (Ha : 0 < a) by (unfold a; lia).
  assert (Hb : 0 < b) by (unfold b; lia).
  assert (Habs : (Qabs (n # d) == inject_Z a / inject_Z b)%Q).
  { unfold Qabs. fold a. unfold b. apply Qmake_Qdiv. }
  destruct (Z.log2_spec a Ha) as [Ha1 Ha2].
  destruct (Z.log2_spec b Hb) as [Hb1 Hb2].
  pose proof (Z.log2_nonneg a) as Hla. pose proof (Z.log2_nonneg b) as Hlb.
  set (la := Z.log2 a) in *. set (lb := Z.log2 b) in *.
  assert (HA1 : (2 ^ la <= inject_Z a)%Q).
  { rewrite pow2_Z by exact Hla. rewrite <- Zle_Qle. exact Ha1. }
  assert (HA2 : (inject_Z a < 2 * 2 ^ la)%Q).
  { rewrite <- pow2_succ, pow2_Z by lia. rewrite <- Zlt_Qlt. exact Ha2. }
  assert (HB1 : (2 ^ lb <= inject_Z b)%Q).
  { rewrite pow2_Z by exact Hlb. rewrite <- Zle_Qle. exact Hb1. }
  assert (HB2 : (inject_Z b < 2 * 2 ^ lb)%Q).
  { rewrite <- pow2_succ, pow2_Z by lia. rewrite <- Zlt_Qlt. exact Hb2. }
  pose proof (pow2_pos la) as HPA. pose proof (pow2_pos lb) as HPB.
  assert (E0 : (2 ^ (la - lb) == 2 ^ la / 2 ^ lb)%Q)
    by (apply Qpower_minus; discriminate).
  set (A := inject_Z a) in *. set (B := inject_Z b) in *.
  set (PA := (2 ^ la)%Q) in *. set (PB := (2 ^ lb)%Q) in *.
  assert (HB : (0 < B)%Q) by lra.
  destruct (Qle_bool (2 ^ (la - lb)) (Qabs (n # d))) eqn:Hc.
  - apply Qle_bool_iff in Hc. split; [exact Hc |].
    rewrite pow2_succ, E0, Habs.
    assert (E : (2 * (PA / PB) == (2 * PA) / PB)%Q) by (field; lra).
    rewrite E. apply Qdiv_lt_cross; try assumption. nra.
  - assert (Hlt : (Qabs (n # d) < 2 ^ (la - lb))%Q).
    { apply Qnot_le_lt. intros H. apply Qle_bool_iff in H. congruence. }
    replace (la - lb - 1 + 1) with (la - lb) by lia.
    split; [| exact Hlt].
    rewrite pow2_pred, E0, Habs.
    assert (E : (PA / PB / 2 == PA / (2 * PB))%Q) by (field; lra).
    rewrite E. apply Qdiv_le_cross; try lra. nra.
Qed.


Lemma rhe_cases (y : Q) :
  Float64.round_half_even y = Qfloor y
  \/ (Float64.round_half_even y = Qfloor y + 1
      /\ (1 # 2 <= y - inject_Z (Qfloor y))%Q).
Proof.
  unfold Float64.round_half_even.
  destruct (y - inject_Z (Qfloor y) ?= 1 # 2)%Q eqn:Hc.
  - apply Qeq_alt in Hc. destruct (Z.even (Qfloor y)); [left; reflexivity |].
    right. split; [reflexivity | lra].
  - left. reflexivity.
  - apply Qgt_alt in Hc. right. split; [reflexivity | lra].
Qed.

Lemma rhe_le (y : Q) (k : Z) :
  (y <= inject_Z k)%Q -> Float64.round_half_even y <= k.
Proof.
  intros H. pose proof (Qfloor_le y) as Hf.
  destruct (rhe_cases y) as [-> | [-> Hr]].
  - rewrite Zle_Qle. lra.
  - assert (Hlt : (inject_Z (Qfloor y) < inject_Z k)%Q) by lra.
    rewrite <- Zlt_Qlt in Hlt. lia.
Qed.

Lemma rhe_ge (y : Q) (k : Z) :
  (inject_Z k <= y)%Q -> k <= Float64.round_half_even y.
Proof.
  intros H.
  assert (Hk : k <= Qfloor y).
  { rewrite <- (Qfloor_Z k). apply Qfloor_resp_le. exact H. }
  destruct (rhe_cases y) as [-> | [-> _]]; lia.
Qed.

Lemma round_eq (x : Q) :
  (Float64.round x
   == inject_Z (Float64.round_half_even (x / 2 ^ Float64.ulp_exp x)) * 2 ^ Float64.ulp_exp x)%Q.
Proof. unfold Float64.round. apply Qred_correct. Qed.

Lemma grid_rescale (k j p : Z) :
  p <= j ->
  (inject_Z k * 2 ^ j == inject_Z (k * 2 ^ (j - p)) * 2 ^ p)%Q.
Proof.
  intros H. rewrite inject_Z_mult, <- pow2_Z by lia.
  replace j with ((j - p) + p) at 1 by lia. rewrite pow2_add. ring.
Qed.

Lemma round_le_grid (x : Q) (k j : Z) :
  Float64.ulp_exp x <= j ->
  (x <= inject_Z k * 2 ^ j)%Q -> (Float64.round x <= inject_Z k * 2 ^ j)%Q.
Proof.
  intros Hj Hx. rewrite round_eq.
  rewrite (grid_rescale k j _ Hj) in Hx |- *.
  pose proof (pow2_pos (Float64.ulp_exp x)) as HP.
  apply Qmult_le_compat_r; [| lra].
  rewrite <- Zle_Qle. apply rhe_le.
  apply Qle_shift_div_r; [exact HP | exact Hx].
Qed.

Lemma round_ge_grid (x : Q) (k j : Z) :
  Float64.ulp_exp x <= j ->
  (inject_Z k * 2 ^ j <= x)%Q -> (inject_Z k * 2 ^ j <= Float64.round x)%Q.
Proof.
  intros Hj Hx. rewrite round_eq.
  rewrite (grid_rescale k j _ Hj) in Hx |- *.
  pose proof (pow2_pos (Float64.ulp_exp x)) as HP.
  apply Qmult_le_compat_r; [| lra].
  rewrite <- Zle_Qle. apply rhe_ge.
  apply Qle_shift_div_l; [exact HP | exact Hx].
Qed.


Lemma ulp_exp_nonzero (x : Q) :
  ~ (x == 0)%Q -> Float64.ulp_exp x = Z.max (Float64.ilog2 x - 52) (-1074).
Proof.
  intros Hx. unfold Float64.ulp_exp.
  destruct (Qeq_bool x 0) eqn:E; [| reflexivity].
  apply Qeq_bool_iff in E. contradiction.
Qed.

Lemma ulp_exp_min (x : Q) : -1074 <= Float64.ulp_exp x.
Proof. unfold Float64.ulp_exp. destruct (Qeq_bool x 0); lia. Qed.



Lemma round_0 : (Float64.round 0 == 0)%Q.
Proof. reflexivity. Qed.






(** A power of two above the smallest positive float is a lower bound
    that survives rounding. *)
Lemma round_ge_pow2 (x : Q) (j : Z) :
  -1074 <= j -> (2 ^ j <= x)%Q -> (2 ^ j <= Float64.round x)%Q.
Proof.
  intros Hj Hx. pose proof (pow2_pos j) as HP.
  assert (Hnz : ~ (x == 0)%Q) by (intros E; lra).
  assert (Habs : (Qabs x == x)%Q) by (apply Qabs_pos; lra).
  destruct (ilog2_spec x Hnz) as [Hlo Hhi]. rewrite Habs in Hlo, Hhi.
  assert (He : j <= Float64.ilog2 x).
  { assert (j < Float64.ilog2 x + 1) by (apply pow2_lt_inv; lra). lia. }
  pose proof (round_ge_grid x 1 (Float64.ilog2 x)) as H.
  rewrite (ulp_exp_nonzero x Hnz) in H.
  assert (E : (inject_Z 1 * 2 ^ Float64.ilog2 x == 2 ^ Float64.ilog2 x)%Q) by ring.
  rewrite E in H. specialize (H ltac:(lia) Hlo).
  pose proof (pow2_le j (Float64.ilog2 x) He). lra.
Qed.

Lemma round_le_neg_pow2 (x : Q) (j : Z) :
  -1074 <= j -> (x <= - 2 ^ j)%Q -> (Float64.round x <= - 2 ^ j)%Q.
Proof.
  intros Hj Hx. pose proof (pow2_pos j) as HP.
  assert (Hnz : ~ (x == 0)%Q) by (intros E; lra).
  assert (Habs : (Qabs x == - x)%Q) by (apply Qabs_neg; lra).
  destruct (ilog2_spec x Hnz) as [Hlo Hhi]. rewrite Habs in Hlo, Hhi.
  assert (He : j <= Float64.ilog2 x).
  { assert (j < Float64.ilog2 x + 1) by (apply pow2_lt_inv; lra). lia. }
  pose proof (round_le_grid x (-1) (Float64.ilog2 x)) as H.
  rewrite (ulp_exp_nonzero x Hnz) in H.
  assert (E : (inject_Z (-1) * 2 ^ Float64.ilog2 x == - 2 ^ Float64.ilog2 x)%Q) by ring.
  rewrite E in H. specialize (H ltac:(lia) ltac:(lra)).
  pose proof (pow2_le j (Float64.ilog2 x) He). lra.
Qed.


Lemma finite_spec (x : Q) : Float64.finite x = true <-> (Qabs x < 2 ^ 1024)%Q.
Proof.
  unfold Float64.finite. rewrite negb_true_iff. split.
  - intros H. apply Qnot_le_lt. intros Hle. apply Qle_bool_iff in Hle. congruence.
  - intros H. destruct (Qle_bool (2 ^ 1024) (Qabs x)) eqn:E; [| reflexivity].
    apply Qle_bool_iff in E. lra.
Qed.












(** *** The float operations of the driver *)

Lemma inject_Z_nonzero (d : Z) : d <> 0 -> ~ (inject_Z d == 0)%Q.
Proof. intros Hd E. apply Hd. unfold Qeq in E. cbn in E. lia. Qed.

Lemma quotient_le (a b k : Z) :
  0 < b -> a <= k * b -> (inject_Z a / inject_Z b <= inject_Z k)%Q.
Proof.
  intros Hb H.
  assert (HB : (0 < inject_Z b)%Q) by (change 0%Q with (inject_Z 0); rewrite <- Zlt_Qlt; exact Hb).
  apply Qle_shift_div_r; [exact HB |].
  rewrite <- inject_Z_mult, <- Zle_Qle. exact H.
Qed.

Lemma quotient_ge (a b k : Z) :
  0 < b -> k * b <= a -> (inject_Z k <= inject_Z a / inject_Z b)%Q.
Proof.
  intros Hb H.
  assert (HB : (0 < inject_Z b)%Q) by (change 0%Q with (inject_Z 0); rewrite <- Zlt_Qlt; exact Hb).
  apply Qle_shift_div_l; [exact HB |].
  rewrite <- inject_Z_mult, <- Zle_Qle. exact H.
Qed.


Lemma truediv_unfold (a b : Z) :
  b <> 0 ->
  Py.truediv a b
  = if Float64.finite (Float64.round (inject_Z a / inject_Z b))
    then Ok (Float64.round (inject_Z a / inject_Z b))
    else Raise OverflowError.
Proof.
  intros Hb. unfold Py.truediv.
  destruct (Z.eqb_spec b 0) as [? | _]; [contradiction | reflexivity].
Qed.



(** A quotient of magnitude [2 ^ 1024] or more is an [OverflowError]. *)
Lemma truediv_overflow (a b : Z) :
  0 < b -> 2 ^ 1024 * b <= Z.abs a ->
  Py.truediv a b = Raise OverflowError.
Proof.
  intros Hb Ha. rewrite truediv_unfold by lia.
  replace (Float64.finite _) with false; [reflexivity |].
  symmetry. apply not_true_is_false. intros Hf. apply finite_spec in Hf.
  apply Qabs_Qlt_condition in Hf. destruct Hf as [Hlo Hhi].
  destruct (Z.le_gt_cases 0 a) as [Hpos | Hneg].
  - assert (H : (2 ^ 1024 <= inject_Z a / inject_Z b)%Q).
    { rewrite pow2_Z by lia. apply quotient_ge; [exact Hb | lia]. }
    apply round_ge_pow2 in H; [lra | lia].
  - assert (H : (inject_Z a / inject_Z b <= - 2 ^ 1024)%Q).
    { rewrite pow2_Z, <- inject_Z_opp by lia. apply quotient_le; [exact Hb | lia]. }
    apply round_le_neg_pow2 in H; [lra | lia].
Qed.











(** ** Bit-level lemmas *)

Lemma lor_shiftl8_add (hi lo : Z) :
  0 <= lo < 256 -> Z.lor (Z.shiftl hi 8) lo = hi * 256 + lo.
Proof.
  intros Hlo.
  rewrite Z.shiftl_mul_pow2 by lia.
  change (2 ^ 8) with 256.
  rewrite <- Z.lxor_lor, <- Z.add_nocarry_lxor; try reflexivity.
  all: apply Z.bits_inj'; intros n Hn; rewrite Z.land_spec, Z.bits_0.
  all: destruct (Z.ltb_spec n 8) as [Hlt | Hge].
  all: try (replace (hi * 256) with (hi * 2 ^ 8) by reflexivity;
            rewrite Z.mul_pow2_bits_low by lia; reflexivity).
  all: replace (Z.testbit lo n) with false; [apply andb_false_r |].
  all: symmetry; apply Z.bits_above_log2; [lia |].
  all: destruct (Z.eq_dec lo 0) as [-> | Hnz]; [simpl; lia |].
  all: apply Z.log2_lt_pow2; [lia |].
  all: apply Z.lt_le_trans with (2 ^ 8); [simpl; lia |].
  all: apply Z.pow_le_mono_r; lia.
Qed.

(** C7: decoding the little-endian two's-complement encoding of any
    [v] in [-32768, 32767] with [_to_int16le_from_2bytes] (low byte first,
    high byte second) gives back [v]. *)
Theorem int16le_decode_encode (v : Z) :
  -32768 <= v <= 32767 ->
  _to_int16le_from_2bytes (fst (int16le_encode v)) (snd (int16le_encode v)) = v.
Proof.
  intros Hv. unfold _to_int16le_from_2bytes, int16le_encode. cbn [fst snd].
  set (u := v mod 65536).
  assert (Hu : 0 <= u < 65536) by (apply Z.mod_pos_bound; lia).
  rewrite lor_shiftl8_add by (apply Z.mod_pos_bound; lia).
  replace (u / 256 * 256 + u mod 256) with u
    by (rewrite (Z.div_mod u 256) at 1; lia).
  destruct (Z.ltb_spec u 32768) as [Hlt | Hge]; subst u.
  - destruct (Z.le_gt_cases 0 v) as [Hnn | Hneg].
    + apply Z.mod_small; lia.
    + exfalso.
      assert (v mod 65536 = v + 65536); [| lia].
      symmetry; apply Z.mod_unique with (-1); lia.
  - destruct (Z.le_gt_cases 0 v) as [Hnn | Hneg].
    + rewrite Z.mod_small in Hge by lia. lia.
    + assert (v mod 65536 = v + 65536); [| lia].
      symmetry; apply Z.mod_unique with (-1); lia.
Qed.

Lemma int16le_decode_encode_witness :
  -32768 <= -2 <= 32767 /\
  int16le_encode (-2) = (254, 255) /\
  _to_int16le_from_2bytes 254 255 = -2.
Proof.
  split; [lia |]. split; [reflexivity |].
  exact (int16le_decode_encode (-2) ltac:(lia)).
Defined.


(** ** The bit-field extractor *)

Lemma getitem_in_range {A} (l : list A) (i : Z) :
  - Z.of_nat (length l) <= i < Z.of_nat (length l) ->
  exists a, Py.getitem l i = Ok a.
Proof.
  intros Hi. unfold Py.getitem.
  set (j := if i <? 0 then Z.of_nat (length l) + i else i).
  assert (Hj : 0 <= j < Z.of_nat (length l))
    by (subst j; destruct (Z.ltb_spec i 0); lia).
  replace ((0 <=? j) && (j <? Z.of_nat (length l))) with true
    by (symmetry; apply andb_true_iff; split; [apply Z.leb_le | apply Z.ltb_lt]; lia).
  destruct (lookup_lt_is_Some_2 l (Z.to_nat j)) as [a Ha]; [lia |].
  rewrite Ha. eauto.
Qed.

Lemma land_mask_range (a n : Z) :
  0 <= n -> 0 <= Z.land a (Z.shiftl 1 n - 1) <= 2 ^ n - 1.
Proof.
  intros Hn.
  change (Z.shiftl 1 n - 1) with (Z.ones n).
  rewrite Z.land_ones by assumption.
  pose proof (Z.mod_pos_bound a (2 ^ n) ltac:(apply Z.pow_pos_nonneg; lia)).
  lia.
Qed.

Section Extractor.

Context `{K : constants}.

Lemma get_nbit_range (self : JoyCon) (offset_byte offset_bit nbit v : Z) :
  _get_nbit_from_input_report self offset_byte offset_bit nbit = Ok v ->
  0 <= v <= 2 ^ nbit - 1.
Proof.
  unfold _get_nbit_from_input_report, Py.rshift, Py.lshift.
  destruct (Py.getitem _ _) as [byte | |]; cbn; try discriminate.
  destruct (Z.ltb_spec offset_bit 0); cbn; try discriminate.
  destruct (Z.ltb_spec nbit 0); cbn; try discriminate.
  intros [= <-]. apply land_mask_range; assumption.
Qed.

Lemma get_nbit_returns (self : JoyCon) (offset_byte offset_bit nbit : Z) :
  - Z.of_nat (length (_input_report self)) <= offset_byte
    < Z.of_nat (length (_input_report self)) ->
  0 <= offset_bit -> 0 <= nbit ->
  exists v,
    _get_nbit_from_input_report self offset_byte offset_bit nbit = Ok v
    /\ 0 <= v <= 2 ^ nbit - 1.
Proof.
  intros Hb Hbit Hn.
  destruct (getitem_in_range _ _ Hb) as [byte Hbyte].
  exists (Z.land (Z.shiftr byte offset_bit) (Z.shiftl 1 nbit - 1)).
  split; [| apply land_mask_range; assumption].
  unfold _get_nbit_from_input_report, Py.rshift, Py.lshift.
  rewrite Hbyte. cbn.
  destruct (Z.ltb_spec offset_bit 0); [lia |].
  destruct (Z.ltb_spec nbit 0); [lia |]. reflexivity.
Qed.

(** C10: on a 49-byte current report the [n]-bit field extractor returns,
    and what it returns lies in [0, 2^n - 1]; so each single-bit getter
    (the 23 buttons and the battery-charging flag) returns 0 or 1 and
    the battery level is in [0, 7]. *)
Theorem nbit_fields_in_range (self : JoyCon) :
  length (_input_report self) = 49%nat ->
  (forall offset_byte offset_bit nbit,
      -49 <= offset_byte < 49 -> 0 <= offset_bit -> 0 <= nbit ->
      exists v,
        _get_nbit_from_input_report self offset_byte offset_bit nbit = Ok v
        /\ 0 <= v <= 2 ^ nbit - 1)
  /\ (forall offset_byte offset_bit nbit v,
        _get_nbit_from_input_report self offset_byte offset_bit nbit = Ok v ->
        0 <= v <= 2 ^ nbit - 1)
  /\ Forall (fun getter => exists v, getter self = Ok v /\ (v = 0 \/ v = 1))
            single_bit_getters
  /\ (exists v, get_battery_level self = Ok v /\ 0 <= v <= 7).
Proof.
  intros Hlen.
  assert (Hret : forall offset_byte offset_bit nbit,
      -49 <= offset_byte < 49 -> 0 <= offset_bit -> 0 <= nbit ->
      exists v,
        _get_nbit_from_input_report self offset_byte offset_bit nbit = Ok v
        /\ 0 <= v <= 2 ^ nbit - 1).
  { intros. apply get_nbit_returns; rewrite ?Hlen; lia. }
  split; [exact Hret |].
  split; [intros; eapply get_nbit_range; eassumption |].
  split.
  - unfold single_bit_getters.
    repeat apply Forall_cons_2; try apply Forall_nil_2.
    all: match goal with
         | |- exists v, ?g _ = _ /\ _ => unfold g
         end.
    all: match goal with
         | |- exists v, _get_nbit_from_input_report _ ?b ?o 1 = _ /\ _ =>
             destruct (Hret b o 1) as (v & Hv & Hr); [lia | lia | lia |];
             exists v; split; [exact Hv | change (2 ^ 1) with 2 in Hr; lia]
         end.
  - unfold get_battery_level.
    destruct (Hret 2 5 3) as (v & Hv & Hr); [lia | lia | lia |].
    exists v. split; [exact Hv | change (2 ^ 3) with 8 in Hr; lia].
Qed.

End Extractor.

(** The all-zero report of a freshly built object: every single-bit getter
    and the battery level read 0 there. *)
Lemma nbit_fields_in_range_witness :
  length (_input_report (fresh 0x2006)) = 49%nat
  /\ get_button_zl (fresh 0x2006) = Ok 0
  /\ Forall (fun getter => exists v, getter (fresh 0x2006) = Ok v /\ (v = 0 \/ v = 1))
            single_bit_getters
  /\ (exists v, get_battery_level (fresh 0x2006) = Ok v /\ 0 <= v <= 7).
Proof.
  split; [reflexivity |]. split; [reflexivity |].
  exact (proj2 (proj2 (nbit_fields_in_range (fresh 0x2006) eq_refl))).
Defined.

(** ** Stick calibration *)

Section Sticks.

Context `{K : constants}.

Lemma is_right_not_left (self : JoyCon) :
  is_right self = true -> is_left self = false.
Proof.
  unfold is_right, is_left. intros Hr%Z.eqb_eq.
  apply Z.eqb_neq. rewrite Hr. intros Heq.
  apply left_right_differ. symmetry. exact Heq.
Qed.

Lemma store_stick_cal_left (self : JoyCon) (b0 b1 b2 b3 b4 b5 b6 b7 b8 : Z) :
  is_left self = true ->
  store_stick_cal [b0; b1; b2; b3; b4; b5; b6; b7; b8] self
  = (Ok tt,
     set_stick_cal
       [ Z.lor (Z.land (Z.shiftl b1 8) 0xF00) b0; Z.lor (Z.shiftl b2 4) (Z.shiftr b1 4);
         Z.lor (Z.land (Z.shiftl b4 8) 0xF00) b3; Z.lor (Z.shiftl b5 4) (Z.shiftr b4 4);
         Z.lor (Z.land (Z.shiftl b7 8) 0xF00) b6; Z.lor (Z.shiftl b8 4) (Z.shiftr b7 4) ]
       self).
Proof.
  intros Hl. unfold store_stick_cal, mbind, M_bind, bind, get.
  rewrite Hl. reflexivity.
Qed.

Lemma store_stick_cal_not_left (self : JoyCon) (b0 b1 b2 b3 b4 b5 b6 b7 b8 : Z) :
  is_left self = false ->
  store_stick_cal [b0; b1; b2; b3; b4; b5; b6; b7; b8] self
  = (Ok tt,
     set_stick_cal
       [ Z.lor (Z.land (Z.shiftl b7 8) 0xF00) b6; Z.lor (Z.shiftl b8 4) (Z.shiftr b7 4);
         Z.lor (Z.land (Z.shiftl b1 8) 0xF00) b0; Z.lor (Z.shiftl b2 4) (Z.shiftr b1 4);
         Z.lor (Z.land (Z.shiftl b4 8) 0xF00) b3; Z.lor (Z.shiftl b5 4) (Z.shiftr b4 4) ]
       self).
Proof.
  intros Hl. unfold store_stick_cal, mbind, M_bind, bind, get.
  rewrite Hl. reflexivity.
Qed.

Lemma length_9_inv (buf : list Z) :
  length buf = 9%nat ->
  exists b0 b1 b2 b3 b4 b5 b6 b7 b8, buf = [b0; b1; b2; b3; b4; b5; b6; b7; b8].
Proof.
  intros H.
  do 9 (destruct buf as [| ? buf]; [discriminate H |]).
  destruct buf; [| discriminate H]. eauto 10.
Qed.

(** C1 (as amended): loading stores the three 12-bit pairs of the block,
    which the comments call max-above-center, center and min-below-center,
    at indices 0,1 / 2,3 / 4,5 on a left controller and at indices 2,3 /
    4,5 / 0,1 on any other one, so also on a right one.  Hence on the left
    the slot [get_actual_stick_value] reads as center holds the pair called
    center, the divisor above center the pair called max-above-center and
    the divisor below center the pair called min-below-center; on the
    right the center slot holds the block's first pair (called
    max-above-center), the divisor above center its third pair (called
    min-below-center) and the divisor below center its second pair (called
    center). *)
Theorem stick_cal_placement (self : JoyCon) (buf : list Z) :
  length buf = 9%nat ->
  exists self',
    store_stick_cal buf self = (Ok tt, self')
    /\ self' = set_stick_cal (stick_cal self') self
    /\ length (stick_cal self') = 6%nat
    /\ (is_right self = true -> is_left self = false)
    /\ forall orientation, orientation = 0 \/ orientation = 1 ->
         (exists v, max_above_center buf orientation = Ok v)
         /\ (exists v, center buf orientation = Ok v)
         /\ (exists v, min_below_center buf orientation = Ok v)
         /\ if is_left self then
              above_slot self' orientation = max_above_center buf orientation
              /\ center_slot self' orientation = center buf orientation
              /\ below_slot self' orientation = min_below_center buf orientation
            else
              center_slot self' orientation = max_above_center buf orientation
              /\ below_slot self' orientation = center buf orientation
              /\ above_slot self' orientation = min_below_center buf orientation.
Proof.
  intros Hlen.
  destruct (length_9_inv buf Hlen)
    as (b0 & b1 & b2 & b3 & b4 & b5 & b6 & b7 & b8 & ->).
  destruct (is_left self) eqn:Hl.
  - eexists. split; [apply store_stick_cal_left, Hl |].
    split; [reflexivity |]. split; [reflexivity |].
    split; [intros Hr; apply is_right_not_left in Hr; congruence |].
    intros o [-> | ->]; repeat split; eexists; reflexivity.
  - eexists. split; [apply store_stick_cal_not_left, Hl |].
    split; [reflexivity |]. split; [reflexivity |].
    split; [reflexivity |].
    intros o [-> | ->]; repeat split; eexists; reflexivity.
Qed.



End Sticks.


(** C2 as stated fails for an integer [pre_cal] beyond the float range:
    on the same controller, whose divisors are positive, the raw value
    [10 ^ 400] gives no value but an [OverflowError]. *)
Lemma stick_normalization_overflow_counterexample :
  let self := set_deadzone 100
                (set_stick_cal [1000; 1100; 2000; 2100; 900; 950] (fresh 0x2006)) in
  center_slot self 0 = Ok 2000
  /\ above_slot self 0 = Ok 1000
  /\ deadzone self <= Z.abs (10 ^ 400 - 2000)
  /\ 10 ^ 400 > 2000
  /\ get_actual_stick_value self (10 ^ 400) 0 = Raise OverflowError
  /\ ~ (exists q, get_actual_stick_value self (10 ^ 400) 0 = Ok (Float q)).
Proof.
  cbv zeta.
  assert (Hrun : get_actual_stick_value
                   (set_deadzone 100
                      (set_stick_cal [1000; 1100; 2000; 2100; 900; 950]
                         (fresh 0x2006)))
                   (10 ^ 400) 0
                 = Raise OverflowError) by (vm_compute; reflexivity).
  split; [reflexivity |]. split; [reflexivity |].
  split; [vm_compute; discriminate |]. split; [reflexivity |].
  split; [exact Hrun |].
  intros [q Hq]. rewrite Hrun in Hq. discriminate Hq.
Qed.

(** A right controller and a block whose pairs are (1,0), (2,0), (3,0). *)
Lemma stick_cal_placement_witness :
  is_right (K := spec_constants) (fresh 0x2007) = true
  /\ exists self',
      store_stick_cal (K := spec_constants) [1; 0; 0; 2; 0; 0; 3; 0; 0] (fresh 0x2007)
      = (Ok tt, self')
      /\ stick_cal self' = [3; 0; 1; 0; 2; 0].
Proof.
  split; [reflexivity |].
  destruct (stick_cal_placement (K := spec_constants) (fresh 0x2007)
              [1; 0; 0; 2; 0; 0; 3; 0; 0] eq_refl)
    as (self' & Hstore & _).
  exists self'. split; [exact Hstore |].
  cbv in Hstore. injection Hstore as <-. reflexivity.
Defined.

(** C1 as stated fails on a right controller: with the pairs (1,0), (2,0),
    (3,0) in the block, the slot read as center holds 1, the X value of the
    pair called max-above-center, while the pair called center has X
    value 2; the divisor slots are off in the same way. *)
Lemma stick_cal_right_center_slot_counterexample :
  let self := fresh 0x2007 in
  let buf := [1; 0; 0; 2; 0; 0; 3; 0; 0] in
  is_right (K := spec_constants) self = true
  /\ exists self',
      store_stick_cal (K := spec_constants) buf self = (Ok tt, self')
      /\ center buf 0 = Ok 2 /\ center_slot self' 0 = Ok 1
      /\ max_above_center buf 0 = Ok 1 /\ above_slot self' 0 = Ok 3
      /\ min_below_center buf 0 = Ok 3 /\ below_slot self' 0 = Ok 2
      /\ ~ (center_slot self' 0 = center buf 0
            /\ above_slot self' 0 = max_above_center buf 0
            /\ below_slot self' 0 = min_below_center buf 0).
Proof.
  cbv zeta. split; [reflexivity |].
  exists (set_stick_cal [3; 0; 1; 0; 2; 0] (fresh 0x2007)).
  split; [vm_compute; reflexivity |].
  repeat (split; [vm_compute; reflexivity |]).
  intros (H & _). vm_compute in H. discriminate H.
Qed.

(** ** Accelerometer calibration *)








(** C9: when either argument of [set_accel_calibration] is [None] or an
    empty tuple the call returns normally and leaves the object, so the six
    accelerometer attributes, as it was. *)
Theorem set_accel_calibration_falsy_noop
    (self : JoyCon) (offset_xyz coeff_xyz : option (list Z)) :
  offset_xyz = None \/ offset_xyz = Some [] \/ coeff_xyz = None \/ coeff_xyz = Some [] ->
  set_accel_calibration offset_xyz coeff_xyz self = (Ok tt, self).
Proof.
  intros H. unfold set_accel_calibration.
  replace (truthy offset_xyz && truthy coeff_xyz) with false; [reflexivity |].
  symmetry. apply andb_false_iff.
  destruct H as [-> | [-> | [-> | ->]]]; auto.
Qed.

Lemma set_accel_calibration_falsy_noop_witness :
  set_accel_calibration None (Some [1; 2; 3]) (with_defaults 0x2007)
  = (Ok tt, with_defaults 0x2007)
  /\ set_accel_calibration (Some [1; 2; 3]) (Some []) (with_defaults 0x2007)
     = (Ok tt, with_defaults 0x2007)
  /\ _ACCEL_COEFF_X (with_defaults 0x2007) = 4%Q.
Proof.
  split; [| split].
  - exact (set_accel_calibration_falsy_noop (with_defaults 0x2007)
             None (Some [1; 2; 3]) (or_introl eq_refl)).
  - exact (set_accel_calibration_falsy_noop (with_defaults 0x2007)
             (Some [1; 2; 3]) (Some []) (or_intror (or_intror (or_intror eq_refl)))).
  - reflexivity.
Defined.

(** ** Accelerometer samples *)

Lemma Qmult_inject_1 (q : Q) : (q * inject_Z 1)%Q = q.
Proof.
  destruct q as [n d]. unfold Qmult, inject_Z; cbn.
  rewrite Z.mul_1_r, Pos.mul_1_r. reflexivity.
Qed.

Lemma Qmult_inject_m1 (q : Q) : (q * inject_Z (-1))%Q = (- q)%Q.
Proof.
  destruct q as [n d]. unfold Qmult, Qopp, inject_Z; cbn.
  rewrite Pos.mul_1_r. f_equal. lia.
Qed.

Section Accel.

Context `{K : constants}.

Lemma accel_raw_ok (self : JoyCon) (input_report : option (list Z))
    (sample_idx first : Z) :
  length (report_or_current self input_report) = 49%nat ->
  sample_idx = 0 \/ sample_idx = 1 \/ sample_idx = 2 ->
  13 <= first <= 17 ->
  exists lo hi,
    Py.getitem (report_or_current self input_report) (first + 12 * sample_idx) = Ok lo
    /\ Py.getitem (report_or_current self input_report) (first + 1 + 12 * sample_idx) = Ok hi
    /\ accel_raw self input_report sample_idx first
       = Ok (_to_int16le_from_2bytes lo hi).
Proof.
  intros Hlen Hk Hf. unfold accel_raw.
  replace (bad_sample_idx sample_idx) with false
    by (destruct Hk as [-> | [-> | ->]]; reflexivity).
  replace (sample_idx * 12) with (12 * sample_idx) by lia.
  destruct (getitem_in_range (report_or_current self input_report)
              (first + 12 * sample_idx)) as [lo Hlo]; [rewrite Hlen; lia |].
  destruct (getitem_in_range (report_or_current self input_report)
              (first + 1 + 12 * sample_idx)) as [hi Hhi]; [rewrite Hlen; lia |].
  exists lo, hi. rewrite Hlo, Hhi. auto.
Qed.

Lemma accel_raw_bad_idx (self : JoyCon) (input_report : option (list Z))
    (sample_idx first : Z) :
  ~ (sample_idx = 0 \/ sample_idx = 1 \/ sample_idx = 2) ->
  accel_raw self input_report sample_idx first = Raise IndexError.
Proof.
  intros Hk. unfold accel_raw, bad_sample_idx.
  destruct (Z.eqb_spec sample_idx 0); [tauto |].
  destruct (Z.eqb_spec sample_idx 1); [tauto |].
  destruct (Z.eqb_spec sample_idx 2); [tauto |]. reflexivity.
Qed.

(** C8 (as amended): on a 49-byte report and for [sample_idx] in
    {0, 1, 2}, [get_accel_y] and [get_accel_z] return the signed 16-bit
    little-endian value at bytes [15 + 12k, 16 + 12k] and
    [17 + 12k, 18 + 12k] times the axis coefficient, unnegated on a left
    controller and negated on every controller that is not a left one,
    so on a right one too; for any other [sample_idx] both raise
    [IndexError]. *)
Theorem accel_yz_decoding (self : JoyCon) (input_report : option (list Z))
    (sample_idx : Z) :
  length (report_or_current self input_report) = 49%nat ->
  let report := report_or_current self input_report in
  (sample_idx = 0 \/ sample_idx = 1 \/ sample_idx = 2 ->
   exists ylo yhi zlo zhi,
     Py.getitem report (15 + 12 * sample_idx) = Ok ylo
     /\ Py.getitem report (16 + 12 * sample_idx) = Ok yhi
     /\ Py.getitem report (17 + 12 * sample_idx) = Ok zlo
     /\ Py.getitem report (18 + 12 * sample_idx) = Ok zhi
     /\ let y := (inject_Z (_to_int16le_from_2bytes ylo yhi) * _ACCEL_COEFF_Y self)%Q in
        let z := (inject_Z (_to_int16le_from_2bytes zlo zhi) * _ACCEL_COEFF_Z self)%Q in
        get_accel_y self input_report sample_idx
        = Ok (if is_left self then y else - y)%Q
        /\ get_accel_z self input_report sample_idx
           = Ok (if is_left self then z else - z)%Q
        /\ (is_right self = true ->
            get_accel_y self input_report sample_idx = Ok (- y)%Q
            /\ get_accel_z self input_report sample_idx = Ok (- z)%Q))
  /\ (~ (sample_idx = 0 \/ sample_idx = 1 \/ sample_idx = 2) ->
      get_accel_y self input_report sample_idx = Raise IndexError
      /\ get_accel_z self input_report sample_idx = Raise IndexError).
Proof.
  intros Hlen report. split.
  - intros Hk.
    destruct (accel_raw_ok self input_report sample_idx 15 Hlen Hk ltac:(lia))
      as (ylo & yhi & Hylo & Hyhi & Hy).
    destruct (accel_raw_ok self input_report sample_idx 17 Hlen Hk ltac:(lia))
      as (zlo & zhi & Hzlo & Hzhi & Hz).
    exists ylo, yhi, zlo, zhi. subst report.
    replace (16 + 12 * sample_idx) with (15 + 1 + 12 * sample_idx) by lia.
    replace (18 + 12 * sample_idx) with (17 + 1 + 12 * sample_idx) by lia.
    repeat (split; [assumption |]).
    cbv zeta. unfold get_accel_y, get_accel_z. rewrite Hy, Hz. cbn.
    assert (Hsign : forall q : Q,
      (q * inject_Z (if is_left self then 1 else -1))%Q
      = (if is_left self then q else - q)%Q).
    { intros q. destruct (is_left self);
        [apply Qmult_inject_1 | apply Qmult_inject_m1]. }
    rewrite !Hsign.
    split; [reflexivity |]. split; [reflexivity |].
    intros Hr. rewrite (is_right_not_left self Hr). split; reflexivity.
  - intros Hk. unfold get_accel_y, get_accel_z.
    rewrite !accel_raw_bad_idx by assumption. split; reflexivity.
Qed.

End Accel.

(** A report whose first sample has raw Y = 1 and raw Z = -2. *)
Lemma accel_yz_decoding_witness :
  let report := report_of 0x30 0 [0; 0; 1; 0; 254; 255] in
  get_accel_y (K := spec_constants) (with_defaults 0x2006) (Some report) 0 = Ok 4%Q
  /\ get_accel_y (K := spec_constants) (with_defaults 0x2007) (Some report) 0 = Ok (- (4))%Q
  /\ get_accel_z (K := spec_constants) (with_defaults 0x2007) (Some report) 0 = Ok 8%Q
  /\ get_accel_y (K := spec_constants) (with_defaults 0x2007) (Some report) 3
     = Raise IndexError.
Proof.
  cbv zeta.
  pose proof (accel_yz_decoding (K := spec_constants) (with_defaults 0x2007)
                (Some (report_of 0x30 0 [0; 0; 1; 0; 254; 255])) 0 eq_refl)
    as [Hin _].
  pose proof (accel_yz_decoding (K := spec_constants) (with_defaults 0x2007)
                (Some (report_of 0x30 0 [0; 0; 1; 0; 254; 255])) 3 eq_refl)
    as [_ Hout].
  destruct (Hin (or_introl eq_refl))
    as (ylo & yhi & zlo & zhi & Hylo & Hyhi & Hzlo & Hzhi & _ & _ & Hright).
  destruct (Hright eq_refl) as [Hy Hz].
  injection Hylo as <-. injection Hyhi as <-.
  injection Hzlo as <-. injection Hzhi as <-.
  split; [reflexivity |].
  split; [exact Hy |]. split; [exact Hz |].
  apply Hout. intros [H | [H | H]]; discriminate H.
Defined.

(** C8 as stated fails on a controller that is neither left nor right: the
    product id 0x2009 is on the allow-list, [is_right] is false, and the Y
    and Z samples come out negated all the same. *)
Lemma accel_not_left_negated_counterexample :
  let self := with_defaults 0x2009 in
  let report := report_of 0x30 0 [0; 0; 1; 0; 254; 255] in
  0x2009 ∈ JOYCON_PRODUCT_IDS (constants := spec_constants)
  /\ is_left (K := spec_constants) self = false
  /\ is_right (K := spec_constants) self = false
  /\ (inject_Z (_to_int16le_from_2bytes 1 0) * _ACCEL_COEFF_Y self)%Q = 4%Q
  /\ get_accel_y (K := spec_constants) self (Some report) 0 = Ok (- (4))%Q
  /\ (inject_Z (_to_int16le_from_2bytes 254 255) * _ACCEL_COEFF_Z self)%Q = (- (8))%Q
  /\ get_accel_z (K := spec_constants) self (Some report) 0 = Ok 8%Q
  /\ ~ (forall (q : Q),
          get_accel_y (K := spec_constants) self (Some report) 0 = Ok q ->
          (q == inject_Z (_to_int16le_from_2bytes 1 0) * _ACCEL_COEFF_Y self)%Q).
Proof.
  cbv zeta.
  split; [apply (bool_decide_unpack _); reflexivity |].
  repeat (split; [reflexivity |]).
  intros H. specialize (H _ eq_refl). vm_compute in H. discriminate H.
Qed.

(** ** Reading reports until one carries the wanted tag *)

Lemma set_joycon_device_same (self : JoyCon) :
  set_joycon_device (_joycon_device self) self = self.
Proof. destruct self; reflexivity. Qed.

Lemma advance_0 (d : hid_device) : advance 0 d = d.
Proof. destruct d; reflexivity. Qed.

Lemma advance_advance (n m : nat) (d : hid_device) :
  advance n (advance m d) = advance (n + m) d.
Proof. unfold advance; cbn. f_equal. lia. Qed.

Lemma set_device_advance_0 (self : JoyCon) (d : hid_device) :
  _joycon_device self = Some d ->
  set_joycon_device (Some (advance 0 d)) self = self.
Proof.
  intros Hd. rewrite advance_0, <- Hd. apply set_joycon_device_same.
Qed.

Lemma getitem_0_cons (t : Z) (rest : list Z) : Py.getitem (t :: rest) 0 = Ok t.
Proof.
  unfold Py.getitem. cbn [Z.ltb Z.compare length].
  destruct (Z.ltb_spec 0 (Z.of_nat (S (length rest)))); [reflexivity | lia].
Qed.

Lemma delivers_app (d : hid_device) (c : nat) (l1 l2 : list (list Z)) :
  delivers d c (l1 ++ l2) <-> delivers d c l1 /\ delivers d (length l1 + c) l2.
Proof.
  revert c. induction l1 as [| r l1 IH]; intros c; cbn.
  - tauto.
  - rewrite IH. replace (length l1 + S c)%nat with (S (length l1 + c)) by lia. tauto.
Qed.

Lemma delivers_advance (n : nat) (d : hid_device) (c : nat) (l : list (list Z)) :
  delivers (advance n d) c l <-> delivers d c l.
Proof.
  revert c. induction l as [| r l IH]; intros c; cbn; [tauto |].
  rewrite IH. tauto.
Qed.

Lemma snoc_cons_inv {A} (x : A) (more skipped : list A) (r : A) :
  x :: more = skipped ++ [r] ->
  (skipped = [] /\ more = [] /\ x = r)
  \/ (exists sk, skipped = x :: sk /\ more = sk ++ [r]).
Proof.
  destruct skipped as [| s sk]; cbn; intros [= -> ->]; eauto.
Qed.

Section Transport.

Context `{K : constants}.

Lemma read_ok (self : JoyCon) (d : hid_device) (report : list Z) :
  _joycon_device self = Some d ->
  incoming d (cursor d) = Some report ->
  _read_input_report self
  = (Ok (Some report), set_joycon_device (Some (advance 1 d)) self).
Proof. intros Hd Hr. unfold _read_input_report. rewrite Hd, Hr. reflexivity. Qed.

Lemma read_fail (self : JoyCon) (d : hid_device) :
  _joycon_device self = Some d ->
  incoming d (cursor d) = None ->
  _read_input_report self = (Raise (OSError HidReadFailed), self).
Proof. intros Hd Hr. unfold _read_input_report. rewrite Hd, Hr. reflexivity. Qed.

Lemma discard_until_match (tag : Z) (fuel : nat) (t : Z) (rest : list Z)
    (self : JoyCon) :
  t = tag ->
  discard_until tag fuel (Some (t :: rest)) self = (Ok (t :: rest), self).
Proof.
  intros ->. destruct fuel; cbn [discard_until tag_of];
    rewrite getitem_0_cons, Z.eqb_refl; reflexivity.
Qed.

Lemma discard_until_skip (tag : Z) (fuel : nat) (t : Z) (rest : list Z)
    (self : JoyCon) :
  t <> tag ->
  discard_until tag (S fuel) (Some (t :: rest)) self
  = match _read_input_report self with
    | (Ok report', self') => discard_until tag fuel report' self'
    | (Raise e, self') => (Raise e, self')
    | (Diverge, self') => (Diverge, self')
    end.
Proof.
  intros Hne. cbn [discard_until tag_of]. rewrite getitem_0_cons.
  destruct (Z.eqb_spec t tag); [contradiction | reflexivity].
Qed.

Lemma has_tag_cons (tag : Z) (report : list Z) :
  has_tag tag report = true -> exists rest, report = tag :: rest.
Proof.
  destruct report as [| t rest]; cbn; [discriminate |].
  intros ->%Z.eqb_eq. eauto.
Qed.

Lemma tag_differs_cons (tag : Z) (report : list Z) :
  tag_differs tag report = true -> exists t rest, report = t :: rest /\ t <> tag.
Proof.
  destruct report as [| t rest]; cbn; [discriminate |].
  intros H%negb_true_iff%Z.eqb_neq. eauto.
Qed.

(** Whatever the loop returns carries the tag, and the reports it read and
    dropped on the way all carried another one. *)
Lemma discard_until_sound (tag : Z) (fuel : nat) :
  forall (report : option (list Z)) (self : JoyCon) (d : hid_device)
         (r : list Z) (self' : JoyCon),
    _joycon_device self = Some d ->
    discard_until tag fuel report self = (Ok r, self') ->
    exists first more skipped,
      report = Some first
      /\ delivers d (cursor d) more
      /\ first :: more = skipped ++ [r]
      /\ Forall (fun x => tag_differs tag x = true) skipped
      /\ has_tag tag r = true
      /\ self' = set_joycon_device (Some (advance (length more) d)) self.
Proof.
  induction fuel as [| fuel IH]; intros report self d r self' Hd Hrun.
  - destruct report as [[| t rest] |]; cbn in Hrun; try discriminate.
    rewrite getitem_0_cons in Hrun.
    destruct (Z.eqb_spec t tag) as [-> | Hne]; cbn in Hrun; try discriminate.
    injection Hrun as <- <-.
    exists (tag :: rest), [], []; cbn; rewrite Z.eqb_refl.
    rewrite (set_device_advance_0 _ _ Hd); auto 10.
  - destruct report as [[| t rest] |]; try (cbn in Hrun; discriminate).
    destruct (Z.eq_dec t tag) as [-> | Hne].
    + rewrite discard_until_match in Hrun by reflexivity.
      injection Hrun as <- <-.
      exists (tag :: rest), [], []; cbn; rewrite Z.eqb_refl.
      rewrite (set_device_advance_0 _ _ Hd); auto 10.
    + rewrite discard_until_skip in Hrun by assumption.
      destruct (incoming d (cursor d)) as [next |] eqn:Hnext.
      * rewrite (read_ok _ _ _ Hd Hnext) in Hrun.
        apply (IH _ _ (advance 1 d)) in Hrun; [| reflexivity].
        destruct Hrun as (first & more & skipped & [= <-] & Hdel & Hsplit & Hsk & Hr & ->).
        exists (t :: rest), (next :: more), ((t :: rest) :: skipped).
        split; [reflexivity |].
        apply delivers_advance in Hdel.
        split; [cbn; split; [exact Hnext | exact Hdel] |].
        split; [cbn; f_equal; exact Hsplit |].
        split; [constructor; [cbn; apply negb_true_iff, Z.eqb_neq, Hne | exact Hsk] |].
        split; [exact Hr |].
        cbn [set_joycon_device length]. unfold set_joycon_device; cbn.
        rewrite advance_advance. repeat f_equal. lia.
      * rewrite (read_fail _ _ Hd Hnext) in Hrun. discriminate.
Qed.

(** If the reports that arrive carry other tags up to one that carries
    the wanted tag, the loop returns that one. *)
Lemma discard_until_complete (tag : Z) (skipped : list (list Z)) :
  forall (fuel : nat) (first : list Z) (more : list (list Z)) (r : list Z)
         (self : JoyCon) (d : hid_device),
    _joycon_device self = Some d ->
    delivers d (cursor d) more ->
    first :: more = skipped ++ [r] ->
    Forall (fun x => tag_differs tag x = true) skipped ->
    has_tag tag r = true ->
    (length more <= fuel)%nat ->
    discard_until tag fuel (Some first) self
    = (Ok r, set_joycon_device (Some (advance (length more) d)) self).
Proof.
  induction skipped as [| s sk IH]; intros fuel first more r self d Hd Hdel Hsplit Hsk Hr Hfuel.
  - cbn in Hsplit. injection Hsplit as -> ->.
    destruct (has_tag_cons _ _ Hr) as [rest ->].
    rewrite discard_until_match by reflexivity.
    cbn [length]. rewrite (set_device_advance_0 _ _ Hd). reflexivity.
  - cbn in Hsplit. injection Hsplit as -> ->.
    apply Forall_cons in Hsk as [Hs Hsk].
    destruct (tag_differs_cons _ _ Hs) as (t & rest & -> & Hne).
    destruct (sk ++ [r]) as [| next more'] eqn:Hmore;
      [destruct sk; discriminate Hmore |].
    destruct Hdel as [Hnext Hdel].
    destruct fuel as [| fuel]; [cbn in Hfuel; lia |].
    rewrite discard_until_skip by assumption.
    rewrite (read_ok _ _ _ Hd Hnext).
    rewrite (IH fuel next more' r _ (advance 1 d)); auto.
    + unfold set_joycon_device; cbn. rewrite advance_advance.
      repeat f_equal. lia.
    + apply delivers_advance. exact Hdel.
    + cbn in Hfuel. lia.
Qed.

(** If the reports that arrive all carry other tags and then the read
    fails, the loop ends with that failure. *)
Lemma discard_until_fails (tag : Z) (more : list (list Z)) :
  forall (fuel : nat) (first : list Z) (self : JoyCon) (d : hid_device),
    _joycon_device self = Some d ->
    delivers d (cursor d) more ->
    Forall (fun x => tag_differs tag x = true) (first :: more) ->
    incoming d (length more + cursor d) = None ->
    (length more < fuel)%nat ->
    discard_until tag fuel (Some first) self
    = (Raise (OSError HidReadFailed),
       set_joycon_device (Some (advance (length more) d)) self).
Proof.
  induction more as [| next more IH]; intros fuel first self d Hd Hdel Hall Hend Hfuel.
  all: apply Forall_cons in Hall as [Hf Hall].
  all: destruct (tag_differs_cons _ _ Hf) as (t & rest & -> & Hne).
  all: destruct fuel as [| fuel]; [cbn in Hfuel; lia |].
  all: rewrite discard_until_skip by assumption.
  - cbn in Hend. rewrite (read_fail _ _ Hd Hend).
    cbn [length]. rewrite (set_device_advance_0 _ _ Hd). reflexivity.
  - destruct Hdel as [Hnext Hdel].
    rewrite (read_ok _ _ _ Hd Hnext).
    rewrite (IH fuel next _ (advance 1 d)); auto.
    + unfold set_joycon_device; cbn. rewrite advance_advance.
      repeat f_equal. lia.
    + apply delivers_advance. exact Hdel.
    + cbn. cbn in Hend. replace (length more + S (cursor d))%nat
        with (S (length more + cursor d)) by lia. exact Hend.
    + cbn in Hfuel. lia.
Qed.

(** The loop only moves the read position of the handle. *)
Lemma discard_until_frame (tag : Z) (fuel : nat) :
  forall (report : option (list Z)) (self : JoyCon) (d : hid_device),
    _joycon_device self = Some d ->
    exists n,
      snd (discard_until tag fuel report self)
      = set_joycon_device (Some (advance n d)) self.
Proof.
  induction fuel as [| fuel IH]; intros report self d Hd.
  all: cbn [discard_until].
  all: destruct (tag_of report) as [t | e |];
    try (exists 0%nat; symmetry; apply set_device_advance_0, Hd).
  all: destruct (negb (t =? tag));
    try (exists 0%nat; symmetry; apply set_device_advance_0, Hd).
  destruct (incoming d (cursor d)) as [next |] eqn:Hnext.
  - rewrite (read_ok _ _ _ Hd Hnext).
    destruct (IH (Some next) (set_joycon_device (Some (advance 1 d)) self)
                (advance 1 d) eq_refl) as [n Hn].
    exists (n + 1)%nat. rewrite Hn.
    unfold set_joycon_device; cbn. rewrite advance_advance. reflexivity.
  - rewrite (read_fail _ _ Hd Hnext).
    exists 0%nat. symmetry. apply set_device_advance_0, Hd.
Qed.

Lemma read_until_frame (tag : Z) (fuel : nat) (self : JoyCon) (d : hid_device) :
  _joycon_device self = Some d ->
  exists n,
    snd (read_until tag fuel self) = set_joycon_device (Some (advance n d)) self.
Proof.
  intros Hd. unfold read_until, mbind, M_bind, bind.
  destruct (incoming d (cursor d)) as [next |] eqn:Hnext.
  - rewrite (read_ok _ _ _ Hd Hnext).
    destruct (discard_until_frame tag fuel (Some next)
                (set_joycon_device (Some (advance 1 d)) self)
                (advance 1 d) eq_refl) as [n Hn].
    exists (n + 1)%nat.
    destruct (discard_until tag fuel (Some next) _) as [[r | e |] self1];
      cbn in Hn |- *; rewrite Hn;
      unfold set_joycon_device; cbn; rewrite advance_advance; reflexivity.
  - rewrite (read_fail _ _ Hd Hnext).
    exists 0%nat. symmetry. apply set_device_advance_0, Hd.
Qed.

Lemma read_until_sound (tag : Z) (fuel : nat) (self : JoyCon) (d : hid_device)
    (r : list Z) (self' : JoyCon) :
  _joycon_device self = Some d ->
  read_until tag fuel self = (Ok r, self') ->
  exists skipped,
    delivers d (cursor d) (skipped ++ [r])
    /\ Forall (fun x => tag_differs tag x = true) skipped
    /\ has_tag tag r = true
    /\ self' = set_joycon_device (Some (advance (S (length skipped)) d)) self.
Proof.
  intros Hd Hrun. unfold read_until, mbind, M_bind, bind in Hrun.
  destruct (incoming d (cursor d)) as [first |] eqn:Hfirst.
  - rewrite (read_ok _ _ _ Hd Hfirst) in Hrun.
    apply (discard_until_sound _ _ _ _ (advance 1 d)) in Hrun; [| reflexivity].
    destruct Hrun as (first' & more & skipped & [= <-] & Hdel & Hsplit & Hsk & Hr & ->).
    apply delivers_advance in Hdel.
    exists skipped. rewrite <- Hsplit.
    split; [cbn; split; assumption |].
    split; [assumption |]. split; [assumption |].
    assert (Hlen : length skipped = length more).
    { apply (f_equal length) in Hsplit. rewrite length_app in Hsplit.
      cbn in Hsplit. lia. }
    unfold set_joycon_device; cbn. rewrite advance_advance, Hlen.
    repeat f_equal. lia.
  - rewrite (read_fail _ _ Hd Hfirst) in Hrun. discriminate.
Qed.

Lemma read_until_complete (tag : Z) (fuel : nat) (self : JoyCon)
    (d : hid_device) (skipped : list (list Z)) (r : list Z) :
  _joycon_device self = Some d ->
  delivers d (cursor d) (skipped ++ [r]) ->
  Forall (fun x => tag_differs tag x = true) skipped ->
  has_tag tag r = true ->
  (length skipped <= fuel)%nat ->
  read_until tag fuel self
  = (Ok r, set_joycon_device (Some (advance (S (length skipped)) d)) self).
Proof.
  intros Hd Hdel Hsk Hr Hfuel.
  destruct (skipped ++ [r]) as [| first more] eqn:Hsplit;
    [destruct skipped; discriminate Hsplit |].
  destruct Hdel as [Hfirst Hdel].
  assert (Hlen : length skipped = length more).
  { apply (f_equal length) in Hsplit. rewrite length_app in Hsplit.
    cbn in Hsplit. lia. }
  unfold read_until, mbind, M_bind, bind.
  rewrite (read_ok _ _ _ Hd Hfirst).
  rewrite (discard_until_complete tag skipped fuel first more r _ (advance 1 d));
    auto.
  - unfold set_joycon_device; cbn. rewrite advance_advance, Hlen.
    repeat f_equal. lia.
  - apply delivers_advance. exact Hdel.
  - lia.
Qed.

Lemma read_until_fails (tag : Z) (fuel : nat) (self : JoyCon)
    (d : hid_device) (skipped : list (list Z)) :
  _joycon_device self = Some d ->
  delivers d (cursor d) skipped ->
  Forall (fun x => tag_differs tag x = true) skipped ->
  incoming d (length skipped + cursor d) = None ->
  (length skipped <= fuel)%nat ->
  read_until tag fuel self
  = (Raise (OSError HidReadFailed),
     set_joycon_device (Some (advance (length skipped) d)) self).
Proof.
  intros Hd Hdel Hsk Hend Hfuel.
  unfold read_until, mbind, M_bind, bind.
  destruct skipped as [| first more].
  - cbn in Hend. rewrite (read_fail _ _ Hd Hend).
    cbn [length]. rewrite (set_device_advance_0 _ _ Hd). reflexivity.
  - destruct Hdel as [Hfirst Hdel].
    rewrite (read_ok _ _ _ Hd Hfirst).
    rewrite (discard_until_fails tag more fuel first _ (advance 1 d)); auto.
    + unfold set_joycon_device; cbn. rewrite advance_advance.
      repeat f_equal. lia.
    + apply delivers_advance. exact Hdel.
    + cbn. cbn in Hend. replace (length more + S (cursor d))%nat
        with (S (length more + cursor d)) by lia. exact Hend.
Qed.

(** *** Writing a frame *)

Lemma to_bytes_1 (n : Z) : 0 <= n < 256 -> Py.to_bytes n 1 = Ok [n].
Proof.
  intros Hn. unfold Py.to_bytes. change (256 ^ Z.of_nat 1) with 256.
  destruct (Z.leb_spec 0 n); [| lia].
  destruct (Z.ltb_spec n 256); [| lia].
  cbn. rewrite Z.mod_small by lia. reflexivity.
Qed.

Lemma write_output_report_ok (command subcommand argument : list Z)
    (self : JoyCon) (d : hid_device) :
  _joycon_device self = Some d ->
  0 <= _packet_number self < 256 ->
  _write_output_report command subcommand argument self
  = (Ok tt,
     set_packet_number (Z.land (_packet_number self + 1) 0xF)
       (set_joycon_device
          (Some (hid_write (command ++ [_packet_number self] ++ _RUMBLE_DATA
                              ++ subcommand ++ argument) d))
          self)).
Proof.
  intros Hd Hpn.
  unfold _write_output_report, mbind, M_bind, bind, get, lift, modify.
  rewrite Hd, (to_bytes_1 _ Hpn). reflexivity.
Qed.

Lemma write_output_report_inv (command subcommand argument : list Z)
    (self self' : JoyCon) (d : hid_device) (r : outcome unit) :
  _joycon_device self = Some d ->
  _write_output_report command subcommand argument self = (r, self') ->
  (r = Ok tt
   /\ exists frame pn,
       self' = set_packet_number pn
                 (set_joycon_device (Some (hid_write frame d)) self))
  \/ (r = Raise OverflowError /\ self' = self).
Proof.
  intros Hd.
  unfold _write_output_report, mbind, M_bind, bind, get, lift, modify.
  rewrite Hd. unfold Py.to_bytes.
  destruct ((0 <=? _packet_number self) && (_packet_number self <? 256 ^ Z.of_nat 1)).
  - intros [= <- <-]. left. eauto.
  - intros [= <- <-]. right. auto.
Qed.

Lemma delivers_hid_write (frame : list Z) (d : hid_device) (c : nat)
    (l : list (list Z)) :
  delivers (hid_write frame d) c l <-> delivers d c l.
Proof.
  revert c. induction l as [| r l IH]; intros c; cbn; [tauto |].
  rewrite IH. tauto.
Qed.

(** *** The polling loop *)

Lemma poll_S (fuel : nat) (self : JoyCon) (d : hid_device) :
  _joycon_device self = Some d ->
  poll (S fuel) self
  = match read_until 0x30 fuel self with
    | (Ok report, self1) =>
        poll fuel (snd (run_hooks (snd (publish report self1))))
    | (Raise e, self1) => (Raise e, self1)
    | (Diverge, self1) => (Diverge, self1)
    end.
Proof.
  intros Hd. cbn [poll]. rewrite Hd.
  unfold mbind, M_bind, bind.
  destruct (read_until 48 fuel self) as [[report | e |] self1]; reflexivity.
Qed.

Lemma poll_sound (fuel : nat) :
  forall self : JoyCon,
    exists evs,
      observed (snd (poll fuel self)) = observed self ++ evs
      /\ Forall (fun ev => forall report,
                   event_report ev = Some report -> has_tag 0x30 report = true)
                evs.
Proof.
  induction fuel as [| fuel IH]; intros self.
  - exists []. rewrite app_nil_r. split; [| constructor].
    cbn. destruct (_joycon_device self); reflexivity.
  - destruct (_joycon_device self) as [d |] eqn:Hd.
    2: { exists []. rewrite app_nil_r. split; [| constructor].
         cbn. rewrite Hd. reflexivity. }
    rewrite (poll_S _ _ _ Hd).
    destruct (read_until_frame 0x30 fuel self d Hd) as [dv Hframe].
    destruct (read_until 0x30 fuel self) as [[report | e |] self1] eqn:Hrun.
    2, 3: exists []; rewrite app_nil_r; split; [| constructor];
          cbn in Hframe |- *; rewrite Hframe; reflexivity.
    destruct (read_until_sound _ _ _ _ _ _ Hd Hrun) as (skipped & _ & _ & Hr & ->).
    destruct (IH (snd (run_hooks
                         (snd (publish report
                                 (set_joycon_device
                                    (Some (advance (S (length skipped)) d)) self))))))
      as (evs & Hevs & Hok).
    exists ([Published report]
            ++ map (fun callback => Called callback report) (_input_hooks self)
            ++ evs).
    split.
    + rewrite Hevs. cbn. rewrite <- !app_assoc. reflexivity.
    + apply Forall_app. split.
      { constructor; [| constructor]. cbn. intros ? [= <-]. exact Hr. }
      apply Forall_app. split; [| exact Hok].
      apply Forall_forall. intros ev Hin.
      apply list_elem_of_fmap in Hin as (callback & -> & _).
      cbn. intros ? [= <-]. exact Hr.
Qed.

Lemma poll_events_dropped (hooks : list hook) (reports : list (list Z)) :
  Forall (fun x => tag_differs 0x30 x = true) reports ->
  poll_events hooks reports = [].
Proof.
  induction 1 as [| r rest Hr _ IH]; [reflexivity |].
  cbn [poll_events]. rewrite IH.
  destruct (tag_differs_cons _ _ Hr) as (t & tl & -> & Hne).
  cbn. destruct (Z.eqb_spec t 48); [contradiction | reflexivity].
Qed.

(** A run of reports that all have a tag byte either never shows tag
    0x30 or has a first report that does. *)
Lemma first_matching (tag : Z) (reports : list (list Z)) :
  Forall (fun r => r <> []) reports ->
  Forall (fun x => tag_differs tag x = true) reports
  \/ exists skipped r rest,
      reports = skipped ++ r :: rest
      /\ Forall (fun x => tag_differs tag x = true) skipped
      /\ has_tag tag r = true.
Proof.
  induction 1 as [| r rest Hr Hrest IH]; [left; constructor |].
  destruct r as [| t tl]; [contradiction |].
  destruct (Z.eq_dec t tag) as [-> | Hne].
  - right. exists [], (tag :: tl), rest. cbn. rewrite Z.eqb_refl. auto.
  - assert (Hd : tag_differs tag (t :: tl) = true)
      by (cbn; apply negb_true_iff, Z.eqb_neq, Hne).
    destruct IH as [Hall | (skipped & r & rest' & -> & Hsk & Hr')].
    + left. constructor; assumption.
    + right. exists ((t :: tl) :: skipped), r, rest'. cbn. auto.
Qed.

Lemma poll_complete (fuel : nat) :
  forall (reports : list (list Z)) (self : JoyCon) (d : hid_device),
    _joycon_device self = Some d ->
    delivers d (cursor d) reports ->
    Forall (fun r => r <> []) reports ->
    incoming d (length reports + cursor d) = None ->
    (length reports < fuel)%nat ->
    exists self',
      poll fuel self = (Raise (OSError HidReadFailed), self')
      /\ observed self'
         = observed self ++ poll_events (_input_hooks self) reports.
Proof.
  induction fuel as [| fuel IH]; intros reports self d Hd Hdel Hne Hend Hfuel;
    [lia |].
  rewrite (poll_S _ _ _ Hd).
  destruct (first_matching 0x30 reports Hne)
    as [Hall | (skipped & r & rest & -> & Hsk & Hr)].
  - rewrite (read_until_fails _ _ _ _ _ Hd Hdel Hall Hend) by lia.
    eexists. split; [reflexivity |].
    rewrite poll_events_dropped by assumption.
    cbn. rewrite app_nil_r. reflexivity.
  - assert (Hdel' := Hdel).
    replace (skipped ++ r :: rest) with ((skipped ++ [r]) ++ rest) in Hdel'
      by (rewrite <- app_assoc; reflexivity).
    apply delivers_app in Hdel' as [Hhead Hrest].
    rewrite length_app in Hfuel, Hend. cbn in Hfuel, Hend.
    rewrite (read_until_complete _ _ _ _ _ _ Hd Hhead Hsk Hr) by lia.
    apply Forall_app in Hne as [_ Hne]. apply Forall_cons in Hne as [_ Hne].
    destruct (IH rest
                (snd (run_hooks
                        (snd (publish r
                                (set_joycon_device
                                   (Some (advance (S (length skipped)) d)) self)))))
                (advance (S (length skipped)) d))
      as (self' & Hpoll & Hobs).
    + reflexivity.
    + apply delivers_advance. rewrite length_app in Hrest.
      cbn in Hrest |- *.
      replace (S (length skipped + cursor d))
        with (length skipped + 1 + cursor d)%nat by lia. exact Hrest.
    + exact Hne.
    + cbn. replace (length rest + S (length skipped + cursor d))%nat
        with (length skipped + S (length rest) + cursor d)%nat by lia.
      exact Hend.
    + lia.
    + exists self'. split; [exact Hpoll |].
      rewrite Hobs. cbn.
      replace (poll_events (_input_hooks self) (skipped ++ r :: rest))
        with (Published r
              :: map (fun callback => Called callback r) (_input_hooks self)
              ++ poll_events (_input_hooks self) rest).
      { rewrite <- !app_assoc. reflexivity. }
      clear -Hsk Hr. induction Hsk as [| s sk Hs _ IHs]; cbn.
      * rewrite Hr. reflexivity.
      * rewrite <- IHs.
        destruct (tag_differs_cons _ _ Hs) as (t & tl & -> & Hne).
        cbn. destruct (Z.eqb_spec t 48); [contradiction | reflexivity].
Qed.

(** *** The subcommand exchange *)

(** What [_send_subcmd_get_response] does with the report its loop
    accepted. *)
Lemma send_subcmd_unfold (fuel : nat) (subcommand argument : list Z)
    (self self_w : JoyCon) :
  _write_output_report [0x01] subcommand argument self = (Ok tt, self_w) ->
  _send_subcmd_get_response fuel subcommand argument self
  = match read_until 0x21 fuel self_w with
    | (Ok report, self1) =>
        (if Py.bytes_eqb (Py.slice report 1 2) subcommand
         then Raise AssertionError
         else b ← Py.getitem report 13;
              mret (Z.land b 0x80, Py.slice_from report 13),
         self1)
    | (Raise e, self1) => (Raise e, self1)
    | (Diverge, self1) => (Diverge, self1)
    end.
Proof.
  intros Hw. unfold _send_subcmd_get_response, mbind, M_bind, bind.
  rewrite Hw.
  destruct (read_until 33 fuel self_w) as [[report | e |] self1]; try reflexivity.
  unfold assert, lift, ret, raise.
  destruct (Py.bytes_eqb (Py.slice report 1 2) subcommand); cbn; [reflexivity |].
  destruct (Py.getitem report 13); reflexivity.
Qed.

Lemma send_subcmd_sound (fuel : nat) (subcommand argument : list Z)
    (self : JoyCon) (d : hid_device) (ack : Z) (payload : list Z)
    (self' : JoyCon) :
  _joycon_device self = Some d ->
  _send_subcmd_get_response fuel subcommand argument self
  = (Ok (ack, payload), self') ->
  exists skipped report frame pn,
    delivers d (cursor d) (skipped ++ [report])
    /\ Forall (fun x => tag_differs 0x21 x = true) skipped
    /\ has_tag 0x21 report = true
    /\ Py.bytes_eqb (Py.slice report 1 2) subcommand = false
    /\ (exists b, Py.getitem report 13 = Ok b /\ ack = Z.land b 0x80)
    /\ payload = Py.slice_from report 13
    /\ self' = set_joycon_device
                 (Some (advance (S (length skipped)) (hid_write frame d)))
                 (set_packet_number pn self).
Proof.
  intros Hd Hrun.
  destruct (_write_output_report [0x01] subcommand argument self)
    as [w self_w] eqn:Hw.
  destruct (write_output_report_inv _ _ _ _ _ _ _ Hd Hw)
    as [(-> & frame & pn & ->) | (-> & ->)].
  2: { unfold _send_subcmd_get_response, mbind, M_bind, bind in Hrun.
       rewrite Hw in Hrun. discriminate. }
  rewrite (send_subcmd_unfold _ _ _ _ _ Hw) in Hrun.
  destruct (read_until 0x21 fuel _) as [[report | e |] self1] eqn:Hread;
    try discriminate.
  apply (read_until_sound _ _ _ (hid_write frame d)) in Hread; [| reflexivity].
  destruct Hread as (skipped & Hdel & Hsk & Hr & ->).
  apply delivers_hid_write in Hdel.
  destruct (Py.bytes_eqb (Py.slice report 1 2) subcommand) eqn:Hecho;
    [discriminate |].
  destruct (Py.getitem report 13) as [b | |] eqn:Hb; try discriminate.
  cbn in Hrun. injection Hrun as <- <- <-.
  exists skipped, report, frame, pn. eauto 12.
Qed.

(** C6: (1) a reply that [_send_subcmd_get_response] returns comes from a
    report with tag 0x21, and every report read before it was dropped and
    had another tag; (2) when the reports that arrive have other tags,
    the method goes on reading: it ends with the read failure if the
    read fails next, and works on the next report if that one has tag
    0x21; (3) every report the polling thread publishes or hands to a
    callback has tag 0x30; (4) when the handle delivers [reports] and then
    fails, the thread publishes and dispatches exactly the reports with
    tag 0x30, in order, drops the others, and stops at the failure. *)
Theorem wrong_tag_never_accepted (fuel : nat) (self : JoyCon) (d : hid_device) :
  _joycon_device self = Some d ->
  (forall subcommand argument ack payload self',
      _send_subcmd_get_response fuel subcommand argument self
      = (Ok (ack, payload), self') ->
      exists skipped report,
        delivers d (cursor d) (skipped ++ [report])
        /\ Forall (fun x => tag_differs 0x21 x = true) skipped
        /\ has_tag 0x21 report = true
        /\ payload = Py.slice_from report 13
        /\ exists d', _joycon_device self' = Some d'
                      /\ cursor d' = (S (length skipped) + cursor d)%nat)
  /\ (forall subcommand argument skipped,
        0 <= _packet_number self < 256 ->
        delivers d (cursor d) skipped ->
        Forall (fun x => tag_differs 0x21 x = true) skipped ->
        (length skipped <= fuel)%nat ->
        (incoming d (length skipped + cursor d) = None ->
         fst (_send_subcmd_get_response fuel subcommand argument self)
         = Raise (OSError HidReadFailed))
        /\ (forall report,
              incoming d (length skipped + cursor d) = Some report ->
              has_tag 0x21 report = true ->
              fst (_send_subcmd_get_response fuel subcommand argument self)
              = (if Py.bytes_eqb (Py.slice report 1 2) subcommand
                 then Raise AssertionError
                 else b ← Py.getitem report 13;
                      mret (Z.land b 0x80, Py.slice_from report 13))
              /\ exists d',
                  _joycon_device
                    (snd (_send_subcmd_get_response fuel subcommand argument self))
                  = Some d'
                  /\ cursor d' = (S (length skipped) + cursor d)%nat))
  /\ (exists evs,
        observed (snd (_update_input_report fuel self)) = observed self ++ evs
        /\ Forall (fun ev => forall report,
                     event_report ev = Some report -> has_tag 0x30 report = true)
                  evs)
  /\ (forall reports,
        delivers d (cursor d) reports ->
        Forall (fun r => r <> []) reports ->
        incoming d (length reports + cursor d) = None ->
        (length reports < fuel)%nat ->
        fst (_update_input_report fuel self) = Ok tt
        /\ observed (snd (_update_input_report fuel self))
           = observed self ++ poll_events (_input_hooks self) reports
             ++ [PrintedConnectionClosed]).
Proof.
  intros Hd. split; [| split; [| split]].
  - intros subcommand argument ack payload self' Hrun.
    destruct (send_subcmd_sound _ _ _ _ _ _ _ _ Hd Hrun)
      as (skipped & report & frame & pn & Hdel & Hsk & Hr & _ & _ & Hp & ->).
    exists skipped, report. repeat (split; [assumption |]).
    eexists. split; reflexivity.
  - intros subcommand argument skipped Hpn Hdel Hsk Hfuel.
    pose proof (write_output_report_ok [0x01] subcommand argument _ _ Hd Hpn) as Hw.
    rewrite (send_subcmd_unfold _ _ _ _ _ Hw).
    set (frame := [0x01] ++ [_packet_number self] ++ _RUMBLE_DATA
                  ++ subcommand ++ argument) in *.
    set (self_w := set_packet_number _ _) in *.
    assert (Hdw : _joycon_device self_w = Some (hid_write frame d)) by reflexivity.
    split.
    + intros Hend.
      rewrite (read_until_fails 0x21 fuel self_w (hid_write frame d) skipped);
        auto. apply delivers_hid_write, Hdel.
    + intros report Hnext Hr.
      rewrite (read_until_complete 0x21 fuel self_w (hid_write frame d)
                 skipped report); auto.
      * split; [reflexivity |]. eexists. split; reflexivity.
      * apply delivers_hid_write, delivers_app. split; [exact Hdel |].
        cbn. auto.
  - destruct (poll_sound fuel self) as (evs & Hevs & Hok).
    unfold _update_input_report.
    destruct (poll fuel self) as [[[] | [| | | | | | why] |] self1] eqn:Hpoll;
      try (exists evs; split; [exact Hevs | exact Hok]).
    exists (evs ++ [PrintedConnectionClosed]). split.
    + cbn in Hevs |- *. rewrite Hevs, app_assoc. reflexivity.
    + apply Forall_app. split; [exact Hok |].
      constructor; [| constructor]. cbn. discriminate.
  - intros reports Hdel Hne Hend Hfuel.
    destruct (poll_complete fuel reports self d Hd Hdel Hne Hend Hfuel)
      as (self' & Hpoll & Hobs).
    unfold _update_input_report. rewrite Hpoll. cbn.
    split; [reflexivity |]. rewrite Hobs, app_assoc. reflexivity.
Qed.

End Transport.

(** ** Reading the flash *)

Lemma slice_take_drop {A} (l : list A) (lo hi : Z) :
  0 <= lo <= hi ->
  Py.slice l lo hi = take (Z.to_nat (hi - lo)) (drop (Z.to_nat lo) l).
Proof.
  intros H. unfold Py.slice, Py.clip.
  destruct (Z.ltb_spec lo 0); [lia |].
  destruct (Z.ltb_spec hi 0); [lia |].
  destruct (Z.le_gt_cases (Z.of_nat (length l)) lo) as [Hshort | Hlong].
  - rewrite !drop_ge by lia. rewrite !take_nil. reflexivity.
  - rewrite (Z.min_l lo) by lia.
    destruct (Z.le_gt_cases hi (Z.of_nat (length l))) as [Hin | Hout].
    + rewrite Z.min_l by lia. f_equal. lia.
    + rewrite Z.min_r by lia.
      rewrite !take_ge; [reflexivity | |]; rewrite length_drop; lia.
Qed.

Lemma to_bytes_4 (n : Z) :
  0 <= n < 2 ^ 32 -> Py.to_bytes n 4 = Ok (Py.le_digits 4 n).
Proof.
  intros Hn. unfold Py.to_bytes.
  change (256 ^ Z.of_nat 4) with (2 ^ 32).
  destruct (Z.leb_spec 0 n); [| lia].
  destruct (Z.ltb_spec n (2 ^ 32)); [reflexivity | lia].
Qed.

Lemma bytes_eqb_true (a b : list Z) : Py.bytes_eqb a b = true <-> a = b.
Proof. unfold Py.bytes_eqb. apply bool_decide_eq_true. Qed.

Lemma bytes_eqb_false (a b : list Z) : Py.bytes_eqb a b = false <-> a <> b.
Proof. unfold Py.bytes_eqb. apply bool_decide_eq_false. Qed.

Section Flash.

Context `{K : constants}.

(** The checks [_spi_flash_read] makes on a reply [(ack, report)]. *)
Lemma spi_flash_read_unfold (fuel : nat) (address size : Z) (self : JoyCon) :
  0 <= size <= 0x1D ->
  0 <= address < 2 ^ 32 ->
  _spi_flash_read fuel address size self
  = match _send_subcmd_get_response fuel [0x10]
            (Py.le_digits 4 address ++ [size]) self with
    | (Ok (ack, report), self1) =>
        (if ack =? 0 then Raise (OSError SpiNack)
         else if negb (Py.bytes_eqb (Py.slice report 0 2) [0x90; 0x10])
         then Raise (OSError SpiUnexpectedAck)
         else if Py.bytes_eqb (Py.slice report 2 7)
                   (Py.le_digits 4 address ++ [size])
         then Ok (Py.slice report 7 (size + 7))
         else Raise AssertionError,
         self1)
    | (Raise e, self1) => (Raise e, self1)
    | (Diverge, self1) => (Diverge, self1)
    end.
Proof.
  intros Hs Ha.
  unfold _spi_flash_read, mbind, M_bind, bind, assert, lift, ret, raise.
  destruct (Z.leb_spec size 0x1D); [| lia].
  rewrite (to_bytes_4 _ Ha), (to_bytes_1 size) by lia.
  destruct (_send_subcmd_get_response fuel [16] _ self)
    as [[[ack report] | e |] self1]; try reflexivity.
  destruct (ack =? 0); [reflexivity |].
  destruct (negb (Py.bytes_eqb (Py.slice report 0 2) [144; 16])); [reflexivity |].
  destruct (Py.bytes_eqb (Py.slice report 2 7) _); reflexivity.
Qed.

(** The exchange writes one frame and otherwise only reads. *)
Lemma send_subcmd_frame (fuel : nat) (subcommand argument : list Z)
    (self : JoyCon) (d : hid_device) :
  _joycon_device self = Some d ->
  0 <= _packet_number self < 256 ->
  exists n,
    snd (_send_subcmd_get_response fuel subcommand argument self)
    = set_joycon_device
        (Some (advance n
                 (hid_write ([0x01] ++ [_packet_number self] ++ _RUMBLE_DATA
                               ++ subcommand ++ argument) d)))
        (set_packet_number (Z.land (_packet_number self + 1) 0xF) self).
Proof.
  intros Hd Hpn.
  pose proof (write_output_report_ok [0x01] subcommand argument _ _ Hd Hpn) as Hw.
  rewrite (send_subcmd_unfold _ _ _ _ _ Hw).
  match type of Hw with _ = (_, ?s) => set (self_w := s) in * end.
  destruct (read_until_frame 0x21 fuel self_w _ eq_refl) as [n Hn].
  exists n.
  destruct (read_until 0x21 fuel self_w) as [[report | e |] self1];
    cbn in Hn |- *; rewrite Hn; reflexivity.
Qed.

(** C3: [_spi_flash_read] rejects every size above 0x1D before anything
    is sent.  For a size in [0, 0x1D] and a 32-bit address it writes one
    frame, subcommand 0x10 with the 4 little-endian address bytes and the
    size byte as argument; then, on the reply [(ack, report)] of the
    exchange ([report] is what follows byte 13 of a report with tag 0x21 and
    [ack] is the top bit of that byte), it fails when [ack] is 0, fails when [report[:2]] is not
    0x90 0x10, fails when [report[2:7]] is not the argument, and
    otherwise returns the [size] bytes of the reply that start at offset
    7. *)
Theorem spi_flash_read_contract (fuel : nat) (self : JoyCon) (d : hid_device)
    (address size : Z) :
  _joycon_device self = Some d ->
  (0x1D < size ->
   _spi_flash_read fuel address size self = (Raise AssertionError, self))
  /\ (0 <= size <= 0x1D -> 0 <= address < 2 ^ 32 ->
      0 <= _packet_number self < 256 ->
      let argument := Py.le_digits 4 address ++ [size] in
      let frame := [0x01; _packet_number self] ++ _RUMBLE_DATA ++ [0x10] ++ argument in
      (exists d',
          _joycon_device (snd (_spi_flash_read fuel address size self)) = Some d'
          /\ written d' = written d ++ [frame])
      /\ forall ack report self',
          _send_subcmd_get_response fuel [0x10] argument self
          = (Ok (ack, report), self') ->
          (exists full b,
              has_tag 0x21 full = true
              /\ Py.getitem full 13 = Ok b
              /\ ack = Z.land b 0x80
              /\ report = Py.slice_from full 13)
          /\ (ack = 0 ->
              _spi_flash_read fuel address size self
              = (Raise (OSError SpiNack), self'))
          /\ (ack <> 0 -> Py.slice report 0 2 <> [0x90; 0x10] ->
              _spi_flash_read fuel address size self
              = (Raise (OSError SpiUnexpectedAck), self'))
          /\ (ack <> 0 -> Py.slice report 0 2 = [0x90; 0x10] ->
              Py.slice report 2 7 <> argument ->
              _spi_flash_read fuel address size self
              = (Raise AssertionError, self'))
          /\ (ack <> 0 -> Py.slice report 0 2 = [0x90; 0x10] ->
              Py.slice report 2 7 = argument ->
              _spi_flash_read fuel address size self
              = (Ok (take (Z.to_nat size) (drop 7 report)), self')
              /\ (length report = 36%nat ->
                  length (take (Z.to_nat size) (drop 7 report)) = Z.to_nat size))).
Proof.
  intros Hd. split.
  - intros Hbig. unfold _spi_flash_read, mbind, M_bind, bind, assert, raise.
    destruct (Z.leb_spec size 0x1D); [lia | reflexivity].
  - intros Hs Ha Hpn argument frame.
    rewrite (spi_flash_read_unfold _ _ _ _ Hs Ha). fold argument.
    split.
    + destruct (send_subcmd_frame fuel [0x10] argument self d Hd Hpn) as [n Hn].
      exists (advance n (hid_write frame d)). split; [| reflexivity].
      destruct (_send_subcmd_get_response fuel [0x10] argument self)
        as [[[ack report] | e |] self1]; cbn in Hn |- *; rewrite Hn; reflexivity.
    + intros ack report self' Hsend.
      split.
      { destruct (send_subcmd_sound _ _ _ _ _ _ _ _ Hd Hsend)
          as (_ & full & _ & _ & _ & _ & Hfull & _ & (b & Hb & Hack) & Hrep & _).
        exists full, b. auto. }
      rewrite Hsend.
      split; [| split; [| split]].
      * intros ->. reflexivity.
      * intros Hack Hhead. apply Z.eqb_neq in Hack. rewrite Hack.
        apply bytes_eqb_false in Hhead. rewrite Hhead. reflexivity.
      * intros Hack Hhead Hecho. apply Z.eqb_neq in Hack. rewrite Hack.
        apply bytes_eqb_true in Hhead. rewrite Hhead.
        apply bytes_eqb_false in Hecho. rewrite Hecho. reflexivity.
      * intros Hack Hhead Hecho. apply Z.eqb_neq in Hack. rewrite Hack.
        apply bytes_eqb_true in Hhead. rewrite Hhead.
        apply bytes_eqb_true in Hecho. rewrite Hecho. cbn [negb].
        rewrite slice_take_drop by lia.
        replace (size + 7 - 7) with size by lia.
        split; [reflexivity |].
        intros Hlen. rewrite length_take, length_drop, Hlen. lia.
Qed.

End Flash.

(** ** Which calibration block is used *)

Lemma use_user_data_false (buf : list Z) :
  use_user_data buf = false <-> Forall (fun b => b = 0xFF) buf.
Proof.
  induction buf as [| b rest IH]; cbn.
  - split; [constructor | reflexivity].
  - destruct (Z.eqb_spec b 255) as [-> | Hne]; cbn.
    + rewrite IH. split; [intros; constructor; auto | intros H; inversion H; auto].
    + split; [discriminate | intros H; inversion H; contradiction].
Qed.

Lemma stick_cal_setitem_frame (i : Z) (v : outcome Z) (self : JoyCon) :
  exists l, snd (stick_cal_setitem i v self) = set_stick_cal l self.
Proof.
  unfold stick_cal_setitem, mbind, M_bind, bind, lift, get, modify.
  destruct v as [z | e |]; cbn;
    try (exists (stick_cal self); destruct self; reflexivity).
  destruct (Py.setitem (stick_cal self) i z) as [l | e |];
    try (exists (stick_cal self); destruct self; reflexivity).
  exists l. reflexivity.
Qed.

Lemma bind_stick_frame {A B} (m : M A) (k : A -> M B) :
  (forall s, exists l, snd (m s) = set_stick_cal l s) ->
  (forall a s, exists l, snd (k a s) = set_stick_cal l s) ->
  forall s, exists l, snd (bind m k s) = set_stick_cal l s.
Proof.
  intros Hm Hk s. unfold bind. destruct (Hm s) as [l Hl].
  destruct (m s) as [[a | e |] s1]; cbn in Hl; subst s1; eauto.
  destruct (Hk a (set_stick_cal l s)) as [l' Hl']. exists l'. rewrite Hl'.
  reflexivity.
Qed.

Section Source.

Context `{K : constants}.

(** Storing the calibration touches the attribute [stick_cal] only. *)
Lemma store_stick_cal_frame (buf : list Z) (self : JoyCon) :
  exists l, snd (store_stick_cal buf self) = set_stick_cal l self.
Proof.
  unfold store_stick_cal, mbind, M_bind.
  revert self. apply bind_stick_frame.
  { intros s. exists (stick_cal s). destruct s; reflexivity. }
  intros self0.
  apply bind_stick_frame; [intros s; eexists; reflexivity |]. intros _.
  repeat (apply bind_stick_frame;
          [intros s; apply stick_cal_setitem_frame |]; intros _).
  intros s; apply stick_cal_setitem_frame.
Qed.

(** C4: the user block is read at 0x8012 on a left controller and at
    0x801D otherwise, the factory block at 0x603D and 0x6046.  When the
    user block that was read is all 0xFF, the method goes on to read 9
    bytes at the factory address and stores the calibration parsed from
    them; when some byte of it is not 0xFF, the method stores the
    calibration parsed from the user block right away, without another
    flash read: the handle stays as the first read left it. *)
Theorem stick_calibration_source (fuel : nat) (self : JoyCon) :
  (user_stick_cal_addr self, factory_stick_cal_addr self)
  = (if is_left self then (0x8012, 0x603D) else (0x801D, 0x6046))
  /\ (is_right self = true ->
      user_stick_cal_addr self = 0x801D /\ factory_stick_cal_addr self = 0x6046)
  /\ forall buf self1,
      _spi_flash_read fuel (user_stick_cal_addr self) 9 self = (Ok buf, self1) ->
      (Forall (fun b => b = 0xFF) buf ->
       _read_stick_calibration_data fuel self
       = (factory ← _spi_flash_read fuel (factory_stick_cal_addr self) 9;
          store_stick_cal factory) self1
       /\ forall factory self2,
           _spi_flash_read fuel (factory_stick_cal_addr self) 9 self1
           = (Ok factory, self2) ->
           _read_stick_calibration_data fuel self = store_stick_cal factory self2)
      /\ (Exists (fun b => b <> 0xFF) buf ->
          _read_stick_calibration_data fuel self = store_stick_cal buf self1
          /\ _joycon_device (snd (_read_stick_calibration_data fuel self))
             = _joycon_device self1).
Proof.
  split; [| split].
  - unfold user_stick_cal_addr, factory_stick_cal_addr.
    destruct (is_left self); reflexivity.
  - intros Hr. unfold user_stick_cal_addr, factory_stick_cal_addr.
    rewrite (is_right_not_left self Hr). split; reflexivity.
  - intros buf self1 Huser.
    assert (Hrun : _read_stick_calibration_data fuel self
                   = (if negb (use_user_data buf)
                      then (factory ← _spi_flash_read fuel
                                        (factory_stick_cal_addr self) 9;
                            store_stick_cal factory) self1
                      else store_stick_cal buf self1)).
    { unfold _read_stick_calibration_data, mbind, M_bind, bind, get.
      rewrite Huser. destruct (use_user_data buf); cbn [negb]; [reflexivity |].
      destruct (_spi_flash_read fuel (factory_stick_cal_addr self) 9 self1)
        as [[factory | e |] self2]; reflexivity. }
    split.
    + intros Hff%use_user_data_false. rewrite Hrun, Hff. cbn [negb].
      split; [reflexivity |].
      intros factory self2 Hfac. unfold mbind, M_bind, bind. rewrite Hfac.
      reflexivity.
    + intros Hex.
      assert (Huse : use_user_data buf = true).
      { destruct (use_user_data buf) eqn:Hu; [reflexivity |].
        apply use_user_data_false in Hu. apply Exists_exists in Hex.
        destruct Hex as (b & Hin & Hne). rewrite Forall_forall in Hu.
        contradiction (Hne (Hu b Hin)). }
      rewrite Hrun, Huse. cbn [negb]. split; [reflexivity |].
      destruct (store_stick_cal_frame buf self1) as [l ->]. reflexivity.
Qed.

End Source.

(** ** The driver on concrete devices *)

(** Reading the six color bytes: the full-state report that arrives first
    is dropped, the reply is accepted, and a size of 0x1E is refused. *)
Lemma spi_flash_read_contract_witness :
  let self := plugged 0x2006 sample_reports in
  fst (_spi_flash_read 4 0x6050 6 self) = Ok [1; 2; 3; 4; 5; 6]
  /\ _spi_flash_read 4 0x6050 0x1E self = (Raise AssertionError, self)
  /\ exists d',
      _joycon_device (snd (_spi_flash_read 4 0x6050 6 self)) = Some d'
      /\ written d'
         = [[0x01; 0; 0x00; 0x01; 0x40; 0x40; 0x00; 0x01; 0x40; 0x40;
             0x10; 0x50; 0x60; 0; 0; 6]].
Proof.
  cbv zeta.
  destruct (spi_flash_read_contract 4 (plugged 0x2006 sample_reports)
              (device_of sample_reports) 0x6050 6 eq_refl) as [_ Hok].
  destruct (spi_flash_read_contract 4 (plugged 0x2006 sample_reports)
              (device_of sample_reports) 0x6050 0x1E eq_refl) as [Hbig _].
  destruct Hok as [Hsent Hchecks];
    [lia | lia | vm_compute; split; [discriminate | reflexivity] |].
  edestruct Hchecks as (_ & _ & _ & _ & Hsucc); [vm_compute; reflexivity |].
  destruct Hsucc as [Hres _];
    [discriminate | reflexivity | reflexivity |].
  split; [rewrite Hres; reflexivity |].
  split; [apply Hbig; lia |].
  exact Hsent.
Defined.

(** A left controller whose user block is unset takes the factory block; a
    right controller whose user block is set takes it and sends a single
    read request. *)
Lemma stick_calibration_source_witness :
  let left := plugged 0x2006 unset_user_block in
  let right := plugged 0x2007 set_user_block in
  fst (_read_stick_calibration_data (K := spec_constants) 4 left) = Ok tt
  /\ stick_cal (snd (_read_stick_calibration_data (K := spec_constants) 4 left))
     = [1; 0; 2; 0; 3; 0]
  /\ fst (_read_stick_calibration_data (K := spec_constants) 4 right) = Ok tt
  /\ stick_cal (snd (_read_stick_calibration_data (K := spec_constants) 4 right))
     = [3; 4080; 1; 0; 2; 0]
  /\ exists d',
      _joycon_device (snd (_read_stick_calibration_data (K := spec_constants) 4 right))
      = Some d'
      /\ length (written d') = 1%nat.
Proof.
  cbv zeta.
  destruct (stick_calibration_source (K := spec_constants) 4
              (plugged 0x2006 unset_user_block)) as (_ & _ & Hleft).
  destruct (stick_calibration_source (K := spec_constants) 4
              (plugged 0x2007 set_user_block)) as (_ & _ & Hright).
  eassert (Huser : _spi_flash_read 4 0x8012 9 (plugged 0x2006 unset_user_block) = (Ok _, _))
    by (vm_compute; reflexivity).
  destruct (Hleft _ _ Huser) as [Hunset _].
  destruct Hunset as [_ Hfactory]; [repeat constructor |].
  eassert (Huser' : _spi_flash_read 4 0x801D 9 (plugged 0x2007 set_user_block) = (Ok _, _))
    by (vm_compute; reflexivity).
  destruct (Hright _ _ Huser') as [_ Hset].
  destruct Hset as [Hstore Hdev];
    [apply Exists_cons_hd; discriminate |].
  erewrite Hfactory by (vm_compute; reflexivity).
  rewrite Hdev, Hstore.
  split; [reflexivity |]. split; [reflexivity |].
  split; [reflexivity |]. split; [reflexivity |].
  eexists. split; reflexivity.
Defined.

(** On [sample_reports] the subcommand exchange drops the full-state report
    and accepts the reply, and the polling thread publishes the two
    full-state reports, drops the two others and stops when the read
    fails. *)
Lemma wrong_tag_never_accepted_witness :
  let self := plugged 0x2006 sample_reports in
  fst (_send_subcmd_get_response 9 [0x10] [0x50; 0x60; 0; 0; 6] self)
  = Ok (0x80, drop 13 (spi_reply 0x6050 [1; 2; 3; 4; 5; 6]))
  /\ fst (_update_input_report 9 self) = Ok tt
  /\ observed (snd (_update_input_report 9 self))
     = [ Published (report_of 0x30 0 []); Called 7%nat (report_of 0x30 0 []);
         Published (report_of 0x30 1 []); Called 7%nat (report_of 0x30 1 []);
         PrintedConnectionClosed ].
Proof.
  cbv zeta.
  destruct (wrong_tag_never_accepted 9
              (plugged 0x2006 sample_reports) (device_of sample_reports) eq_refl)
    as (_ & Hwait & _ & Hpoll).
  destruct (Hwait [0x10] [0x50; 0x60; 0; 0; 6] [report_of 0x30 0 []])
    as [_ Haccept];
    [vm_compute; split; [discriminate | reflexivity]
    | cbn; auto | repeat constructor | cbn; lia |].
  destruct (Haccept (spi_reply 0x6050 [1; 2; 3; 4; 5; 6])) as [Hres _];
    [reflexivity | reflexivity |].
  destruct (Hpoll sample_reports) as [Hend Hobs];
    [cbn; auto | repeat constructor; discriminate | reflexivity | cbn; lia |].
  split; [rewrite Hres; reflexivity |].
  split; [exact Hend |].
  rewrite Hobs. reflexivity.
Defined.

(** * Further properties of the driver *)

(** ** Bytes and packed fields *)

Lemma lor_shiftl_add (hi lo k : Z) :
  0 <= k -> 0 <= lo < 2 ^ k -> Z.lor (Z.shiftl hi k) lo = hi * 2 ^ k + lo.
Proof.
  intros Hk Hlo.
  rewrite Z.shiftl_mul_pow2 by lia.
  rewrite <- Z.lxor_lor, <- Z.add_nocarry_lxor; try reflexivity.
  all: apply Z.bits_inj'; intros n Hn; rewrite Z.land_spec, Z.bits_0.
  all: destruct (Z.ltb_spec n k) as [Hlt | Hge].
  all: try (rewrite Z.mul_pow2_bits_low by lia; reflexivity).
  all: replace (Z.testbit lo n) with false; [apply andb_false_r |].
  all: symmetry; destruct (Z.eq_dec lo 0) as [-> | Hnz]; [apply Z.bits_0 |].
  all: apply Z.bits_above_log2; [lia |].
  all: apply Z.lt_le_trans with k; [apply Z.log2_lt_pow2; lia | lia].
Qed.

Lemma land_shiftl8_F00 (b : Z) : Z.land (Z.shiftl b 8) 0xF00 = (b mod 16) * 256.
Proof.
  change 0xF00 with (Z.shiftl (Z.ones 4) 8).
  rewrite <- Z.shiftl_land, Z.land_ones by lia.
  rewrite Z.shiftl_mul_pow2 by lia. reflexivity.
Qed.

Lemma int16le_decode_value (lo hi : Z) :
  byte lo -> byte hi ->
  _to_int16le_from_2bytes lo hi
  = (if hi <? 128 then lo + 256 * hi else lo + 256 * hi - 65536)
  /\ -32768 <= _to_int16le_from_2bytes lo hi <= 32767.
Proof.
  unfold byte. intros Hlo Hhi.
  assert (Hdec : _to_int16le_from_2bytes lo hi
                 = (if hi <? 128 then lo + 256 * hi else lo + 256 * hi - 65536)).
  { unfold _to_int16le_from_2bytes.
    rewrite lor_shiftl8_add by assumption.
    destruct (Z.ltb_spec (hi * 256 + lo) 32768);
      destruct (Z.ltb_spec hi 128); lia. }
  split; [exact Hdec |].
  rewrite Hdec. destruct (Z.ltb_spec hi 128); lia.
Qed.

(** X1: on two byte values [_to_int16le_from_2bytes] returns a signed
    16-bit integer, namely [lo + 256 * hi] when [hi < 128] and that number
    minus 65536 otherwise, and encoding the result gives the two bytes
    back; so decoding is one-to-one on byte pairs. *)
Theorem int16le_encode_decode (lo hi : Z) :
  byte lo -> byte hi ->
  -32768 <= _to_int16le_from_2bytes lo hi <= 32767
  /\ _to_int16le_from_2bytes lo hi
     = (if hi <? 128 then lo + 256 * hi else lo + 256 * hi - 65536)
  /\ int16le_encode (_to_int16le_from_2bytes lo hi) = (lo, hi).
Proof.
  intros Hlo Hhi.
  destruct (int16le_decode_value lo hi Hlo Hhi) as [Hdec Hrange].
  unfold byte in Hlo, Hhi.
  split; [exact Hrange | split; [exact Hdec |]].
  - rewrite Hdec. unfold int16le_encode.
    assert (Hu : (if hi <? 128 then lo + 256 * hi else lo + 256 * hi - 65536)
                 mod 65536 = lo + 256 * hi).
    { destruct (Z.ltb_spec hi 128).
      - apply Z.mod_small; lia.
      - symmetry. apply Z.mod_unique with (-1); lia. }
    rewrite Hu. f_equal.
    + symmetry. apply Z.mod_unique with hi; lia.
    + symmetry. apply Z.div_unique with lo; lia.
Qed.

Lemma int16le_encode_decode_witness :
  byte 0x34 /\ byte 0xF2
  /\ _to_int16le_from_2bytes 0x34 0xF2 = -3532
  /\ int16le_encode (-3532) = (0x34, 0xF2).
Proof.
  assert (Hlo : byte 0x34) by (unfold byte; lia).
  assert (Hhi : byte 0xF2) by (unfold byte; lia).
  destruct (int16le_encode_decode 0x34 0xF2 Hlo Hhi) as (_ & Hdec & Henc).
  split; [exact Hlo |]. split; [exact Hhi |].
  split; [exact Hdec |]. rewrite Hdec in Henc. exact Henc.
Defined.

Lemma nibble_lo_value (a b : Z) :
  byte b ->
  Z.lor (Z.land (Z.shiftl a 8) 0xF00) b = b + 256 * (a mod 16).
Proof.
  unfold byte. intros Hb. rewrite land_shiftl8_F00.
  replace (a mod 16 * 256) with (Z.shiftl (a mod 16) 8)
    by (rewrite Z.shiftl_mul_pow2 by lia; reflexivity).
  rewrite lor_shiftl_add by (change (2 ^ 8) with 256; lia).
  change (2 ^ 8) with 256. lia.
Qed.

Lemma nibble_hi_value (a b : Z) :
  byte b ->
  Z.lor (Z.shiftl a 4) (Z.shiftr b 4) = b / 16 + 16 * a.
Proof.
  unfold byte. intros Hb.
  rewrite Z.shiftr_div_pow2 by lia. change (2 ^ 4) with 16.
  assert (0 <= b / 16 < 16)
    by (split; [apply Z.div_pos; lia | apply Z.div_lt_upper_bound; lia]).
  rewrite lor_shiftl_add by (change (2 ^ 4) with 16; lia).
  change (2 ^ 4) with 16. lia.
Qed.

(** X2: the 12-bit packing read by [nibble_lo] and [nibble_hi].  Three
    byte values unpack to [b0 + 256 * (b1 mod 16)] and [b1 / 16 + 16 * b2],
    both in [0, 4095], and packing these gives the three bytes back; and
    any two values in [0, 4095] are read back from their packing. *)
Theorem nibble_unpack_pack :
  (forall b0 b1 b2,
      byte b0 -> byte b1 -> byte b2 ->
      let x := b0 + 256 * (b1 mod 16) in
      let y := b1 / 16 + 16 * b2 in
      nibble_lo [b0; b1; b2] 1 0 = Ok x
      /\ nibble_hi [b0; b1; b2] 2 1 = Ok y
      /\ 0 <= x <= 4095 /\ 0 <= y <= 4095
      /\ nibble_pack x y = [b0; b1; b2])
  /\ (forall x y,
        0 <= x <= 4095 -> 0 <= y <= 4095 ->
        Forall byte (nibble_pack x y)
        /\ nibble_lo (nibble_pack x y) 1 0 = Ok x
        /\ nibble_hi (nibble_pack x y) 2 1 = Ok y).
Proof.
  split.
  - unfold byte. intros b0 b1 b2 H0 H1 H2.
    assert (Hm : 0 <= b1 mod 16 < 16) by (apply Z.mod_pos_bound; lia).
    assert (Hq : 0 <= b1 / 16 < 16)
      by (split; [apply Z.div_pos; lia | apply Z.div_lt_upper_bound; lia]).
    split; [| split; [| split; [| split]]].
    + unfold nibble_lo.
      change (Py.getitem [b0; b1; b2] 1) with (Ok b1).
      change (Py.getitem [b0; b1; b2] 0) with (Ok b0).
      unfold mbind, outcome_bind, obind, mret, outcome_ret.
      rewrite nibble_lo_value by exact H0. reflexivity.
    + unfold nibble_hi.
      change (Py.getitem [b0; b1; b2] 2) with (Ok b2).
      change (Py.getitem [b0; b1; b2] 1) with (Ok b1).
      unfold mbind, outcome_bind, obind, mret, outcome_ret.
      rewrite nibble_hi_value by exact H1. reflexivity.
    + lia.
    + lia.
    + unfold nibble_pack.
      pose proof (Z.div_mod b1 16 ltac:(lia)) as Hb1.
      f_equal; [| f_equal; [| f_equal]].
      * symmetry. apply Z.mod_unique with (b1 mod 16); lia.
      * replace ((b0 + 256 * (b1 mod 16)) / 256) with (b1 mod 16)
          by (apply Z.div_unique with b0; lia).
        replace ((b1 / 16 + 16 * b2) mod 16) with (b1 / 16)
          by (apply Z.mod_unique with b2; lia).
        lia.
      * symmetry. apply Z.div_unique with (b1 / 16); lia.
  - intros x y Hx Hy.
    assert (Hxm : 0 <= x mod 256 < 256) by (apply Z.mod_pos_bound; lia).
    assert (Hxq : 0 <= x / 256 < 16)
      by (split; [apply Z.div_pos; lia | apply Z.div_lt_upper_bound; lia]).
    assert (Hym : 0 <= y mod 16 < 16) by (apply Z.mod_pos_bound; lia).
    assert (Hyq : 0 <= y / 16 < 256)
      by (split; [apply Z.div_pos; lia | apply Z.div_lt_upper_bound; lia]).
    split; [| split].
    + unfold nibble_pack, byte. repeat constructor; lia.
    + unfold nibble_lo, nibble_pack.
      match goal with
      | |- context [Py.getitem [?a; ?b; ?c] 1] =>
          change (Py.getitem [a; b; c] 1) with (Ok b);
          change (Py.getitem [a; b; c] 0) with (Ok a)
      end.
      unfold mbind, outcome_bind, obind, mret, outcome_ret.
      rewrite nibble_lo_value by (unfold byte; lia). f_equal.
      replace ((x / 256 + 16 * (y mod 16)) mod 16) with (x / 256)
        by (apply Z.mod_unique with (y mod 16); lia).
      pose proof (Z.div_mod x 256 ltac:(lia)). lia.
    + unfold nibble_hi, nibble_pack.
      match goal with
      | |- context [Py.getitem [?a; ?b; ?c] 1] =>
          change (Py.getitem [a; b; c] 1) with (Ok b);
          change (Py.getitem [a; b; c] 2) with (Ok c)
      end.
      unfold mbind, outcome_bind, obind, mret, outcome_ret.
      rewrite nibble_hi_value by (unfold byte; lia). f_equal.
      replace ((x / 256 + 16 * (y mod 16)) / 16) with (y mod 16)
        by (apply Z.div_unique with (x / 256); lia).
      pose proof (Z.div_mod y 16 ltac:(lia)). lia.
Qed.

Lemma nibble_unpack_pack_witness :
  nibble_pack 0x7AB 0xC35 = [0xAB; 0x57; 0xC3]
  /\ nibble_lo [0xAB; 0x57; 0xC3] 1 0 = Ok 0x7AB
  /\ nibble_hi [0xAB; 0x57; 0xC3] 2 1 = Ok 0xC35.
Proof.
  destruct nibble_unpack_pack as [_ Hpack].
  destruct (Hpack 0x7AB 0xC35 ltac:(lia) ltac:(lia)) as (_ & Hlo & Hhi).
  split; [reflexivity |]. split; [exact Hlo | exact Hhi].
Defined.

(** ** Fields of the current report *)


Lemma getitem_Forall {A} (P : A -> Prop) (l : list A) (i : Z) (a : A) :
  Forall P l -> Py.getitem l i = Ok a -> P a.
Proof.
  intros Hall. unfold Py.getitem.
  destruct ((0 <=? _) && _); [| discriminate].
  destruct (l !! _) as [x |] eqn:Hx; [| discriminate].
  intros [= <-]. rewrite Forall_lookup in Hall. eapply Hall, Hx.
Qed.

Lemma getitem_nonneg_lookup {A} (l : list A) (i : Z) (a : A) :
  0 <= i -> Py.getitem l i = Ok a -> l !! Z.to_nat i = Some a.
Proof.
  intros Hi. unfold Py.getitem.
  destruct (Z.ltb_spec i 0); [lia |].
  destruct ((0 <=? _) && _); [| discriminate].
  destruct (l !! _) as [x |]; [| discriminate]. congruence.
Qed.

Lemma getitem_out_of_range {A} (l : list A) (i : Z) :
  Z.of_nat (length l) <= i -> Py.getitem l i = Raise IndexError.
Proof.
  intros Hi. unfold Py.getitem.
  destruct (Z.ltb_spec i 0); [lia |].
  destruct (Z.leb_spec 0 i); [| lia].
  destruct (Z.ltb_spec i (Z.of_nat (length l))); [lia | reflexivity].
Qed.

(** A property checked on the 256 byte values holds of every byte. *)
Lemma byte_forall (P : Z -> bool) :
  forallb P (map Z.of_nat (seq 0 256)) = true ->
  forall b, byte b -> P b = true.
Proof.
  intros Hall b [Hlo Hhi]. rewrite forallb_forall in Hall.
  apply Hall. apply in_map_iff. exists (Z.to_nat b).
  split; [lia |]. apply in_seq. lia.
Qed.

Section Fields.

Context `{K : constants}.

(** What the extractor computes on the byte it finds. *)
Lemma get_nbit_value (self : JoyCon) (offset_byte offset_bit nbit b : Z) :
  Py.getitem (_input_report self) offset_byte = Ok b ->
  0 <= offset_bit -> 0 <= nbit ->
  _get_nbit_from_input_report self offset_byte offset_bit nbit
  = Ok ((b / 2 ^ offset_bit) mod 2 ^ nbit).
Proof.
  intros Hb Hk Hn. unfold _get_nbit_from_input_report, Py.rshift, Py.lshift.
  rewrite Hb. cbn.
  destruct (Z.ltb_spec offset_bit 0); [lia |].
  destruct (Z.ltb_spec nbit 0); [lia |]. cbn. f_equal.
  change (Z.shiftl 1 nbit - 1) with (Z.ones nbit).
  rewrite Z.land_ones, Z.shiftr_div_pow2 by lia. reflexivity.
Qed.

Lemma stick_pre_cal_low (self : JoyCon) (i j a b : Z) :
  Py.getitem (_input_report self) i = Ok a ->
  Py.getitem (_input_report self) j = Ok b ->
  byte a -> byte b ->
  stick_pre_cal self i 0 8 j 0 4 8 = Ok (a + 256 * (b mod 16))
  /\ nibble_lo (_input_report self) j i = Ok (a + 256 * (b mod 16)).
Proof.
  unfold byte. intros Ha Hb Hra Hrb. unfold stick_pre_cal, nibble_lo.
  rewrite (get_nbit_value _ _ _ _ _ Ha), (get_nbit_value _ _ _ _ _ Hb) by lia.
  rewrite Ha, Hb. cbn -[Z.lor Z.land Z.shiftl Z.shiftr Z.div Z.modulo Z.pow].
  change (2 ^ 0) with 1. change (2 ^ 8) with 256. change (2 ^ 4) with 16.
  rewrite !Z.div_1_r, (Z.mod_small a 256) by lia.
  assert (0 <= b mod 16 < 16) by (apply Z.mod_pos_bound; lia).
  split; f_equal.
  - rewrite Z.lor_comm, lor_shiftl_add by (change (2 ^ 8) with 256; lia).
    change (2 ^ 8) with 256. lia.
  - apply nibble_lo_value. unfold byte; lia.
Qed.

Lemma stick_pre_cal_high (self : JoyCon) (i j a b : Z) :
  Py.getitem (_input_report self) i = Ok a ->
  Py.getitem (_input_report self) j = Ok b ->
  byte a -> byte b ->
  stick_pre_cal self i 4 4 j 0 8 4 = Ok (a / 16 + 16 * b)
  /\ nibble_hi (_input_report self) j i = Ok (a / 16 + 16 * b).
Proof.
  unfold byte. intros Ha Hb Hra Hrb. unfold stick_pre_cal, nibble_hi.
  rewrite (get_nbit_value _ _ _ _ _ Ha), (get_nbit_value _ _ _ _ _ Hb) by lia.
  rewrite Ha, Hb. cbn -[Z.lor Z.land Z.shiftl Z.shiftr Z.div Z.modulo Z.pow].
  change (2 ^ 0) with 1. change (2 ^ 8) with 256. change (2 ^ 4) with 16.
  rewrite !Z.div_1_r, (Z.mod_small b 256) by lia.
  assert (0 <= a / 16 < 16)
    by (split; [apply Z.div_pos; lia | apply Z.div_lt_upper_bound; lia]).
  rewrite (Z.mod_small (a / 16) 16) by lia.
  split; f_equal.
  - rewrite Z.lor_comm, lor_shiftl_add by (change (2 ^ 4) with 16; lia).
    change (2 ^ 4) with 16. lia.
  - apply nibble_hi_value. unfold byte; lia.
Qed.

(** X3: the stick accessors.  The two accessors of the other side's stick
    return the integer 0 whatever the report holds: the left ones on every
    controller that is not a left one, the right ones on a left one.  On a
    49-byte report of byte values the accessors of the controller's own
    stick hand [get_actual_stick_value] the 12-bit values packed in bytes
    6-8 (left) or 9-11 (non-left), read with the same packing as the
    calibration block. *)
Theorem stick_getters (self : JoyCon) :
  (is_left self = false ->
   get_stick_left_horizontal self = Ok (Int 0)
   /\ get_stick_left_vertical self = Ok (Int 0))
  /\ (is_left self = true ->
      get_stick_right_horizontal self = Ok (Int 0)
      /\ get_stick_right_vertical self = Ok (Int 0))
  /\ (length (_input_report self) = 49%nat ->
      Forall byte (_input_report self) ->
      let report := _input_report self in
      exists lx ly rx ry,
        nibble_lo report 7 6 = Ok lx /\ nibble_hi report 8 7 = Ok ly
        /\ nibble_lo report 10 9 = Ok rx /\ nibble_hi report 11 10 = Ok ry
        /\ 0 <= lx <= 4095 /\ 0 <= ly <= 4095
        /\ 0 <= rx <= 4095 /\ 0 <= ry <= 4095
        /\ (is_left self = true ->
            get_stick_left_horizontal self = get_actual_stick_value self lx 0
            /\ get_stick_left_vertical self = get_actual_stick_value self ly 1)
        /\ (is_left self = false ->
            get_stick_right_horizontal self = get_actual_stick_value self rx 0
            /\ get_stick_right_vertical self = get_actual_stick_value self ry 1)).
Proof.
  split; [| split].
  - intros Hl. unfold get_stick_left_horizontal, get_stick_left_vertical.
    rewrite Hl. split; reflexivity.
  - intros Hl. unfold get_stick_right_horizontal, get_stick_right_vertical.
    rewrite Hl. split; reflexivity.
  - intros Hlen Hbytes report. subst report.
    assert (Hget : forall i, 0 <= i < 49 ->
              exists b, Py.getitem (_input_report self) i = Ok b /\ byte b).
    { intros i Hi.
      destruct (getitem_in_range (_input_report self) i) as [b Hb];
        [rewrite Hlen; lia |].
      exists b. split; [exact Hb | exact (getitem_Forall _ _ _ _ Hbytes Hb)]. }
    destruct (Hget 6 ltac:(lia)) as (b6 & H6 & R6).
    destruct (Hget 7 ltac:(lia)) as (b7 & H7 & R7).
    destruct (Hget 8 ltac:(lia)) as (b8 & H8 & R8).
    destruct (Hget 9 ltac:(lia)) as (b9 & H9 & R9).
    destruct (Hget 10 ltac:(lia)) as (b10 & H10 & R10).
    destruct (Hget 11 ltac:(lia)) as (b11 & H11 & R11).
    destruct (stick_pre_cal_low self 6 7 b6 b7 H6 H7 R6 R7) as [Plx Nlx].
    destruct (stick_pre_cal_high self 7 8 b7 b8 H7 H8 R7 R8) as [Ply Nly].
    destruct (stick_pre_cal_low self 9 10 b9 b10 H9 H10 R9 R10) as [Prx Nrx].
    destruct (stick_pre_cal_high self 10 11 b10 b11 H10 H11 R10 R11) as [Pry Nry].
    exists (b6 + 256 * (b7 mod 16)), (b7 / 16 + 16 * b8),
           (b9 + 256 * (b10 mod 16)), (b10 / 16 + 16 * b11).
    unfold byte in *.
    assert (0 <= b7 mod 16 < 16) by (apply Z.mod_pos_bound; lia).
    assert (0 <= b10 mod 16 < 16) by (apply Z.mod_pos_bound; lia).
    assert (0 <= b7 / 16 < 16)
      by (split; [apply Z.div_pos; lia | apply Z.div_lt_upper_bound; lia]).
    assert (0 <= b10 / 16 < 16)
      by (split; [apply Z.div_pos; lia | apply Z.div_lt_upper_bound; lia]).
    repeat (split; [first [assumption | lia] |]).
    split.
    + intros Hl. unfold get_stick_left_horizontal, get_stick_left_vertical.
      rewrite Hl, Plx, Ply. split; reflexivity.
    + intros Hl. unfold get_stick_right_horizontal, get_stick_right_vertical.
      rewrite Hl, Prx, Pry. split; reflexivity.
Qed.

End Fields.

Lemma stick_getters_witness :
  let self := loaded 0x2006 busy_report in
  get_stick_left_horizontal (K := spec_constants) self = Ok (Int 0)
  /\ get_stick_left_vertical (K := spec_constants) self
     = Ok (Float (Float64.round (1025 # 1100)))
  /\ get_stick_right_horizontal (K := spec_constants) self = Ok (Int 0)
  /\ get_stick_right_horizontal (K := spec_constants) (loaded 0x2007 busy_report)
     = Ok (Float (Float64.round (-1709 # 900))).
Proof.
  cbv zeta.
  destruct (stick_getters (K := spec_constants) (loaded 0x2006 busy_report))
    as (_ & Hoff & Hown).
  destruct (stick_getters (K := spec_constants) (loaded 0x2007 busy_report))
    as (_ & _ & Hown').
  destruct (Hoff eq_refl) as [Hrh _].
  destruct Hown as (lx & ly & rx & ry & Hlx & Hly & _ & _ & _ & _ & _ & _ & Hl & _);
    [reflexivity | vm_compute; repeat constructor; discriminate |].
  destruct Hown' as (lx' & ly' & rx' & ry' & _ & _ & Hrx & _ & _ & _ & _ & _ & _ & Hr);
    [reflexivity | vm_compute; repeat constructor; discriminate |].
  destruct (Hl eq_refl) as [Hlh Hlv]. destruct (Hr eq_refl) as [Hrh' _].
  vm_compute in Hlx, Hly, Hrx.
  injection Hlx as <-. injection Hly as <-. injection Hrx as <-.
  split; [rewrite Hlh; vm_compute; reflexivity |].
  split; [rewrite Hlv; vm_compute; reflexivity |].
  split; [exact Hrh |].
  rewrite Hrh'. vm_compute. reflexivity.
Defined.

(** ** Accelerometer accessors *)

Section Samples.

Context `{K : constants}.

Lemma accel_raw_len (self : JoyCon) (input_report : option (list Z))
    (sample_idx first : Z) :
  sample_idx = 0 \/ sample_idx = 1 \/ sample_idx = 2 ->
  0 <= first ->
  let len := Z.of_nat (length (report_or_current self input_report)) in
  (first + 1 + 12 * sample_idx < len ->
   exists lo hi,
     Py.getitem (report_or_current self input_report) (first + 12 * sample_idx) = Ok lo
     /\ Py.getitem (report_or_current self input_report)
          (first + 1 + 12 * sample_idx) = Ok hi
     /\ accel_raw self input_report sample_idx first
        = Ok (_to_int16le_from_2bytes lo hi))
  /\ (len <= first + 1 + 12 * sample_idx ->
      accel_raw self input_report sample_idx first = Raise IndexError).
Proof.
  intros Hk Hf len. unfold accel_raw.
  replace (bad_sample_idx sample_idx) with false
    by (destruct Hk as [-> | [-> | ->]]; reflexivity).
  replace (sample_idx * 12) with (12 * sample_idx) by lia.
  split.
  - intros Hlen.
    destruct (getitem_in_range (report_or_current self input_report)
                (first + 12 * sample_idx)) as [lo Hlo]; [lia |].
    destruct (getitem_in_range (report_or_current self input_report)
                (first + 1 + 12 * sample_idx)) as [hi Hhi]; [lia |].
    exists lo, hi. rewrite Hlo, Hhi. auto.
  - intros Hlen.
    rewrite (getitem_out_of_range _ (first + 1 + 12 * sample_idx)) by lia.
    destruct (Py.getitem _ (first + 12 * sample_idx)) as [lo | e |] eqn:Hlo;
      try reflexivity.
    + unfold Py.getitem in Hlo.
      destruct (Z.ltb_spec (first + 12 * sample_idx) 0); [lia |].
      destruct ((0 <=? _) && _); [| injection Hlo as <-; reflexivity].
      destruct (_ !! _); [discriminate | injection Hlo as <-; reflexivity].
    + unfold Py.getitem in Hlo.
      destruct ((0 <=? _) && _); [| discriminate].
      destruct (_ !! _); discriminate.
Qed.

Lemma accel_default_report (self : JoyCon) (sample_idx : Z) :
  get_accel_x self None sample_idx
  = get_accel_x self (Some (_input_report self)) sample_idx
  /\ get_accel_x self (Some []) sample_idx
     = get_accel_x self (Some (_input_report self)) sample_idx
  /\ get_accel_y self None sample_idx
     = get_accel_y self (Some (_input_report self)) sample_idx
  /\ get_accel_y self (Some []) sample_idx
     = get_accel_y self (Some (_input_report self)) sample_idx
  /\ get_accel_z self None sample_idx
     = get_accel_z self (Some (_input_report self)) sample_idx
  /\ get_accel_z self (Some []) sample_idx
     = get_accel_z self (Some (_input_report self)) sample_idx.
Proof.
  assert (Hcur : report_or_current self (Some (_input_report self))
                 = _input_report self)
    by (unfold report_or_current; destruct (_input_report self); reflexivity).
  assert (Hraw : forall first,
            accel_raw self None sample_idx first
            = accel_raw self (Some (_input_report self)) sample_idx first
            /\ accel_raw self (Some []) sample_idx first
               = accel_raw self (Some (_input_report self)) sample_idx first).
  { intros first. unfold accel_raw. rewrite Hcur. split; reflexivity. }
  unfold get_accel_x, get_accel_y, get_accel_z.
  destruct (Hraw 13) as [-> ->]. destruct (Hraw 15) as [-> ->].
  destruct (Hraw 17) as [-> ->]. repeat split; reflexivity.
Qed.

(** X4: [get_accel_x] returns the raw 16-bit value at bytes
    [13 + 12k, 14 + 12k] times [_ACCEL_COEFF_X], with no sign flip on any
    controller; a sample index outside {0, 1, 2} raises [IndexError] even
    when the report is too short to hold a sample; and for each of the
    three accessors an argument that is [None] or the empty [bytes] is
    replaced by the current report. *)
Theorem accel_x_and_default_report (self : JoyCon) (sample_idx : Z) :
  (forall input_report,
      length (report_or_current self input_report) = 49%nat ->
      sample_idx = 0 \/ sample_idx = 1 \/ sample_idx = 2 ->
      exists lo hi,
        Py.getitem (report_or_current self input_report) (13 + 12 * sample_idx) = Ok lo
        /\ Py.getitem (report_or_current self input_report) (14 + 12 * sample_idx) = Ok hi
        /\ get_accel_x self input_report sample_idx
           = Ok (inject_Z (_to_int16le_from_2bytes lo hi) * _ACCEL_COEFF_X self)%Q)
  /\ (forall input_report,
        ~ (sample_idx = 0 \/ sample_idx = 1 \/ sample_idx = 2) ->
        get_accel_x self input_report sample_idx = Raise IndexError)
  /\ (get_accel_x self None sample_idx
      = get_accel_x self (Some (_input_report self)) sample_idx
      /\ get_accel_x self (Some []) sample_idx
         = get_accel_x self (Some (_input_report self)) sample_idx
      /\ get_accel_y self None sample_idx
         = get_accel_y self (Some (_input_report self)) sample_idx
      /\ get_accel_y self (Some []) sample_idx
         = get_accel_y self (Some (_input_report self)) sample_idx
      /\ get_accel_z self None sample_idx
         = get_accel_z self (Some (_input_report self)) sample_idx
      /\ get_accel_z self (Some []) sample_idx
         = get_accel_z self (Some (_input_report self)) sample_idx).
Proof.
  split; [| split].
  - intros input_report Hlen Hk.
    destruct (accel_raw_len self input_report sample_idx 13 Hk ltac:(lia))
      as [Hok _].
    destruct Hok as (lo & hi & Hlo & Hhi & Hraw); [rewrite Hlen; lia |].
    exists lo, hi.
    replace (14 + 12 * sample_idx) with (13 + 1 + 12 * sample_idx) by lia.
    unfold get_accel_x. rewrite Hraw. auto.
  - intros input_report Hk. unfold get_accel_x.
    rewrite accel_raw_bad_idx by assumption. reflexivity.
  - apply accel_default_report.
Qed.

Lemma get_accel_x_len (self : JoyCon) (k : Z) :
  k = 0 \/ k = 1 \/ k = 2 ->
  let len := Z.of_nat (length (_input_report self)) in
  (14 + 12 * k < len ->
   exists q, get_accel_x self (Some (_input_report self)) k = Ok q)
  /\ (len <= 14 + 12 * k ->
      get_accel_x self (Some (_input_report self)) k = Raise IndexError).
Proof.
  intros Hk.
  assert (Hcur : report_or_current self (Some (_input_report self))
                 = _input_report self)
    by (unfold report_or_current; destruct (_input_report self); reflexivity).
  pose proof (accel_raw_len self (Some (_input_report self)) k 13 Hk ltac:(lia))
    as [Hok Hbad].
  rewrite Hcur in Hok, Hbad. unfold get_accel_x. split.
  - intros Hlen. destruct Hok as (lo & hi & _ & _ & ->); [lia |]. eexists. reflexivity.
  - intros Hlen. rewrite Hbad by lia. reflexivity.
Qed.

Lemma get_accel_y_len (self : JoyCon) (k : Z) :
  k = 0 \/ k = 1 \/ k = 2 ->
  let len := Z.of_nat (length (_input_report self)) in
  (16 + 12 * k < len ->
   exists q, get_accel_y self (Some (_input_report self)) k = Ok q)
  /\ (len <= 16 + 12 * k ->
      get_accel_y self (Some (_input_report self)) k = Raise IndexError).
Proof.
  intros Hk.
  assert (Hcur : report_or_current self (Some (_input_report self))
                 = _input_report self)
    by (unfold report_or_current; destruct (_input_report self); reflexivity).
  pose proof (accel_raw_len self (Some (_input_report self)) k 15 Hk ltac:(lia))
    as [Hok Hbad].
  rewrite Hcur in Hok, Hbad. unfold get_accel_y. split.
  - intros Hlen. destruct Hok as (lo & hi & _ & _ & ->); [lia |]. eexists. reflexivity.
  - intros Hlen. rewrite Hbad by lia. reflexivity.
Qed.

Lemma get_accel_z_len (self : JoyCon) (k : Z) :
  k = 0 \/ k = 1 \/ k = 2 ->
  let len := Z.of_nat (length (_input_report self)) in
  (18 + 12 * k < len ->
   exists q, get_accel_z self (Some (_input_report self)) k = Ok q)
  /\ (len <= 18 + 12 * k ->
      get_accel_z self (Some (_input_report self)) k = Raise IndexError).
Proof.
  intros Hk.
  assert (Hcur : report_or_current self (Some (_input_report self))
                 = _input_report self)
    by (unfold report_or_current; destruct (_input_report self); reflexivity).
  pose proof (accel_raw_len self (Some (_input_report self)) k 17 Hk ltac:(lia))
    as [Hok Hbad].
  rewrite Hcur in Hok, Hbad. unfold get_accel_z. split.
  - intros Hlen. destruct Hok as (lo & hi & _ & _ & ->); [lia |]. eexists. reflexivity.
  - intros Hlen. rewrite Hbad by lia. reflexivity.
Qed.

(** One accessor call of [get_accels]: it returns when the report is long
    enough for it, and otherwise the whole of [get_accels] raises. *)
Ltac accel_step self lemma k bound :=
  let H := fresh "Hlen" in
  let q := fresh "q" in
  let E := fresh "E" in
  destruct (Z.lt_ge_cases bound (Z.of_nat (length (_input_report self)))) as [H | H];
  [ destruct (proj1 (lemma self k ltac:(auto)) H) as [q E]; rewrite E
  | rewrite (proj2 (lemma self k ltac:(auto)) H) ].

Lemma get_accels_long (self : JoyCon) :
  (43 <= length (_input_report self))%nat ->
  exists x0 y0 z0 x1 y1 z1 x2 y2 z2,
    get_accels self = Ok [(x0, y0, z0); (x1, y1, z1); (x2, y2, z2)]
    /\ get_accel_x self None 0 = Ok x0 /\ get_accel_y self None 0 = Ok y0
    /\ get_accel_z self None 0 = Ok z0
    /\ get_accel_x self None 1 = Ok x1 /\ get_accel_y self None 1 = Ok y1
    /\ get_accel_z self None 1 = Ok z1
    /\ get_accel_x self None 2 = Ok x2 /\ get_accel_y self None 2 = Ok y2
    /\ get_accel_z self None 2 = Ok z2.
Proof.
  intros Hlen.
  assert (Hdef : forall k,
    get_accel_x self None k = get_accel_x self (Some (_input_report self)) k
    /\ get_accel_y self None k = get_accel_y self (Some (_input_report self)) k
    /\ get_accel_z self None k = get_accel_z self (Some (_input_report self)) k).
  { intros k. pose proof (accel_default_report self k) as H. tauto. }
  destruct (Hdef 0) as (-> & -> & ->). destruct (Hdef 1) as (-> & -> & ->).
  destruct (Hdef 2) as (-> & -> & ->).
  unfold get_accels. cbn [mapM].
  unfold mbind, outcome_bind, mret, outcome_ret.
  accel_step self get_accel_x_len 0 14; [| lia].
  accel_step self get_accel_y_len 0 16; [| lia].
  accel_step self get_accel_z_len 0 18; [| lia].
  accel_step self get_accel_x_len 1 26; [| lia].
  accel_step self get_accel_y_len 1 28; [| lia].
  accel_step self get_accel_z_len 1 30; [| lia].
  accel_step self get_accel_x_len 2 38; [| lia].
  accel_step self get_accel_y_len 2 40; [| lia].
  accel_step self get_accel_z_len 2 42; [| lia].
  cbn [obind]. eauto 20.
Qed.

(** X5: [get_accels] returns exactly when the current report has at least
    43 bytes, and then it returns the three samples, in order, each made of
    what [get_accel_x], [get_accel_y] and [get_accel_z] return for it; on a
    shorter report, the empty one included, it raises [IndexError]. *)
Theorem get_accels_bounds (self : JoyCon) :
  (43 <= length (_input_report self) ->
   exists x0 y0 z0 x1 y1 z1 x2 y2 z2,
     get_accels self = Ok [(x0, y0, z0); (x1, y1, z1); (x2, y2, z2)]
     /\ get_accel_x self None 0 = Ok x0 /\ get_accel_y self None 0 = Ok y0
     /\ get_accel_z self None 0 = Ok z0
     /\ get_accel_x self None 1 = Ok x1 /\ get_accel_y self None 1 = Ok y1
     /\ get_accel_z self None 1 = Ok z1
     /\ get_accel_x self None 2 = Ok x2 /\ get_accel_y self None 2 = Ok y2
     /\ get_accel_z self None 2 = Ok z2)%nat
  /\ (length (_input_report self) < 43 ->
      get_accels self = Raise IndexError)%nat.
Proof.
  split.
  - apply get_accels_long.
  - intros Hlen. unfold get_accels. cbn [mapM].
    unfold mbind, outcome_bind, mret, outcome_ret.
    accel_step self get_accel_x_len 0 14; [| reflexivity].
    accel_step self get_accel_y_len 0 16; [| reflexivity].
    accel_step self get_accel_z_len 0 18; [| reflexivity].
    accel_step self get_accel_x_len 1 26; [| reflexivity].
    accel_step self get_accel_y_len 1 28; [| reflexivity].
    accel_step self get_accel_z_len 1 30; [| reflexivity].
    accel_step self get_accel_x_len 2 38; [| reflexivity].
    accel_step self get_accel_y_len 2 40; [| reflexivity].
    accel_step self get_accel_z_len 2 42; [| reflexivity].
    lia.
Qed.

End Samples.

(** ** Normalised stick values *)

Section Normalised.

Context `{K : constants}.



End Normalised.


(** ** The status snapshot *)

Lemma byte_bits_sum (b : Z) :
  byte b ->
  (b / 2 ^ 0) mod 2 ^ 1 + 2 * ((b / 2 ^ 1) mod 2 ^ 1)
  + 4 * ((b / 2 ^ 2) mod 2 ^ 1) + 8 * ((b / 2 ^ 3) mod 2 ^ 1)
  + 16 * ((b / 2 ^ 4) mod 2 ^ 1) + 32 * ((b / 2 ^ 5) mod 2 ^ 1)
  + 64 * ((b / 2 ^ 6) mod 2 ^ 1) + 128 * ((b / 2 ^ 7) mod 2 ^ 1) = b.
Proof.
  intros Hb. apply Z.eqb_eq. revert b Hb.
  apply (byte_forall (fun b =>
    (b / 2 ^ 0) mod 2 ^ 1 + 2 * ((b / 2 ^ 1) mod 2 ^ 1)
    + 4 * ((b / 2 ^ 2) mod 2 ^ 1) + 8 * ((b / 2 ^ 3) mod 2 ^ 1)
    + 16 * ((b / 2 ^ 4) mod 2 ^ 1) + 32 * ((b / 2 ^ 5) mod 2 ^ 1)
    + 64 * ((b / 2 ^ 6) mod 2 ^ 1) + 128 * ((b / 2 ^ 7) mod 2 ^ 1) =? b)).
  vm_compute. reflexivity.
Qed.

Lemma byte_battery_sum (b : Z) :
  byte b ->
  16 * ((b / 2 ^ 4) mod 2 ^ 1) + 32 * ((b / 2 ^ 5) mod 2 ^ 3) = b - b mod 16.
Proof.
  intros Hb. apply Z.eqb_eq. revert b Hb.
  apply (byte_forall (fun b =>
    16 * ((b / 2 ^ 4) mod 2 ^ 1) + 32 * ((b / 2 ^ 5) mod 2 ^ 3) =? b - b mod 16)).
  vm_compute. reflexivity.
Qed.

Section Status.

Context `{K : constants}.

(** Rewrites every call of the extractor in the goal with the value
    [get_nbit_value] gives for the byte found at its offset. *)
Ltac extractor_values :=
  repeat match goal with
    | Hb : Py.getitem (_input_report ?self) ?i = Ok ?b
      |- context [_get_nbit_from_input_report ?self ?i ?k ?n] =>
        rewrite (get_nbit_value self i k n b Hb ltac:(lia) ltac:(lia))
    end.

(** X7: on a 49-byte report the snapshot of [get_status] holds the bits
    of bytes 2 to 5 without loss or overlap: the eight right-side fields
    weighted by 1, 2, ..., 128 add up to byte 3, the eight left-side
    fields to byte 5, the seven shared fields to byte 4 without its bit 6
    (which no field reads), and 16 times the charging flag plus 32 times
    the level to byte 2 without its low nibble. *)
Theorem status_fields_recompose (self : JoyCon) (st : status) (b2 b3 b4 b5 : Z) :
  get_status self = Ok st ->
  Py.getitem (_input_report self) 2 = Ok b2 ->
  Py.getitem (_input_report self) 3 = Ok b3 ->
  Py.getitem (_input_report self) 4 = Ok b4 ->
  Py.getitem (_input_report self) 5 = Ok b5 ->
  byte b2 -> byte b3 -> byte b4 -> byte b5 ->
  let r := buttons_right (buttons st) in
  let s := buttons_shared (buttons st) in
  let l := buttons_left (buttons st) in
  right_y r + 2 * right_x r + 4 * right_b r + 8 * right_a r
  + 16 * right_sr r + 32 * right_sl r + 64 * right_r r + 128 * right_zr r = b3
  /\ left_down l + 2 * left_up l + 4 * left_right l + 8 * left_left l
     + 16 * left_sr l + 32 * left_sl l + 64 * left_l l + 128 * left_zl l = b5
  /\ shared_minus s + 2 * shared_plus s + 4 * shared_r_stick s
     + 8 * shared_l_stick s + 16 * shared_home s + 32 * shared_capture s
     + 128 * shared_charging_grip s = b4 - 64 * ((b4 / 64) mod 2)
  /\ 16 * battery_charging (battery st) + 32 * battery_level (battery st)
     = b2 - b2 mod 16.
Proof.
  intros Hst H2 H3 H4 H5 R2 R3 R4 R5.
  revert Hst. unfold get_status.
  unfold get_battery_charging, get_battery_level,
    get_button_y, get_button_x, get_button_b, get_button_a,
    get_button_right_sr, get_button_right_sl, get_button_r, get_button_zr,
    get_button_minus, get_button_plus, get_button_r_stick, get_button_l_stick,
    get_button_home, get_button_capture, get_button_charging_grip,
    get_button_down, get_button_up, get_button_right, get_button_left,
    get_button_left_sr, get_button_left_sl, get_button_l, get_button_zl.
  extractor_values.
  unfold mbind, outcome_bind, mret, outcome_ret. cbn [obind].
  destruct (get_stick_left_horizontal self); cbn [obind]; try discriminate.
  destruct (get_stick_left_vertical self); cbn [obind]; try discriminate.
  destruct (get_stick_right_horizontal self); cbn [obind]; try discriminate.
  destruct (get_stick_right_vertical self); cbn [obind]; try discriminate.
  destruct (get_accels self); cbn [obind]; try discriminate.
  intros [= <-].
  cbn [buttons buttons_right buttons_shared buttons_left battery
       right_y right_x right_b right_a right_sr right_sl right_r right_zr
       left_down left_up left_right left_left left_sr left_sl left_l left_zl
       shared_minus shared_plus shared_r_stick shared_l_stick shared_home
       shared_capture shared_charging_grip battery_charging battery_level].
  split; [apply byte_bits_sum, R3 |].
  split; [apply byte_bits_sum, R5 |].
  split; [| apply byte_battery_sum, R2].
  pose proof (byte_bits_sum b4 R4) as Hsum.
  change (2 ^ 6) with 64 in Hsum. change (2 ^ 1) with 2 in Hsum |- *.
  lia.
Qed.


End Status.

(** The first sample of [busy_report] is (256, 1, -2) and the default
    coefficients are 4. *)
Lemma accel_x_and_default_report_witness :
  get_accel_x (loaded 0x2007 busy_report) (Some busy_report) 0 = Ok 1024%Q
  /\ get_accel_x (loaded 0x2006 busy_report) (Some busy_report) 0 = Ok 1024%Q
  /\ get_accel_x (loaded 0x2007 busy_report) (Some []) 0 = Ok 1024%Q
  /\ get_accel_x (loaded 0x2007 []) (Some busy_report) 5 = Raise IndexError
  /\ get_accel_x (loaded 0x2007 []) None 5 = Raise IndexError.
Proof.
  destruct (accel_x_and_default_report (K := spec_constants) (loaded 0x2007 busy_report) 0)
    as (Hval & _ & _ & Hempty & _).
  destruct (accel_x_and_default_report (K := spec_constants) (loaded 0x2006 busy_report) 0)
    as (Hval' & _ & _).
  destruct (accel_x_and_default_report (K := spec_constants) (loaded 0x2007 []) 5) as (_ & Hbad & _).
  destruct (Hval (Some busy_report) eq_refl (or_introl eq_refl))
    as (lo & hi & Hlo & Hhi & Hx).
  destruct (Hval' (Some busy_report) eq_refl (or_introl eq_refl))
    as (lo' & hi' & Hlo' & Hhi' & Hx').
  vm_compute in Hlo, Hhi, Hlo', Hhi'.
  injection Hlo as <-. injection Hhi as <-.
  injection Hlo' as <-. injection Hhi' as <-.
  split; [rewrite Hx; reflexivity |].
  split; [rewrite Hx'; reflexivity |].
  split; [rewrite Hempty; vm_compute; reflexivity |].
  split; apply Hbad; intros [H | [H | H]]; discriminate H.
Defined.

Lemma get_accels_bounds_witness :
  get_accels (K := spec_constants) (loaded 0x2007 busy_report)
  = Ok [(1024, -(4), 8); (0, 0, 0); (0, 0, 0)]%Q
  /\ get_accels (K := spec_constants) (loaded 0x2007 (take 42 busy_report))
     = Raise IndexError
  /\ get_accels (K := spec_constants) (loaded 0x2007 []) = Raise IndexError.
Proof.
  destruct (get_accels_bounds (K := spec_constants) (loaded 0x2007 busy_report))
    as [Hlong _].
  destruct (get_accels_bounds (K := spec_constants)
              (loaded 0x2007 (take 42 busy_report))) as [_ Hshort].
  destruct (get_accels_bounds (K := spec_constants) (loaded 0x2007 []))
    as [_ Hempty].
  destruct Hlong
    as (x0 & y0 & z0 & x1 & y1 & z1 & x2 & y2 & z2 & Hall
        & Hx0 & Hy0 & Hz0 & Hx1 & Hy1 & Hz1 & Hx2 & Hy2 & Hz2);
    [vm_compute; lia |].
  vm_compute in Hx0, Hy0, Hz0, Hx1, Hy1, Hz1, Hx2, Hy2, Hz2.
  injection Hx0 as <-. injection Hy0 as <-. injection Hz0 as <-.
  injection Hx1 as <-. injection Hy1 as <-. injection Hz1 as <-.
  injection Hx2 as <-. injection Hy2 as <-. injection Hz2 as <-.
  split; [exact Hall |].
  split; [apply Hshort; vm_compute; lia | apply Hempty; vm_compute; lia].
Defined.

(** In [busy_report] byte 2 is 0x90, byte 3 is 0x81, byte 4 is 0x01 and
    byte 5 is 0x08. *)
Lemma status_fields_recompose_witness :
  exists st,
    get_status (K := spec_constants) (loaded 0x2006 busy_report) = Ok st
    /\ right_y (buttons_right (buttons st)) = 1
    /\ right_zr (buttons_right (buttons st)) = 1
    /\ left_left (buttons_left (buttons st)) = 1
    /\ battery_level (battery st) = 4
    /\ 16 * battery_charging (battery st) + 32 * battery_level (battery st) = 0x90.
Proof.
  eassert (Hst : get_status (K := spec_constants) (loaded 0x2006 busy_report) = Ok _)
    by (vm_compute; reflexivity).
  eexists. split; [exact Hst |].
  pose proof (status_fields_recompose (K := spec_constants) _ _ 0x90 0x81 0x01 0x08
                Hst eq_refl eq_refl eq_refl eq_refl
                ltac:(unfold byte; lia) ltac:(unfold byte; lia)
                ltac:(unfold byte; lia) ltac:(unfold byte; lia))
    as (_ & _ & _ & Hbattery).
  repeat (split; [reflexivity |]). exact Hbattery.
Defined.


(** ** Calibration updates that fail *)



Section ShortBlock.

Context `{K : constants}.


End ShortBlock.


(** ** Frames and the packet counter *)

Lemma land_0xF (z : Z) : Z.land z 0xF = z mod 16.
Proof. change 0xF with (Z.ones 4). rewrite Z.land_ones by lia. reflexivity. Qed.

Lemma sent_refl (self : JoyCon) (d : hid_device) :
  _joycon_device self = Some d ->
  0 <= _packet_number self <= 15 ->
  sent 0 [] self self.
Proof.
  intros Hd Hpn. exists d. split; [exact Hd |]. split.
  - rewrite Hd, app_nil_r. destruct d; reflexivity.
  - cbn. rewrite Z.add_0_r, Z.mod_small by lia. reflexivity.
Qed.

Lemma sent_trans (k1 k2 : nat) (f1 f2 : list (list Z)) (a b c : JoyCon) :
  sent k1 f1 a b -> sent k2 f2 b c -> sent (k2 + k1) (f1 ++ f2) a c.
Proof.
  intros (d & Hd & Hb & Hpb) (d' & Hd' & Hc & Hpc).
  rewrite Hb in Hd'. injection Hd' as <-.
  exists d. split; [exact Hd |]. split.
  - rewrite Hc. cbn. rewrite <- app_assoc. do 2 f_equal. lia.
  - rewrite Hpc, Hpb, length_app, Nat2Z.inj_add.
    rewrite Z.add_mod_idemp_l by lia. f_equal. lia.
Qed.

Lemma same_but_handle_refl (self : JoyCon) : same_but_handle self self.
Proof. unfold same_but_handle. destruct self; reflexivity. Qed.

Lemma same_but_handle_trans (a b c : JoyCon) :
  same_but_handle a b -> same_but_handle b c -> same_but_handle a c.
Proof.
  unfold same_but_handle. intros Hab Hbc. rewrite Hbc at 1. rewrite Hab at 1.
  reflexivity.
Qed.

Lemma same_but_handle_set (dv : option hid_device) (pn : Z) (self : JoyCon) :
  same_but_handle self (set_joycon_device dv (set_packet_number pn self)).
Proof. reflexivity. Qed.

Lemma same_but_handle_set_device (dv : option hid_device) (self : JoyCon) :
  same_but_handle self (set_joycon_device dv self).
Proof. unfold same_but_handle. destruct self; reflexivity. Qed.

Section Counter.

Context `{K : constants}.

Lemma write_output_report_sent (command subcommand argument : list Z)
    (self : JoyCon) (d : hid_device) :
  _joycon_device self = Some d ->
  0 <= _packet_number self < 256 ->
  exists self',
    _write_output_report command subcommand argument self = (Ok tt, self')
    /\ sent 0 [command ++ [_packet_number self] ++ _RUMBLE_DATA
               ++ subcommand ++ argument] self self'
    /\ same_but_handle self self'.
Proof.
  intros Hd Hpn. eexists.
  split; [apply (write_output_report_ok _ _ _ _ _ Hd Hpn) |].
  split; [| apply same_but_handle_set].
  exists d. split; [exact Hd |]. split; [reflexivity |].
  cbn. rewrite land_0xF. reflexivity.
Qed.

(** X11: the packet counter.  With a handle and a counter in [0, 15],
    [n] calls of [_write_output_report] write [n] frames, each made of the
    command, the counter byte, the 8 rumble bytes, the subcommand and the
    argument; the [i]-th frame carries the counter [(start + i) mod 16],
    so the numbering wraps after 15, and the counter ends at
    [(start + n) mod 16].  Nothing is read and no other attribute changes.
    Without a handle the method does nothing. *)
Theorem packet_counter_wraps (command subcommand argument : list Z)
    (self : JoyCon) (n : nat) :
  let write := fun s => snd (_write_output_report command subcommand argument s) in
  (forall d,
      _joycon_device self = Some d ->
      0 <= _packet_number self <= 15 ->
      sent 0
        (map (fun i => command ++ [(_packet_number self + Z.of_nat i) mod 16]
                         ++ _RUMBLE_DATA ++ subcommand ++ argument)
             (seq 0 n))
        self (Nat.iter n write self)
      /\ same_but_handle self (Nat.iter n write self)
      /\ 0 <= _packet_number (Nat.iter n write self) <= 15)
  /\ (_joycon_device self = None ->
      _write_output_report command subcommand argument self = (Ok tt, self)).
Proof.
  intros write. split.
  - intros d Hd Hpn. induction n as [| n IH].
    + cbn [Nat.iter seq map]. split; [apply (sent_refl _ d); assumption |].
      split; [apply same_but_handle_refl | exact Hpn].
    + destruct IH as (Hsent & Hsame & Hrange).
      assert (Hstep : Nat.iter (S n) write self
                      = snd (_write_output_report command subcommand argument
                               (Nat.iter n write self))) by reflexivity.
      rewrite Hstep. clear Hstep.
      set (self_n := Nat.iter n write self) in *.
      destruct Hsent as (d0 & Hd0 & Hdn & Hpn_n).
      rewrite Hd in Hd0. injection Hd0 as <-.
      destruct (write_output_report_sent command subcommand argument self_n _
                  Hdn ltac:(lia)) as (self' & Hw & Hsent' & Hsame').
      rewrite Hw. cbn [snd].
      rewrite length_map, length_seq in Hpn_n.
      split; [| split].
      * rewrite seq_S, map_app. cbn [map Nat.add].
        rewrite <- Hpn_n.
        apply (sent_trans 0 0 _ _ self self_n self'); [| exact Hsent'].
        exists d. rewrite length_map, length_seq. auto.
      * eapply same_but_handle_trans; eassumption.
      * destruct Hsent' as (dn & _ & _ & ->).
        pose proof (Z.mod_pos_bound (_packet_number self_n + Z.of_nat (length
          [command ++ [_packet_number self_n] ++ _RUMBLE_DATA ++ subcommand ++ argument]))
          16 ltac:(lia)). lia.
  - intros Hd. unfold _write_output_report, mbind, M_bind, bind, get.
    rewrite Hd. reflexivity.
Qed.

End Counter.

Lemma packet_counter_wraps_witness :
  let self := set_packet_number 14 (plugged 0x2006 []) in
  let write := fun s => snd (_write_output_report [0x01] [0x40] [0x01] s) in
  _packet_number (Nat.iter 3 write self) = 1
  /\ (exists d,
        _joycon_device (Nat.iter 3 write self) = Some d
        /\ written d
           = [ [0x01; 14; 0x00; 0x01; 0x40; 0x40; 0x00; 0x01; 0x40; 0x40; 0x40; 0x01];
               [0x01; 15; 0x00; 0x01; 0x40; 0x40; 0x00; 0x01; 0x40; 0x40; 0x40; 0x01];
               [0x01; 0; 0x00; 0x01; 0x40; 0x40; 0x00; 0x01; 0x40; 0x40; 0x40; 0x01] ]).
Proof.
  cbv zeta.
  destruct (packet_counter_wraps [0x01] [0x40] [0x01]
              (set_packet_number 14 (plugged 0x2006 [])) 3) as [Hrun _].
  destruct (Hrun _ eq_refl ltac:(cbn; lia)) as ((d & Hd & Hdev & Hpn) & _ & _).
  injection Hd as <-.
  split; [rewrite Hpn; reflexivity |].
  eexists. split; [exact Hdev |]. reflexivity.
Defined.

(** ** A closed handle *)

Section Closed.

Context `{K : constants}.

Lemma read_until_closed (tag : Z) (fuel : nat) (self : JoyCon) :
  _joycon_device self = None ->
  read_until tag fuel self = (Raise TypeError, self).
Proof.
  intros Hd. unfold read_until, mbind, M_bind, bind, _read_input_report.
  rewrite Hd. destruct fuel; reflexivity.
Qed.

(** X12: [_close] forgets the handle, and closing twice is closing once.
    On an object without a handle [_read_input_report] returns [None],
    [_write_output_report], [_setup_sensors] and [disconnect_device] do
    nothing, the polling loop ends at once without an event, and the
    subcommand exchange and the flash read raise [TypeError] (the [None]
    report is subscripted); none of them changes the object. *)
Theorem closed_handle (fuel : nat) (self : JoyCon) :
  let closed := set_joycon_device None self in
  _close self = (Ok tt, closed)
  /\ _close closed = (Ok tt, closed)
  /\ _read_input_report closed = (Ok None, closed)
  /\ (forall command subcommand argument,
        _write_output_report command subcommand argument closed = (Ok tt, closed))
  /\ _setup_sensors closed = (Ok tt, closed)
  /\ disconnect_device closed = (Ok tt, closed)
  /\ _update_input_report fuel closed = (Ok tt, closed)
  /\ (forall subcommand argument,
        _send_subcmd_get_response fuel subcommand argument closed
        = (Raise TypeError, closed))
  /\ (forall address size,
        0 <= size <= 0x1D -> 0 <= address < 2 ^ 32 ->
        _spi_flash_read fuel address size closed = (Raise TypeError, closed)).
Proof.
  intros closed.
  assert (Hw : forall command subcommand argument,
            _write_output_report command subcommand argument closed = (Ok tt, closed))
    by reflexivity.
  assert (Hsend : forall subcommand argument,
            _send_subcmd_get_response fuel subcommand argument closed
            = (Raise TypeError, closed)).
  { intros subcommand argument.
    unfold _send_subcmd_get_response, mbind, M_bind, bind.
    rewrite Hw, read_until_closed by reflexivity. reflexivity. }
  repeat split; try reflexivity; try assumption.
  - unfold _update_input_report. destruct fuel; reflexivity.
  - intros address size Hs Ha.
    unfold _spi_flash_read, mbind, M_bind, bind, assert, lift, ret.
    destruct (Z.leb_spec size 0x1D); [| lia].
    rewrite (to_bytes_4 _ Ha), (to_bytes_1 size) by lia.
    rewrite Hsend. reflexivity.
Qed.

End Closed.

Lemma closed_handle_witness :
  let closed := set_joycon_device None (plugged 0x2006 sample_reports) in
  _spi_flash_read 4 0x6050 6 closed = (Raise TypeError, closed)
  /\ _update_input_report 4 closed = (Ok tt, closed).
Proof.
  cbv zeta.
  destruct (closed_handle 4 (plugged 0x2006 sample_reports))
    as (_ & _ & _ & _ & _ & _ & Hpoll & _ & Hflash).
  split; [apply Hflash; lia | exact Hpoll].
Defined.

(** ** Registering callbacks *)

Lemma set_input_hooks_same (self : JoyCon) :
  set_input_hooks (_input_hooks self) self = self.
Proof. destruct self; reflexivity. Qed.

(** X13: [register_update_hook] hands back the callback it was given and
    appends it to the registered ones: registering the callbacks [hs] one
    after the other returns [hs], leaves them registered after the earlier
    ones, in that order and with repetitions kept, and changes nothing
    else; a dispatch then calls the earlier callbacks first and [hs]
    after them, each on the current report. *)
Theorem register_update_hook_order (hs : list hook) :
  forall self : JoyCon,
    mapM register_update_hook hs self
    = (Ok hs, set_input_hooks (_input_hooks self ++ hs) self)
    /\ observed (snd (run_hooks (snd (mapM register_update_hook hs self))))
       = observed (snd (run_hooks self))
         ++ map (fun callback => Called callback (_input_report self)) hs.
Proof.
  assert (Hrun : forall self : JoyCon,
            mapM register_update_hook hs self
            = (Ok hs, set_input_hooks (_input_hooks self ++ hs) self)).
  { induction hs as [| h hs IH]; intros self.
    - cbn. rewrite app_nil_r, set_input_hooks_same. reflexivity.
    - assert (Hreg : register_update_hook h self
                     = (Ok h, set_input_hooks (_input_hooks self ++ [h]) self))
        by reflexivity.
      cbn [mapM]. unfold mbind, M_bind, bind.
      rewrite Hreg, IH. cbn. rewrite <- app_assoc. reflexivity. }
  intros self. split; [apply Hrun |].
  rewrite Hrun. cbn. rewrite map_app, app_assoc. reflexivity.
Qed.

(** ** What the polling thread can do *)

Lemma observe_set_report_twice (e1 e2 : list event) (r1 r2 : list Z)
    (dv1 dv2 : option hid_device) (self : JoyCon) :
  observe e2 (set_input_report r2 (set_joycon_device dv2
    (observe e1 (set_input_report r1 (set_joycon_device dv1 self)))))
  = observe (e1 ++ e2) (set_input_report r2 (set_joycon_device dv2 self)).
Proof. unfold observe; cbn. rewrite app_assoc. reflexivity. Qed.


Section Contained.

Context `{K : constants}.





End Contained.


(** ** What a flash read that returns guarantees *)

Lemma to_bytes_range (n : Z) (len : nat) (l : list Z) :
  Py.to_bytes n len = Ok l -> 0 <= n < 256 ^ Z.of_nat len.
Proof.
  unfold Py.to_bytes.
  destruct (Z.leb_spec 0 n); destruct (Z.ltb_spec n (256 ^ Z.of_nat len)); cbn;
    intros Hrun; try discriminate. lia.
Qed.

Lemma bind_ok_inv {A B} (m : M A) (k : A -> M B) (s s'' : JoyCon) (b : B) :
  bind m k s = (Ok b, s'') ->
  exists a s', m s = (Ok a, s') /\ k a s' = (Ok b, s'').
Proof.
  unfold bind. destruct (m s) as [[a | e |] s']; intros H; try discriminate.
  eauto.
Qed.

Lemma getitem_length {A} (l : list A) (i : Z) (a : A) :
  0 <= i -> Py.getitem l i = Ok a -> (Z.to_nat i < length l)%nat.
Proof.
  intros Hi H. apply getitem_nonneg_lookup in H; [| exact Hi].
  apply lookup_lt_Some in H. exact H.
Qed.

Lemma slice_from_drop {A} (l : list A) (lo : Z) :
  0 <= lo -> Py.slice_from l lo = drop (Z.to_nat lo) l.
Proof.
  intros Hlo. unfold Py.slice_from, Py.clip.
  destruct (Z.ltb_spec lo 0); [lia |].
  destruct (Z.le_gt_cases lo (Z.of_nat (length l))).
  - rewrite Z.min_l by lia. reflexivity.
  - rewrite Z.min_r by lia. rewrite !drop_ge by lia. reflexivity.
Qed.

Lemma spi_flash_read_args (fuel : nat) (address size : Z) (self : JoyCon)
    (data : list Z) (self' : JoyCon) :
  _spi_flash_read fuel address size self = (Ok data, self') ->
  0 <= size <= 0x1D /\ 0 <= address < 2 ^ 32.
Proof.
  unfold _spi_flash_read, mbind, M_bind. intros H.
  apply bind_ok_inv in H as ([] & s1 & H1 & Hk1).
  unfold assert in H1. destruct (Z.leb_spec size 0x1d); [| discriminate].
  apply bind_ok_inv in Hk1 as (a & s2 & H2 & Hk2).
  injection H2 as H2 _. apply to_bytes_range in H2.
  apply bind_ok_inv in Hk2 as (n & s3 & H3 & Hk3).
  injection H3 as H3 _. apply to_bytes_range in H3.
  change (256 ^ Z.of_nat 1) with 256 in H3.
  change (256 ^ Z.of_nat 4) with (2 ^ 32) in H2. lia.
Qed.

Lemma spi_flash_read_inv (fuel : nat) (address size : Z) (self : JoyCon)
    (d : hid_device) (data : list Z) (self' : JoyCon) :
  _joycon_device self = Some d ->
  0 <= _packet_number self <= 15 ->
  _spi_flash_read fuel address size self = (Ok data, self') ->
  0 <= size <= 0x1D /\ 0 <= address < 2 ^ 32
  /\ exists skipped full,
      delivers d (cursor d) (skipped ++ [full])
      /\ Forall (fun x => tag_differs 0x21 x = true) skipped
      /\ has_tag 0x21 full = true
      /\ take 7 (drop 13 full) = [0x90; 0x10] ++ Py.le_digits 4 address ++ [size]
      /\ data = take (Z.to_nat size) (drop 20 full)
      /\ sent (S (length skipped))
           [flash_read_frame (_packet_number self) address size] self self'
      /\ same_but_handle self self'.
Proof.
  intros Hd Hpn Hrun.
  destruct (spi_flash_read_args _ _ _ _ _ _ Hrun) as [Hs Ha].
  split; [exact Hs | split; [exact Ha |]].
  rewrite (spi_flash_read_unfold _ _ _ _ Hs Ha) in Hrun.
  destruct (_send_subcmd_get_response fuel [0x10] _ self)
    as [[[ack report] | e |] self1] eqn:Hsend; try discriminate.
  destruct (ack =? 0); [discriminate |].
  destruct (Py.bytes_eqb (Py.slice report 0 2) [0x90; 0x10]) eqn:Hhead;
    [| discriminate].
  cbn [negb] in Hrun.
  destruct (Py.bytes_eqb (Py.slice report 2 7) _) eqn:Hecho; [| discriminate].
  injection Hrun as <- <-.
  apply bytes_eqb_true in Hhead. apply bytes_eqb_true in Hecho.
  destruct (send_subcmd_sound _ _ _ _ _ _ _ _ Hd Hsend)
    as (skipped & full & frame & pn & Hdel & Hsk & Htag & _ & (b & Hb & _)
        & Hrep & Hself).
  destruct (send_subcmd_frame fuel [0x10] (Py.le_digits 4 address ++ [size])
              self d Hd ltac:(lia)) as [n Hn].
  rewrite Hsend in Hn. cbn [snd] in Hn.
  assert (Hk : n = S (length skipped)).
  { pose proof (f_equal (fun s => option_map cursor (_joycon_device s)) Hself) as H1.
    pose proof (f_equal (fun s => option_map cursor (_joycon_device s)) Hn) as H2.
    cbn in H1, H2. rewrite H1 in H2. injection H2 as H2. lia. }
  subst n. clear Hself.
  rewrite slice_from_drop in Hrep by lia. change (Z.to_nat 13) with 13%nat in Hrep.
  rewrite slice_take_drop in Hhead by lia.
  rewrite slice_take_drop in Hecho by lia.
  change (Z.to_nat (2 - 0)) with 2%nat in Hhead.
  change (Z.to_nat 0) with 0%nat in Hhead. rewrite drop_0 in Hhead.
  change (Z.to_nat (7 - 2)) with 5%nat in Hecho.
  change (Z.to_nat 2) with 2%nat in Hecho.
  exists skipped, full.
  split; [exact Hdel |]. split; [exact Hsk |]. split; [exact Htag |].
  split.
  { rewrite <- Hrep. change 7%nat with (2 + 5)%nat.
    rewrite <- take_take_drop, Hhead, Hecho. reflexivity. }
  split.
  { rewrite slice_take_drop by lia.
    replace (size + 7 - 7) with size by lia.
    change (Z.to_nat 7) with 7%nat. rewrite Hrep, drop_drop. reflexivity. }
  subst self1. split; [| apply same_but_handle_set].
  exists d. split; [exact Hd |]. split; [reflexivity |].
  cbn. rewrite land_0xF. reflexivity.
Qed.

(** X15: what a flash read that returns has done.  The size was in
    [0, 0x1D] and the address a 32-bit one; one frame was written, the
    read request numbered with the packet counter, and the counter moved
    on by one modulo 16; the reports read were dropped up to the first one
    with tag 0x21, whose bytes 13 to 19 are 0x90, 0x10, the four address
    bytes and the size; what is returned are the bytes of that report from
    offset 20 on, at most [size] of them, byte values when the handle
    delivers byte values; and nothing but the handle and the counter
    changed. *)
Theorem spi_flash_read_sound (fuel : nat) (address size : Z) (self : JoyCon)
    (d : hid_device) (data : list Z) (self' : JoyCon) :
  _joycon_device self = Some d ->
  0 <= _packet_number self <= 15 ->
  _spi_flash_read fuel address size self = (Ok data, self') ->
  0 <= size <= 0x1D /\ 0 <= address < 2 ^ 32
  /\ (exists skipped full,
         delivers d (cursor d) (skipped ++ [full])
         /\ Forall (fun x => tag_differs 0x21 x = true) skipped
         /\ has_tag 0x21 full = true
         /\ take 7 (drop 13 full)
            = [0x90; 0x10] ++ Py.le_digits 4 address ++ [size]
         /\ data = take (Z.to_nat size) (drop 20 full)
         /\ (delivers_bytes d -> Forall byte data)
         /\ sent (S (length skipped))
              [flash_read_frame (_packet_number self) address size] self self')
  /\ (length data <= Z.to_nat size)%nat
  /\ same_but_handle self self'.
Proof.
  intros Hd Hpn Hrun.
  destruct (spi_flash_read_inv _ _ _ _ _ _ _ Hd Hpn Hrun)
    as (Hs & Ha & skipped & full & Hdel & Hsk & Htag & Hhead & Hdata & Hsent & Hsame).
  split; [exact Hs |]. split; [exact Ha |].
  split; [| split; [| exact Hsame]].
  - exists skipped, full. repeat (split; [assumption |]).
    split; [| exact Hsent].
    intros Hbytes. subst data. apply Forall_take, Forall_drop.
    apply delivers_app in Hdel as [_ [Hfull _]].
    exact (Hbytes _ _ Hfull).
  - subst data. rewrite length_take. lia.
Qed.

Lemma spi_flash_read_sound_witness :
  exists data self',
    _spi_flash_read 4 0x6050 6 (plugged 0x2006 sample_reports) = (Ok data, self')
    /\ (length data <= Z.to_nat 6)%nat
    /\ same_but_handle (plugged 0x2006 sample_reports) self'.
Proof.
  eassert (Hrun : _spi_flash_read 4 0x6050 6 (plugged 0x2006 sample_reports)
                  = (Ok _, _)) by (vm_compute; reflexivity).
  eexists _, _. split; [exact Hrun |].
  destruct (spi_flash_read_sound 4 0x6050 6 (plugged 0x2006 sample_reports)
              (device_of sample_reports) _ _ eq_refl
              ltac:(vm_compute; split; discriminate) Hrun)
    as (_ & _ & _ & Hlen & Hsame).
  split; [exact Hlen | exact Hsame].
Defined.

(** ** The assertion on the second byte of a reply *)

Lemma slice_1_2 (report : list Z) (b : Z) :
  Py.getitem report 1 = Ok b -> Py.slice report 1 2 = [b].
Proof.
  intros H. apply getitem_nonneg_lookup in H; [| lia].
  rewrite slice_take_drop by lia.
  destruct report as [| t [| x rest]]; try discriminate.
  cbn in H. injection H as ->. reflexivity.
Qed.

(** X16: the exchange compares the second byte of the reply with the
    subcommand and fails on equality.  When the first report with tag 0x21
    that arrives has the subcommand id as its byte 1,
    [_send_subcmd_get_response] raises [AssertionError] whatever the rest
    of the report holds, and so does a flash read (subcommand 0x10) on a
    reply whose byte 1 is 0x10, even one that answers the read. *)
Theorem reply_second_byte_collision (fuel : nat) (self : JoyCon) (d : hid_device)
    (skipped : list (list Z)) (full : list Z) (id : Z) :
  _joycon_device self = Some d ->
  0 <= _packet_number self < 256 ->
  delivers d (cursor d) (skipped ++ [full]) ->
  Forall (fun x => tag_differs 0x21 x = true) skipped ->
  has_tag 0x21 full = true ->
  Py.getitem full 1 = Ok id ->
  (length skipped <= fuel)%nat ->
  (forall argument,
      fst (_send_subcmd_get_response fuel [id] argument self)
      = Raise AssertionError)
  /\ (id = 0x10 ->
      forall address size,
        0 <= size <= 0x1D -> 0 <= address < 2 ^ 32 ->
        fst (_spi_flash_read fuel address size self) = Raise AssertionError).
Proof.
  intros Hd Hpn Hdel Hsk Htag Hid Hfuel.
  assert (Hsend : forall argument,
            fst (_send_subcmd_get_response fuel [id] argument self)
            = Raise AssertionError).
  { intros argument.
    pose proof (write_output_report_ok [0x01] [id] argument _ _ Hd Hpn) as Hw.
    rewrite (send_subcmd_unfold _ _ _ _ _ Hw).
    erewrite read_until_complete; [| reflexivity | | exact Hsk | exact Htag | exact Hfuel].
    - rewrite (slice_1_2 _ _ Hid).
      replace (Py.bytes_eqb [id] [id]) with true
        by (symmetry; apply bytes_eqb_true; reflexivity).
      reflexivity.
    - apply delivers_hid_write. exact Hdel. }
  split; [exact Hsend |].
  intros -> address size Hs Ha.
  rewrite (spi_flash_read_unfold _ _ _ _ Hs Ha).
  specialize (Hsend (Py.le_digits 4 address ++ [size])).
  destruct (_send_subcmd_get_response fuel [0x10] _ self)
    as [[[ack report] | e |] self1]; cbn in Hsend |- *;
    try discriminate. injection Hsend as ->. reflexivity.
Qed.

Lemma reply_second_byte_collision_witness :
  fst (_spi_flash_read 4 0x6050 6
         (plugged 0x2006
            [ report_of 0x30 0 [];
              report_of 0x21 0x10
                ([0x90; 0x10] ++ Py.le_digits 4 0x6050 ++ [6]
                 ++ [1; 2; 3; 4; 5; 6]) ]))
  = Raise AssertionError.
Proof.
  refine (proj2 (reply_second_byte_collision 4
                   (plugged 0x2006
                      [ report_of 0x30 0 [];
                        report_of 0x21 0x10
                          ([0x90; 0x10] ++ Py.le_digits 4 0x6050 ++ [6]
                           ++ [1; 2; 3; 4; 5; 6]) ])
                   (device_of
                      [ report_of 0x30 0 [];
                        report_of 0x21 0x10
                          ([0x90; 0x10] ++ Py.le_digits 4 0x6050 ++ [6]
                           ++ [1; 2; 3; 4; 5; 6]) ])
                   [report_of 0x30 0 []]
                   (report_of 0x21 0x10
                      ([0x90; 0x10] ++ Py.le_digits 4 0x6050 ++ [6]
                       ++ [1; 2; 3; 4; 5; 6]))
                   0x10 eq_refl _ _ _ _ _ _) eq_refl 0x6050 6 _ _).
  - vm_compute. split; [discriminate | reflexivity].
  - cbn. auto.
  - repeat constructor.
  - reflexivity.
  - reflexivity.
  - cbn. lia.
  - lia.
  - lia.
Defined.

(** ** What a setup that returns guarantees *)

Lemma length_flash_read_frames (reads : list (Z * Z)) :
  forall c, length (flash_read_frames c reads) = length reads.
Proof.
  induction reads as [| [a n] reads IH]; intros c; [reflexivity |].
  cbn [flash_read_frames length]. rewrite IH. reflexivity.
Qed.

Lemma flash_read_frames_app (reads1 : list (Z * Z)) :
  forall (c : Z) (reads2 : list (Z * Z)),
    0 <= c <= 15 ->
    flash_read_frames c (reads1 ++ reads2)
    = flash_read_frames c reads1
      ++ flash_read_frames ((c + Z.of_nat (length reads1)) mod 16) reads2.
Proof.
  induction reads1 as [| [a n] reads1 IH]; intros c reads2 Hc.
  - cbn [app flash_read_frames length]. change (Z.of_nat 0) with 0.
    rewrite Z.add_0_r, Z.mod_small by lia. reflexivity.
  - rewrite <- app_comm_cons. cbn [flash_read_frames].
    rewrite IH by (pose proof (Z.mod_pos_bound (c + 1) 16); lia).
    rewrite <- app_comm_cons. do 2 f_equal.
    rewrite Z.add_mod_idemp_l by lia.
    replace (c + 1 + Z.of_nat (length reads1))
      with (c + Z.of_nat (length ((a, n) :: reads1))) by (cbn [length]; lia).
    reflexivity.
Qed.

Lemma sent_same_handle_r (k : nat) (frames : list (list Z)) (a b b' : JoyCon) :
  sent k frames a b ->
  _joycon_device b' = _joycon_device b ->
  _packet_number b' = _packet_number b ->
  sent k frames a b'.
Proof.
  intros (d & Hd & Hb & Hp) Hdev Hpn. exists d. rewrite Hdev, Hpn. auto.
Qed.

Lemma sent_counter (k : nat) (frames : list (list Z)) (a b : JoyCon) :
  sent k frames a b -> 0 <= _packet_number b <= 15.
Proof.
  intros (d & _ & _ & ->).
  pose proof (Z.mod_pos_bound (_packet_number a + Z.of_nat (length frames)) 16).
  lia.
Qed.

Lemma same_but_handle_fields (a b : JoyCon) :
  same_but_handle a b ->
  keeps_identity a b
  /\ stick_cal b = stick_cal a /\ deadzone b = deadzone a.
Proof.
  unfold same_but_handle, keeps_identity. intros ->. cbn. auto 10.
Qed.

Lemma spi_flash_read_step (fuel : nat) (address size : Z) (s0 s s' : JoyCon)
    (d0 : hid_device) (k : nat) (reads : list (Z * Z)) (data : list Z) :
  _joycon_device s0 = Some d0 ->
  0 <= _packet_number s0 <= 15 ->
  delivers_bytes d0 ->
  sent k (flash_read_frames (_packet_number s0) reads) s0 s ->
  _spi_flash_read fuel address size s = (Ok data, s') ->
  (exists k',
      sent k' (flash_read_frames (_packet_number s0) (reads ++ [(address, size)]))
        s0 s')
  /\ same_but_handle s s'
  /\ Forall byte data
  /\ (length data <= Z.to_nat size)%nat.
Proof.
  intros Hd0 Hpn0 Hbytes Hsent Hrun.
  pose proof (sent_counter _ _ _ _ Hsent) as Hpn.
  pose proof Hsent as (d & Hd & Hds & Hpns).
  rewrite Hd0 in Hd. injection Hd as <-.
  rewrite length_flash_read_frames in Hpns.
  destruct (spi_flash_read_inv _ _ _ _ _ _ _ Hds Hpn Hrun)
    as (Hs & Ha & skipped & full & Hdel & _ & _ & _ & Hdata & Hstep & Hsame).
  split; [| split; [exact Hsame | split]].
  - exists (S (length skipped) + k)%nat.
    rewrite flash_read_frames_app by exact Hpn0.
    apply (sent_trans _ _ _ _ _ _ _ Hsent).
    cbn [flash_read_frames]. rewrite <- Hpns. exact Hstep.
  - subst data. apply Forall_take, Forall_drop.
    apply delivers_app in Hdel as [_ [Hfull _]].
    exact (Hbytes _ _ Hfull).
  - subst data. rewrite length_take. lia.
Qed.

Section SetupSound.

Context `{K : constants}.

Lemma store_stick_cal_short_fails (self : JoyCon) (buf : list Z) :
  (length buf < 9)%nat ->
  fst (store_stick_cal buf self) = Raise IndexError.
Proof.
  intros Hlen.
  unfold store_stick_cal, mbind, M_bind, bind, get.
  do 9 (try match goal with
            | b : list Z |- _ => destruct b as [| ? b]
            end).
  all: try (exfalso; cbn in Hlen; lia).
  all: destruct (is_left self); reflexivity.
Qed.

Lemma store_stick_cal_ok_inv (self : JoyCon) (buf : list Z) (self' : JoyCon) :
  (length buf <= 9)%nat ->
  Forall byte buf ->
  store_stick_cal buf self = (Ok tt, self') ->
  exists l,
    self' = set_stick_cal l self
    /\ length l = 6%nat
    /\ Forall (fun v => 0 <= v <= 4095) l.
Proof.
  intros Hlen Hb Hrun.
  destruct (Nat.lt_ge_cases (length buf) 9) as [Hshort | Hlong].
  { pose proof (store_stick_cal_short_fails self buf Hshort) as H.
    rewrite Hrun in H. discriminate. }
  destruct (length_9_inv buf ltac:(lia))
    as (b0 & b1 & b2 & b3 & b4 & b5 & b6 & b7 & b8 & ->).
  repeat match goal with
         | H : Forall byte (_ :: _) |- _ => apply Forall_cons in H as [? H]
         end.
  assert (Hlo : forall a b,
             byte b -> 0 <= Z.lor (Z.land (Z.shiftl a 8) 0xF00) b <= 4095).
  { intros a b Hbb. rewrite nibble_lo_value by exact Hbb.
    unfold byte in Hbb. pose proof (Z.mod_pos_bound a 16). lia. }
  assert (Hhi : forall a b,
             byte a -> byte b -> 0 <= Z.lor (Z.shiftl a 4) (Z.shiftr b 4) <= 4095).
  { intros a b Hba Hbb. rewrite nibble_hi_value by exact Hbb.
    unfold byte in Hba, Hbb.
    assert (0 <= b / 16 < 16)
      by (split; [apply Z.div_pos; lia | apply Z.div_lt_upper_bound; lia]).
    lia. }
  destruct (is_left self) eqn:Hl.
  - rewrite (store_stick_cal_left _ _ _ _ _ _ _ _ _ _ Hl) in Hrun.
    injection Hrun as <-. eexists. split; [reflexivity |].
    split; [reflexivity |].
    repeat (apply List.Forall_cons; [solve [auto] |]). apply List.Forall_nil.
  - rewrite (store_stick_cal_not_left _ _ _ _ _ _ _ _ _ _ Hl) in Hrun.
    injection Hrun as <-. eexists. split; [reflexivity |].
    split; [reflexivity |].
    repeat (apply List.Forall_cons; [solve [auto] |]). apply List.Forall_nil.
Qed.

Lemma read_stick_calibration_step (fuel : nat) (s0 s s' : JoyCon)
    (d0 : hid_device) (k : nat) (reads : list (Z * Z)) :
  _joycon_device s0 = Some d0 ->
  0 <= _packet_number s0 <= 15 ->
  delivers_bytes d0 ->
  sent k (flash_read_frames (_packet_number s0) reads) s0 s ->
  _read_stick_calibration_data fuel s = (Ok tt, s') ->
  exists k' (factory : bool) s1 l,
    sent k'
      (flash_read_frames (_packet_number s0)
         (reads ++ [(user_stick_cal_addr s, 9)]
          ++ (if factory then [(factory_stick_cal_addr s, 9)] else [])))
      s0 s'
    /\ same_but_handle s s1
    /\ s' = set_stick_cal l s1
    /\ length l = 6%nat
    /\ Forall (fun v => 0 <= v <= 4095) l.
Proof.
  intros Hd0 Hpn0 Hbytes Hsent Hrun.
  unfold _read_stick_calibration_data, mbind, M_bind in Hrun.
  apply bind_ok_inv in Hrun as (self0 & s1 & Hget & Hrun1).
  injection Hget as <- <-.
  apply bind_ok_inv in Hrun1 as (buf & s1 & Hread1 & Hrun2).
  apply bind_ok_inv in Hrun2 as (buf2 & s2 & Hread2 & Hstore).
  destruct (spi_flash_read_step _ _ _ _ _ _ _ _ _ _ Hd0 Hpn0 Hbytes Hsent Hread1)
    as ((k1 & Hsent1) & Hsame1 & Hb1 & Hl1).
  change (Z.to_nat 9) with 9%nat in Hl1.
  destruct (negb (use_user_data buf)).
  - destruct (spi_flash_read_step _ _ _ _ _ _ _ _ _ _ Hd0 Hpn0 Hbytes Hsent1 Hread2)
      as ((k2 & Hsent2) & Hsame2 & Hb2 & Hl2).
    change (Z.to_nat 9) with 9%nat in Hl2.
    destruct (store_stick_cal_ok_inv _ _ _ Hl2 Hb2 Hstore) as (l & -> & Hlen & Hr).
    exists k2, true, s2, l.
    split; [| split; [exact (same_but_handle_trans _ _ _ Hsame1 Hsame2) | auto]].
    rewrite app_assoc.
    apply (sent_same_handle_r _ _ _ s2); [exact Hsent2 | reflexivity | reflexivity].
  - injection Hread2 as <- <-.
    destruct (store_stick_cal_ok_inv _ _ _ Hl1 Hb1 Hstore) as (l & -> & Hlen & Hr).
    exists k1, false, s1, l.
    split; [| split; [exact Hsame1 | auto]].
    rewrite app_nil_r.
    apply (sent_same_handle_r _ _ _ s1); [exact Hsent1 | reflexivity | reflexivity].
Qed.

End SetupSound.

Lemma set_accel_calibration_ok_inv (ox oy oz cx cy cz : Z) (s s' : JoyCon) :
  set_accel_calibration (Some [ox; oy; oz]) (Some [cx; cy; cz]) s = (Ok tt, s') ->
  exists x y z,
    s' = set_ACCEL_COEFF_Z z
           (set_ACCEL_COEFF_Y y
              (set_ACCEL_COEFF_X x (set_ACCEL_OFFSET ox oy oz s))).
Proof.
  unfold set_accel_calibration, mbind, M_bind, bind, lift, get, modify.
  cbn [truthy andb unpack3].
  destruct (accel_coeff cx _) as [x | |]; try discriminate.
  destruct (accel_coeff cy _) as [y | |]; try discriminate.
  destruct (accel_coeff cz _) as [z | |]; try discriminate.
  intros [= <-]. eauto.
Qed.

Lemma keeps_identity_trans (a b c : JoyCon) :
  keeps_identity a b -> keeps_identity b c -> keeps_identity a c.
Proof.
  unfold keeps_identity. intros (? & ? & ? & ?) (? & ? & ? & ?).
  repeat split; congruence.
Qed.

Lemma nibble_lo_range (buf : list Z) (i j v : Z) :
  Forall byte buf -> nibble_lo buf i j = Ok v -> 0 <= v <= 4095.
Proof.
  intros Hb. unfold nibble_lo, mbind, outcome_bind, obind, mret, outcome_ret.
  destruct (Py.getitem buf i) as [a | |]; try discriminate.
  destruct (Py.getitem buf j) as [b | |] eqn:Hj; try discriminate.
  intros [= <-]. pose proof (getitem_Forall _ _ _ _ Hb Hj) as Hbb.
  rewrite nibble_lo_value by exact Hbb.
  unfold byte in Hbb. pose proof (Z.mod_pos_bound a 16). lia.
Qed.

Lemma int16_range (buf : list Z) (i j v : Z) :
  Forall byte buf ->
  (a ← Py.getitem buf i; b ← Py.getitem buf j;
   mret (_to_int16le_from_2bytes a b)) = Ok v ->
  -32768 <= v <= 32767.
Proof.
  intros Hb. unfold mbind, outcome_bind, obind, mret, outcome_ret.
  destruct (Py.getitem buf i) as [a | |] eqn:Hi; try discriminate.
  destruct (Py.getitem buf j) as [b | |] eqn:Hj; try discriminate.
  intros [= <-].
  apply int16le_decode_value;
    [exact (getitem_Forall _ _ _ _ Hb Hi) | exact (getitem_Forall _ _ _ _ Hb Hj)].
Qed.

Section SetupReturns.

Context `{K : constants}.

Lemma read_joycon_data_inv (fuel : nat) (self : JoyCon) (d : hid_device)
    (self' : JoyCon) :
  _joycon_device self = Some d ->
  0 <= _packet_number self <= 15 ->
  delivers_bytes d ->
  _read_joycon_data fuel self = (Ok tt, self') ->
  exists k factory_stick user_imu,
    sent k
      (flash_read_frames (_packet_number self)
         (setup_reads self factory_stick user_imu))
      self self'
    /\ keeps_identity self self'
    /\ calibrated self'.
Proof.
  intros Hd Hpn Hbytes Hrun.
  unfold _read_joycon_data, mbind, M_bind in Hrun.
  apply bind_ok_inv in Hrun as (color_data & s1 & Hcolor & Hrun1).
  apply bind_ok_inv in Hrun1 as ([] & s2 & Hstick & Hrun2).
  apply bind_ok_inv in Hrun2 as (self2 & s2' & Hget & Hrun3).
  unfold get in Hget. injection Hget as <- <-.
  apply bind_ok_inv in Hrun3 as (buf & s3 & Hdz & Hrun4).
  apply bind_ok_inv in Hrun4 as (dz & s3' & Hnib & Hrun5).
  unfold lift in Hnib. injection Hnib as Hnib <-.
  apply bind_ok_inv in Hrun5 as ([] & s4 & Hset & Hrun6).
  unfold modify in Hset. injection Hset as <-.
  apply bind_ok_inv in Hrun6 as (marker & s5 & Hmarker & Hrun7).
  apply bind_ok_inv in Hrun7 as (imu_cal & s6 & Himu & Hrun8).
  apply bind_ok_inv in Hrun8 as ([] & s7 & Hc1 & Hrun9).
  unfold modify in Hc1. injection Hc1 as <-.
  apply bind_ok_inv in Hrun9 as ([] & s8 & Hc2 & Hrun10).
  unfold modify in Hc2. injection Hc2 as <-.
  cbv zeta in Hrun10.
  apply bind_ok_inv in Hrun10 as (o0 & t0 & Ho0 & Hrun11).
  unfold lift in Ho0. injection Ho0 as Ho0 <-.
  apply bind_ok_inv in Hrun11 as (o1 & t1 & Ho1 & Hrun12).
  unfold lift in Ho1. injection Ho1 as Ho1 <-.
  apply bind_ok_inv in Hrun12 as (o2 & t2 & Ho2 & Hrun13).
  unfold lift in Ho2. injection Ho2 as Ho2 <-.
  apply bind_ok_inv in Hrun13 as (c0 & t3 & Hc0 & Hrun14).
  unfold lift in Hc0. injection Hc0 as Hc0 <-.
  apply bind_ok_inv in Hrun14 as (c1 & t4 & Hc1 & Hrun15).
  unfold lift in Hc1. injection Hc1 as Hc1 <-.
  apply bind_ok_inv in Hrun15 as (c2 & t5 & Hc2 & Hcal).
  unfold lift in Hc2. injection Hc2 as Hc2 <-.
  (* the reads, one after the other *)
  pose proof (sent_refl self d Hd Hpn) as Hsent0.
  change [] with (flash_read_frames (_packet_number self) []) in Hsent0.
  destruct (spi_flash_read_step _ _ _ _ _ _ _ _ _ _ Hd Hpn Hbytes Hsent0 Hcolor)
    as ((k1 & Hsent1) & Hsame1 & Hcb & Hcl).
  destruct (read_stick_calibration_step _ _ _ _ _ _ _ Hd Hpn Hbytes Hsent1 Hstick)
    as (k2 & factory & s1' & l & Hsent2 & Hsame2 & -> & Hlen & Hrange).
  destruct (spi_flash_read_step _ _ _ _ _ _ _ _ _ _ Hd Hpn Hbytes Hsent2 Hdz)
    as ((k3 & Hsent3) & Hsame3 & Hbb & _).
  pose proof (nibble_lo_range _ _ _ _ Hbb Hnib) as Hdzr.
  pose proof (sent_same_handle_r _ _ _ _ (set_deadzone dz s3) Hsent3 eq_refl eq_refl)
    as Hsent4.
  destruct (spi_flash_read_step _ _ _ _ _ _ _ _ _ _ Hd Hpn Hbytes Hsent4 Hmarker)
    as ((k5 & Hsent5) & Hsame5 & _ & _).
  assert (Himu' : exists user_imu : bool,
             _spi_flash_read fuel (if user_imu then 0x8028 else 0x6020) 24 s5
             = (Ok imu_cal, s6)).
  { destruct (Py.bytes_eqb marker _); [exists true | exists false]; exact Himu. }
  destruct Himu' as [user_imu Himu'].
  destruct (spi_flash_read_step _ _ _ _ _ _ _ _ _ _ Hd Hpn Hbytes Hsent5 Himu')
    as ((k6 & Hsent6) & Hsame6 & Hib & _).
  destruct (set_accel_calibration_ok_inv _ _ _ _ _ _ _ _ Hcal) as (x & y & z & ->).
  destruct (same_but_handle_fields _ _ Hsame1) as (Hid1 & _ & _).
  destruct (same_but_handle_fields _ _ Hsame2) as (Hid2 & _ & _).
  destruct (same_but_handle_fields _ _ Hsame3) as (Hid3 & Hsc3 & _).
  destruct (same_but_handle_fields _ _ Hsame5) as (Hid5 & Hsc5 & Hdz5).
  destruct (same_but_handle_fields _ _ Hsame6) as (Hid6 & Hsc6 & Hdz6).
  simpl in Hid3, Hsc3, Hid5, Hsc5, Hdz5.
  assert (Hid : keeps_identity self s6).
  { apply (keeps_identity_trans _ s5); [| exact Hid6].
    apply (keeps_identity_trans _ s3); [| exact Hid5].
    apply (keeps_identity_trans _ s1'); [| exact Hid3].
    apply (keeps_identity_trans _ s1); assumption. }
  exists k6, factory, user_imu.
  split; [| split].
  - apply (sent_same_handle_r _ _ _ s6); [| reflexivity | reflexivity].
    replace (setup_reads self factory user_imu)
      with ((((([] ++ [(0x6050, 6)])
               ++ [(user_stick_cal_addr s1, 9)]
               ++ (if factory then [(factory_stick_cal_addr s1, 9)] else []))
              ++ [(if is_left (set_stick_cal l s1') then 0x6086 else 0x6098, 16)])
             ++ [(0x8026, 2)]) ++ [(if user_imu then 0x8028 else 0x6020, 24)]);
      [exact Hsent6 |].
    destruct Hid1 as (Hp1 & _). destruct Hid2 as (Hp2 & _).
    unfold setup_reads, user_stick_cal_addr, factory_stick_cal_addr, is_left.
    simpl product_id. rewrite Hp2, Hp1.
    destruct factory; reflexivity.
  - destruct Hid as (? & ? & ? & ?). repeat split; simpl; assumption.
  - unfold calibrated. simpl.
    rewrite Hsc6, Hsc5, Hsc3, Hdz6, Hdz5.
    split; [exact Hlen |]. split; [exact Hrange |]. split; [exact Hdzr |].
    split; [exact (int16_range _ _ _ _ Hib Ho0) |].
    split; [exact (int16_range _ _ _ _ Hib Ho1) |].
    split; [exact (int16_range _ _ _ _ Hib Ho2) |].
    rewrite slice_take_drop by lia. rewrite slice_from_drop by lia.
    split; [rewrite length_take; lia |].
    split; [apply Forall_take, Forall_drop; exact Hcb |].
    split; [| apply Forall_drop; exact Hcb].
    rewrite length_drop. change (Z.to_nat 6) with 6%nat in Hcl.
    change (Z.to_nat 3) with 3%nat. lia.
Qed.

End SetupReturns.

Section Setup.

Context `{K : constants}.

(** X17: what [_read_joycon_data] has done when it returns, on a handle
    that delivers byte values and with a packet counter in [0, 15].  It
    wrote five or six flash-read requests and nothing else: the colors,
    the user stick calibration, the factory one if it asked for it, the
    deadzone block, the IMU marker and one IMU calibration block, numbered
    in a row from the packet counter, modulo 16.  It left six stick
    calibration entries and a deadzone of 12 bits, accelerometer offsets in
    the signed 16-bit range and two colors of at most three byte values;
    the product id, the callbacks, the current report and the events are
    as before. *)
Theorem read_joycon_data_sound (fuel : nat) (self : JoyCon) (d : hid_device)
    (self' : JoyCon) :
  _joycon_device self = Some d ->
  0 <= _packet_number self <= 15 ->
  delivers_bytes d ->
  _read_joycon_data fuel self = (Ok tt, self') ->
  exists k factory_stick user_imu,
    sent k
      (flash_read_frames (_packet_number self)
         (setup_reads self factory_stick user_imu))
      self self'
    /\ keeps_identity self self'
    /\ calibrated self'.
Proof. exact (read_joycon_data_inv fuel self d self'). Qed.

Lemma length_setup_reads (self : JoyCon) (factory_stick user_imu : bool) :
  length (setup_reads self factory_stick user_imu)
  = if factory_stick then 6%nat else 5%nat.
Proof. destruct factory_stick; reflexivity. Qed.

Lemma setup_reads_product_id (a b : JoyCon) (factory_stick user_imu : bool) :
  product_id a = product_id b ->
  setup_reads a factory_stick user_imu = setup_reads b factory_stick user_imu.
Proof.
  intros H.
  unfold setup_reads, user_stick_cal_addr, factory_stick_cal_addr, is_left.
  rewrite H. reflexivity.
Qed.

(** X18: the constructor.  A vendor id other than [JOYCON_VENDOR_ID] or a
    product id that is not in [JOYCON_PRODUCT_IDS] raises [ValueError].
    When the constructor gets as far as starting the polling thread, on a
    handle that delivers byte values, the ids were accepted; the object
    has the product id it was given, no callback, a current report of 49
    zero bytes and the calibration attributes within their ranges; and
    what was written to the handle since it was opened are the five or six
    flash-read requests of the setup followed by the two frames of
    [_setup_sensors], numbered 0, 1, 2, ..., which leaves the packet
    counter at 7 or 8. *)
Theorem init_sound (fuel : nat) (vid pid : Z) (device : hid_device) :
  (vid <> JOYCON_VENDOR_ID \/ pid ∉ JOYCON_PRODUCT_IDS ->
   fst (__init__ fuel vid pid device) = Raise ValueError)
  /\ (forall self,
        delivers_bytes device ->
        __init__ fuel vid pid device = (Ok tt, self) ->
        vid = JOYCON_VENDOR_ID /\ pid ∈ JOYCON_PRODUCT_IDS
        /\ product_id self = pid
        /\ _input_hooks self = []
        /\ _input_report self = Py.zero_bytes 49
        /\ observed self = []
        /\ calibrated self
        /\ exists k factory_stick user_imu,
            let reads := setup_reads self factory_stick user_imu in
            let counter := Z.of_nat (length reads) in
            _joycon_device self
            = Some (Build_hid_device (incoming device) (k + cursor device)
                      (written device ++ flash_read_frames 0 reads
                       ++ sensor_frames counter))
            /\ _packet_number self = counter + 2
            /\ (counter = 5 \/ counter = 6)).
Proof.
  split.
  - intros Hbad. unfold __init__.
    destruct (Z.eqb_spec vid JOYCON_VENDOR_ID) as [Hv | Hv]; [| reflexivity].
    cbn [negb]. destruct Hbad as [Hbad | Hbad]; [contradiction |].
    rewrite bool_decide_eq_false_2 by exact Hbad. reflexivity.
  - intros self Hbytes Hrun. unfold __init__ in Hrun.
    remember (fresh pid) as s0 eqn:Hs0 in Hrun.
    remember [0; 0; 0] as offsets eqn:Hoffsets in Hrun.
    remember [1; 1; 1] as references eqn:Hreferences in Hrun.
    destruct (Z.eqb_spec vid JOYCON_VENDOR_ID) as [Hv | Hv]; [| discriminate].
    cbn [negb] in Hrun.
    destruct (bool_decide (pid ∈ JOYCON_PRODUCT_IDS)) eqn:Hin; [| discriminate].
    apply bool_decide_eq_true in Hin. cbn [negb] in Hrun.
    unfold mbind, M_bind in Hrun.
    apply bind_ok_inv in Hrun as ([] & s1 & Hdef & Hrun1).
    subst offsets references s0.
    destruct (set_accel_calibration_ok_inv _ _ _ _ _ _ _ _ Hdef) as (x & y & z & ->).
    apply bind_ok_inv in Hrun1 as ([] & s2 & Hopen & Hrun2).
    unfold modify in Hopen. injection Hopen as Hs2.
    apply bind_ok_inv in Hrun2 as ([] & s3 & Hdata & Hsensors).
    assert (Hd2 : _joycon_device s2 = Some device) by (rewrite <- Hs2; reflexivity).
    assert (Hpn2 : _packet_number s2 = 0) by (rewrite <- Hs2; reflexivity).
    assert (Hid2 : product_id s2 = pid /\ _input_hooks s2 = []
                   /\ _input_report s2 = Py.zero_bytes 49 /\ observed s2 = [])
      by (rewrite <- Hs2; repeat split; reflexivity).
    destruct Hid2 as (Hp2 & Hh2 & Hr2 & Ho2).
    clear Hs2 Hdef.
    destruct (read_joycon_data_inv fuel s2 device s3 Hd2 ltac:(lia) Hbytes Hdata)
      as (k & factory & user_imu & Hsent & (Hp & Hh & Hr & Ho) & Hcal).
    rewrite Hpn2 in Hsent.
    pose proof (sent_counter _ _ _ _ Hsent) as Hpn3.
    destruct Hsent as (d0 & Hd0 & Hd3 & Hc3).
    rewrite Hd2 in Hd0. injection Hd0 as <-.
    rewrite length_flash_read_frames, Hpn2 in Hc3.
    pose proof (length_setup_reads s2 factory user_imu) as Hlen.
    remember (setup_reads s2 factory user_imu) as reads eqn:Hreads.
    unfold _setup_sensors, mbind, M_bind, bind in Hsensors.
    rewrite (write_output_report_ok _ _ _ _ _ Hd3 ltac:(lia)) in Hsensors.
    erewrite write_output_report_ok in Hsensors; [| reflexivity |].
    2: { change (0 <= Z.land (_packet_number s3 + 1) 0xF < 256).
         rewrite land_0xF.
         pose proof (Z.mod_pos_bound (_packet_number s3 + 1) 16). lia. }
    injection Hsensors as Hself.
    assert (Hp' : product_id self = product_id s3) by (rewrite <- Hself; reflexivity).
    assert (Hh' : _input_hooks self = _input_hooks s3)
      by (rewrite <- Hself; reflexivity).
    assert (Hr' : _input_report self = _input_report s3)
      by (rewrite <- Hself; reflexivity).
    assert (Ho' : observed self = observed s3) by (rewrite <- Hself; reflexivity).
    assert (Hcal' : calibrated self) by (rewrite <- Hself; exact Hcal).
    assert (Hdev : _joycon_device self
                   = Some (hid_write
                             ([0x01] ++ [Z.land (_packet_number s3 + 1) 0xF]
                              ++ _RUMBLE_DATA ++ [0x03] ++ [0x30])
                             (hid_write
                                ([0x01] ++ [_packet_number s3] ++ _RUMBLE_DATA
                                 ++ [0x40] ++ [0x01])
                                {| incoming := incoming device;
                                   cursor := k + cursor device;
                                   written := written device
                                              ++ flash_read_frames 0 reads |})))
      by (rewrite <- Hself; reflexivity).
    assert (Hpn : _packet_number self
                  = Z.land (Z.land (_packet_number s3 + 1) 0xF + 1) 0xF)
      by (rewrite <- Hself; reflexivity).
    clear Hself.
    split; [exact Hv |]. split; [exact Hin |].
    split; [congruence |]. split; [congruence |].
    split; [congruence |]. split; [congruence |].
    split; [exact Hcal' |].
    exists k, factory, user_imu. cbv zeta.
    rewrite (setup_reads_product_id self s2) by congruence.
    rewrite <- Hreads, Hdev, Hpn, Hc3, Hlen, !land_0xF.
    unfold hid_write, sensor_frames. cbn [written incoming cursor].
    rewrite <- !app_assoc.
    destruct factory; (split; [reflexivity | split; [reflexivity | auto]]).
Qed.

End Setup.

Lemma device_of_delivers_bytes (reports : list (list Z)) :
  forallb (forallb (fun b => (0 <=? b) && (b <? 256))) reports = true ->
  delivers_bytes (device_of reports).
Proof.
  intros Hall k report Hk. cbn in Hk.
  apply list_elem_of_lookup_2 in Hk. apply list_elem_of_In in Hk.
  rewrite forallb_forall in Hall. specialize (Hall _ Hk).
  rewrite forallb_forall in Hall.
  apply Forall_forall. intros b Hb. apply list_elem_of_In in Hb.
  specialize (Hall _ Hb). unfold byte. lia.
Qed.

Lemma read_joycon_data_sound_witness :
  exists self',
    _read_joycon_data (K := spec_constants) 3
      (set_joycon_device (Some (device_of setup_replies)) (with_defaults 0x2006))
    = (Ok tt, self')
    /\ keeps_identity
         (set_joycon_device (Some (device_of setup_replies)) (with_defaults 0x2006))
         self'
    /\ calibrated self'.
Proof.
  eassert (Hrun : _read_joycon_data (K := spec_constants) 3
                    (set_joycon_device (Some (device_of setup_replies))
                       (with_defaults 0x2006))
                  = (Ok tt, _)) by (vm_compute; reflexivity).
  eexists. split; [exact Hrun |].
  destruct (read_joycon_data_sound (K := spec_constants) 3
              (set_joycon_device (Some (device_of setup_replies))
                 (with_defaults 0x2006))
              (device_of setup_replies) _ eq_refl
              ltac:(vm_compute; split; discriminate)
              (device_of_delivers_bytes setup_replies
                 ltac:(vm_compute; reflexivity))
              Hrun)
    as (k & factory & user_imu & _ & Hid & Hcal).
  split; [exact Hid | exact Hcal].
Defined.

Lemma init_sound_witness :
  fst (__init__ (K := spec_constants) 3 0x057F 0x2006 (device_of setup_replies))
  = Raise ValueError
  /\ exists self,
      __init__ (K := spec_constants) 3 0x057E 0x2006 (device_of setup_replies)
      = (Ok tt, self)
      /\ product_id self = 0x2006
      /\ calibrated self.
Proof.
  split.
  - apply (proj1 (init_sound (K := spec_constants) 3 0x057F 0x2006
                    (device_of setup_replies))).
    left. discriminate.
  - eassert (Hrun : __init__ (K := spec_constants) 3 0x057E 0x2006
                      (device_of setup_replies)
                    = (Ok tt, _)) by (vm_compute; reflexivity).
    eexists. split; [exact Hrun |].
    destruct (proj2 (init_sound (K := spec_constants) 3 0x057E 0x2006
                       (device_of setup_replies)) _
                (device_of_delivers_bytes setup_replies
                   ltac:(vm_compute; reflexivity))
                Hrun)
      as (_ & _ & Hp & _ & _ & _ & Hcal & _).
    split; [exact Hp | exact Hcal].
Defined.
